(** * discord/audit_logs.py: decoding of audit-log entries

    A shallow embedding of [AuditLogChanges] and [AuditLogEntry] and the
    properties the specification states about them.

    Python values are embedded in one universal type [val]; exceptions
    are the [Raise] results of an error monad; the caches owned by the
    client runtime (guild, connection state, the three lookup tables the
    caller supplies) form a [World] that every operation reads, so that an
    entry keeps references to them rather than copies. *)

From Stdlib Require Import ZArith Lia Ascii.
From stdpp Require Import base option list strings gmap.

Local Open Scope Z_scope.
Local Open Scope string_scope.
Local Set Warnings "-register-all".

(** ** Python values *)

(** JSON payload values, tuples, and instances of classes. An instance is
    its class name and its attribute dictionary, in insertion order. The
    payloads of audit logs carry no floating point numbers. *)
Inductive val : Type :=
  | VNone
  | VBool (b : bool)
  | VInt (z : Z)
  | VStr (s : string)
  | VList (l : list val)
  | VTuple (l : list val)
  | VDict (d : list (string * val))
  | VInst (cls : string) (attrs : list (string * val)).

(** ** Exceptions *)

Inductive exn : Type := KeyError | ValueError | TypeError | AttributeError.

Inductive result (A : Type) : Type :=
  | Ok (a : A)
  | Raise (e : exn).
Arguments Ok {A} a.
Arguments Raise {A} e.

Definition rbind {A B} (m : result A) (k : A -> result B) : result B :=
  match m with
  | Ok a => k a
  | Raise e => Raise e
  end.

Notation "'let*' x ':=' m 'in' k" := (rbind m (fun x => k))
  (at level 10, x name, m at level 100, k at level 200, only parsing).
Notation "'let*' ' pat ':=' m 'in' k" :=
  (rbind m (fun x => match x with pat => k end))
  (at level 10, pat pattern, m at level 100, k at level 200, only parsing).

(** [try: ... except exc: handler] for one exception class. *)
Definition except {A} (m : result A) (exc : exn) (handler : result A) : result A :=
  match m with
  | Raise KeyError => match exc with KeyError => handler | _ => m end
  | Raise ValueError => match exc with ValueError => handler | _ => m end
  | Raise TypeError => match exc with TypeError => handler | _ => m end
  | Raise AttributeError => match exc with AttributeError => handler | _ => m end
  | Ok _ => m
  end.

Fixpoint mapM {A B} (f : A -> result B) (l : list A) : result (list B) :=
  match l with
  | [] => Ok []
  | x :: l' => let* y := f x in let* ys := mapM f l' in Ok (y :: ys)
  end.

Fixpoint foldM {A S} (f : S -> A -> result S) (s : S) (l : list A) : result S :=
  match l with
  | [] => Ok s
  | x :: l' => let* s' := f s x in foldM f s' l'
  end.

(** ** Built-in operations *)

Module Py.

(** Association lists with Python's [dict] discipline: a key occurs once,
    an update keeps the position of the key, a new key goes last. *)
Fixpoint assoc {V} (k : string) (d : list (string * V)) : option V :=
  match d with
  | [] => None
  | (k', v) :: d' => if String.eqb k k' then Some v else assoc k d'
  end.

Fixpoint assoc_set {V} (k : string) (v : V) (d : list (string * V))
  : list (string * V) :=
  match d with
  | [] => [(k, v)]
  | (k', v') :: d' =>
      if String.eqb k k' then (k, v) :: d' else (k', v') :: assoc_set k v d'
  end.

(** [bool(v)]. No class of this library reached through [or] below defines
    [__bool__] or [__len__], so an instance is true. *)
Definition truthy (v : val) : bool :=
  match v with
  | VNone => false
  | VBool b => b
  | VInt z => negb (z =? 0)%Z
  | VStr s => negb (String.eqb s EmptyString)
  | VList l | VTuple l => match l with [] => false | _ => true end
  | VDict d => match d with [] => false | _ => true end
  | VInst _ _ => true
  end.

(** [a or b] *)
Definition or_ (a b : val) : val := if truthy a then a else b.

(** [v == n] for an integer literal [n]; [True == 1] holds in Python. *)
Definition eq_int (v : val) (n : Z) : bool :=
  match v with
  | VInt z => (z =? n)%Z
  | VBool b => ((if b then 1 else 0) =? n)%Z
  | _ => false
  end.

(** [v == s] for a string literal [s]. *)
Definition eq_str (v : val) (s : string) : bool :=
  match v with
  | VStr s' => String.eqb s' s
  | _ => false
  end.

(** [d[k]] for a string key. *)
Definition getitem (d : val) (k : string) : result val :=
  match d with
  | VDict items =>
      match assoc k items with Some v => Ok v | None => Raise KeyError end
  | _ => Raise TypeError
  end.

(** [d.get(k, default)] *)
Definition get (d : val) (k : string) (default : val) : result val :=
  match d with
  | VDict items => Ok (from_option id default (assoc k items))
  | _ => Raise AttributeError
  end.

(** [for x in v]: the items the loop visits. *)
Definition iter (v : val) : result (list val) :=
  match v with
  | VList l | VTuple l => Ok l
  | VDict d => Ok (map (fun kv => VStr (fst kv)) d)
  | VStr s => Ok (map (fun c => VStr (String c EmptyString)) (String.list_ascii_of_string s))
  | _ => Raise TypeError
  end.

(** *** [int(v)] *)

Definition is_space (c : ascii) : bool :=
  let n := nat_of_ascii c in
  ((9 <=? n) && (n <=? 13))%nat || (n =? 32)%nat || ((28 <=? n) && (n <=? 31))%nat.

Definition digit_of (c : ascii) : option Z :=
  let n := nat_of_ascii c in
  if ((48 <=? n) && (n <=? 57))%nat then Some (Z.of_nat n - 48) else None.

Definition is_underscore (c : ascii) : bool := (nat_of_ascii c =? 95)%nat.

(** Digits with single underscores between them; [acc] is the value read so
    far and [after_digit] tells whether the previous character was a digit. *)
Fixpoint parse_digits (cs : list ascii) (acc : Z) (after_digit : bool)
  : option Z :=
  match cs with
  | [] => if after_digit then Some acc else None
  | c :: cs' =>
      match digit_of c with
      | Some d => parse_digits cs' (10 * acc + d) true
      | None =>
          if is_underscore c && after_digit
          then match cs' with
               | [] => None
               | _ => parse_digits cs' acc false
               end
          else None
      end
  end.

Fixpoint drop_spaces (cs : list ascii) : list ascii :=
  match cs with
  | c :: cs' => if is_space c then drop_spaces cs' else cs
  | [] => []
  end.

Definition strip (cs : list ascii) : list ascii :=
  rev (drop_spaces (rev (drop_spaces cs))).

(** A decimal literal in ASCII: surrounding white space, one optional sign,
    digits grouped by single underscores. *)
Definition parse_int (s : string) : option Z :=
  match strip (String.list_ascii_of_string s) with
  | "-"%char :: cs => Z.opp <$> parse_digits cs 0 false
  | "+"%char :: cs => parse_digits cs 0 false
  | cs => parse_digits cs 0 false
  end.

Definition int (v : val) : result Z :=
  match v with
  | VInt z => Ok z
  | VBool b => Ok (if b then 1 else 0)
  | VStr s => match parse_int s with Some z => Ok z | None => Raise ValueError end
  | _ => Raise TypeError
  end.

(** [s.startswith(p)] and [s.endswith(p)] *)
Definition startswith (s p : string) : bool := String.prefix p s.

Definition endswith (s p : string) : bool :=
  let n := String.length s in
  let m := String.length p in
  (m <=? n)%nat && String.eqb (String.substring (n - m) m s) p.

End Py.

(** ** Collaborators outside this module *)

Inductive AuditLogActionCategory : Type := create | delete | update.

(** A member of [enums.AuditLogAction] with the two properties the enum
    declares for it. *)
Record AuditLogAction : Type := {
  name : string;
  value : Z;
  category : option AuditLogActionCategory;
  target_type : option string;
}.

(** What [enums.try_enum] hands back: a member, or its stand-in for a code
    the enum does not know. *)
Inductive action_t : Type :=
  | Member (m : AuditLogAction)
  | Unrecognized (raw : val).

(** The parts of the library this module calls but does not define.
    [AuditLogAction_members] is the member table of the action enum,
    [unknown_name] the name the enum service gives to an unrecognized code,
    and [extern f args] a call of the constructor or helper [f] of another
    module ([Colour], [Permissions], [Asset._from_icon], ...), which may
    raise. *)
Class Collaborators : Type := {
  AuditLogAction_members : list AuditLogAction;
  unknown_name : val -> string;
  extern : string -> list val -> result val;
}.

(** Modelled from the spec: [enums.try_enum] is missing. The enum-decode
    service maps a raw code to the variant with that value and never fails:
    an unknown code yields the unrecognized variant. *)
Definition try_enum `{!Collaborators} (raw : val) : action_t :=
  match List.find (fun m => Py.eq_int raw (value m)) AuditLogAction_members with
  | Some m => Member m
  | None => Unrecognized raw
  end.

(** [isinstance(action, enums.AuditLogAction)] *)
Definition is_member (a : action_t) : bool :=
  match a with Member _ => true | Unrecognized _ => false end.

(** [action is enums.AuditLogAction.<nm>]: the members are singletons told
    apart by their names. *)
Definition is_action (a : action_t) (nm : string) : bool :=
  match a with
  | Member m => String.eqb (name m) nm
  | Unrecognized _ => false
  end.

Definition action_name `{!Collaborators} (a : action_t) : string :=
  match a with
  | Member m => name m
  | Unrecognized raw => unknown_name raw
  end.

(** Modelled from the spec: the [category] and [target_type] properties of
    [enums.AuditLogAction] are missing. Both are static metadata of a
    member; on the unrecognized variant the lookups yield absent. *)
Definition action_category (a : action_t) : option AuditLogActionCategory :=
  match a with
  | Member m => category m
  | Unrecognized _ => None
  end.

Definition action_target_type (a : action_t) : option string :=
  match a with
  | Member m => target_type m
  | Unrecognized _ => None
  end.

(** *** The caches *)

Record Guild : Type := {
  guild_id : Z;
  _roles : gmap Z val;
  _channels : gmap Z val;
  _threads : gmap Z val;
  _members : gmap Z val;
  _stage_instances : gmap Z val;
  _scheduled_events : gmap Z val;
}.

Record ConnectionState : Type := {
  _emojis : gmap Z val;
  _stickers : gmap Z val;
  _guilds : gmap Z val;
}.

(** Everything an entry refers to without owning it: its guild, the
    connection state behind the guild, and the three tables given to the
    constructor. [_integrations] keeps the order of the dictionary because
    it is searched by value. *)
Record World : Type := {
  guild : Guild;
  _state : ConnectionState;
  _users : gmap Z val;
  _integrations : list (Z * val);
  _app_commands : gmap Z val;
}.

(** [cache.get(key)] for a key of type [Optional[int]]. *)
Definition cache_get (cache : gmap Z val) (key : option Z) : val :=
  match key with
  | Some k => default VNone (cache !! k)
  | None => VNone
  end.

(** Modelled from the spec: the guild and connection-state lookup surface
    ([discord/guild.py], [discord/state.py]) is missing. Each lookup is a
    read of the matching cache and yields [None] on a miss. *)
Definition get_role (g : Guild) (k : option Z) : val := cache_get (_roles g) k.
Definition get_channel (g : Guild) (k : option Z) : val := cache_get (_channels g) k.
Definition get_thread (g : Guild) (k : option Z) : val := cache_get (_threads g) k.
Definition get_member (g : Guild) (k : option Z) : val := cache_get (_members g) k.
Definition get_stage_instance (g : Guild) (k : option Z) : val :=
  cache_get (_stage_instances g) k.
Definition get_scheduled_event (g : Guild) (k : option Z) : val :=
  cache_get (_scheduled_events g) k.
Definition get_channel_or_thread (g : Guild) (k : option Z) : val :=
  Py.or_ (get_channel g k) (get_thread g k).
Definition get_emoji (s : ConnectionState) (k : option Z) : val :=
  cache_get (_emojis s) k.
Definition get_sticker (s : ConnectionState) (k : option Z) : val :=
  cache_get (_stickers s) k.
Definition _get_guild (s : ConnectionState) (k : option Z) : val :=
  cache_get (_guilds s) k.

(** References to the guild and to the connection state, as values. *)
Definition guild_ref (g : Guild) : val := VInst "Guild" [("id", VInt (guild_id g))].
Definition state_ref : val := VInst "ConnectionState" [].

Definition of_optional (k : option Z) : val :=
  match k with Some z => VInt z | None => VNone end.

(** [getattr] and [setattr] on an instance of another class. *)
Definition inst_getattr (o : val) (attr : string) : result val :=
  match o with
  | VInst _ attrs =>
      match Py.assoc attr attrs with Some v => Ok v | None => Raise AttributeError end
  | _ => Raise AttributeError
  end.

Definition inst_setattr (o : val) (attr : string) (v : val) : result val :=
  match o with
  | VInst cls attrs => Ok (VInst cls (Py.assoc_set attr v attrs))
  | _ => Raise AttributeError
  end.

(** Modelled from the spec: [discord.object.Object] is missing. The opaque
    reference is an id-bearing placeholder; ids are integers in the data
    model, so the constructor reads its argument with [int] and refuses a
    value that has no integer reading. *)
Definition Object (id : val) : result val :=
  let* z := Py.int id in Ok (VInst "Object" [("id", VInt z)]).

(** Modelled from the spec: [app_commands.AllChannels] is missing. The
    sentinel that stands for all channels of a guild. *)
Definition AllChannels (g : Guild) : val := VInst "AllChannels" [("guild", guild_ref g)].

(** Modelled from the spec: [discord.invite.Invite] is missing. The invite
    reconstructed from a synthetic payload is recorded by the arguments of
    its constructor. *)
Definition Invite (state : val) (data : val) (g : val) (channel : val) : val :=
  VInst "Invite" [("_state", state); ("data", data); ("guild", g); ("channel", channel)].

(** Modelled from the spec: [utils._get_as_snowflake] is missing. An
    optional integer read from the payload: absent when the key is missing
    or null. *)
Definition _get_as_snowflake (data : val) (key : string) : result (option Z) :=
  except
    (let* v := Py.getitem data key in
     match v with
     | VNone => Ok None
     | _ => let* z := Py.int v in Ok (Some z)
     end)
    KeyError (Ok None).

(** Modelled from the spec: [utils.get] is missing. The first element whose
    attribute equals the wanted value, or [None]. *)
Definition utils_get (elems : list val) (attr : string) (wanted : Z) : val :=
  default VNone
    (List.find
       (fun o => match inst_getattr o attr with
                 | Ok v => Py.eq_int v wanted
                 | Raise _ => false
                 end) elems).

(** [a or b] where [b] is only built when [a] is false. *)
Definition or_else (a : val) (b : result val) : result val :=
  if Py.truthy a then Ok a else b.

(** ** Diff containers and entries *)

(** The [__dict__] of an [AuditLogDiff]. *)
Definition AuditLogDiff : Type := list (string * val).

Definition hasattr (d : AuditLogDiff) (attr : string) : bool :=
  match Py.assoc attr d with Some _ => true | None => false end.

Definition getattr (d : AuditLogDiff) (attr : string) : result val :=
  match Py.assoc attr d with Some v => Ok v | None => Raise AttributeError end.

(** The instance dictionary once [attr] is bound to [v] in it. *)
Definition store (d : AuditLogDiff) (attr : string) (v : val) : AuditLogDiff :=
  Py.assoc_set attr v d.

(** The names that the type of an [AuditLogDiff] answers with a data
    descriptor, so that an assignment does not reach the instance
    dictionary. *)
Definition reserved (attr : string) : bool :=
  String.eqb attr "__class__" || String.eqb attr "__weakref__"
  || String.eqb attr "__dict__".

(** [setattr(diff, attr, v)] and the assignment [diff.attr = v].
    [AuditLogDiff] has no slots and no [__setattr__] of its own, so the
    assignment is the one of [object]: [__class__] wants a class, and no
    value of a payload is one; [__weakref__] cannot be written;
    [__dict__] replaces the instance dictionary by the dictionary it is
    given, which is a value of the payload that nothing reads again; any
    other name is bound in the instance dictionary. *)
Definition setattr (d : AuditLogDiff) (attr : string) (v : val)
  : result AuditLogDiff :=
  if String.eqb attr "__class__" then Raise TypeError
  else if String.eqb attr "__weakref__" then Raise AttributeError
  else if String.eqb attr "__dict__" then
    match v with
    | VDict items => Ok items
    | _ => Raise TypeError
    end
  else Ok (store d attr v).

Record AuditLogChanges : Type := {
  before : AuditLogDiff;
  after : AuditLogDiff;
}.

(** The instance dictionary of an entry. [_changes] is deleted once the
    change-set is decoded; the [cached_] fields are the slots that
    [utils.cached_property] fills, empty until the first access. *)
Record AuditLogEntry : Type := {
  action : action_t;
  entry_id : Z;
  reason : val;
  extra : val;
  _changes : option val;
  user : val;
  _target_id : option Z;
  cached_created_at : option val;
  cached_target : option val;
  cached_category : option (option AuditLogActionCategory);
  cached_changes : option AuditLogChanges;
  cached_before : option AuditLogDiff;
  cached_after : option AuditLogDiff;
}.

(** [AuditLogEntry._get_member] and its siblings read the world only, and
    the transformers below call them. *)
Definition _get_member (w : World) (user_id : option Z) : val :=
  match user_id with
  | None => VNone
  | Some _ => Py.or_ (get_member (guild w) user_id) (cache_get (_users w) user_id)
  end.

Definition _get_integration (w : World) (integration_id : option Z) : val :=
  match integration_id with
  | None => VNone
  | Some k => default VNone (snd <$> List.find (fun kv => (fst kv =? k)%Z) (_integrations w))
  end.

Definition _get_integration_by_app_id (w : World) (application_id : option Z) : val :=
  match application_id with
  | None => VNone
  | Some k => utils_get (map snd (_integrations w)) "application_id" k
  end.

Definition _get_app_command (w : World) (app_command_id : option Z) : val :=
  match app_command_id with
  | None => VNone
  | Some _ => cache_get (_app_commands w) app_command_id
  end.

(** ** Transformers *)

Section Transformers.
Context `{!Collaborators}.

Definition Transformer : Type := World -> AuditLogEntry -> val -> result val.

Definition _transform_timestamp : Transformer := fun w entry data =>
  extern "utils.parse_time" [data].

Definition _transform_color : Transformer := fun w entry data =>
  extern "Colour" [data].

Definition _transform_snowflake : Transformer := fun w entry data =>
  let* z := Py.int data in Ok (VInt z).

Definition _transform_channel : Transformer := fun w entry data =>
  match data with
  | VNone => Ok VNone
  | _ =>
      let* z := Py.int data in
      or_else (get_channel (guild w) (Some z)) (Object data)
  end.

Definition _transform_member_id : Transformer := fun w entry data =>
  match data with
  | VNone => Ok VNone
  | _ => let* z := Py.int data in Ok (_get_member w (Some z))
  end.

Definition _transform_guild_id : Transformer := fun w entry data =>
  match data with
  | VNone => Ok VNone
  | _ => let* z := Py.int data in Ok (_get_guild (_state w) (Some z))
  end.

Definition _transform_overwrites : Transformer := fun w entry data =>
  let* elems := Py.iter data in
  let* overwrites :=
    mapM (fun elem =>
            let* a := Py.getitem elem "allow" in
            let* az := Py.int a in
            let* allow := extern "Permissions" [VInt az] in
            let* d := Py.getitem elem "deny" in
            let* dz := Py.int d in
            let* deny := extern "Permissions" [VInt dz] in
            let* ow := extern "PermissionOverwrite.from_pair" [allow; deny] in
            let* ow_type := Py.getitem elem "type" in
            let* i := Py.getitem elem "id" in
            let* ow_id := Py.int i in
            let target :=
              if Py.eq_str ow_type "0" then get_role (guild w) (Some ow_id)
              else if Py.eq_str ow_type "1" then _get_member w (Some ow_id)
              else VNone in
            let* target :=
              match target with
              | VNone => Object (VInt ow_id)
              | _ => Ok target
              end in
            Ok (VTuple [target; ow])) elems in
  Ok (VList overwrites).

Definition _transform_icon : Transformer := fun w entry data =>
  match data with
  | VNone => Ok VNone
  | _ =>
      if is_action (action entry) "guild_update"
      then extern "Asset._from_guild_icon"
             [state_ref; VInt (guild_id (guild w)); data]
      else extern "Asset._from_icon"
             [state_ref; of_optional (_target_id entry); data; VStr "role"]
  end.

Definition _transform_avatar : Transformer := fun w entry data =>
  match data with
  | VNone => Ok VNone
  | _ => extern "Asset._from_avatar" [state_ref; of_optional (_target_id entry); data]
  end.

Definition _transform_cover_image : Transformer := fun w entry data =>
  match data with
  | VNone => Ok VNone
  | _ => extern "Asset._from_scheduled_event_cover_image"
           [state_ref; of_optional (_target_id entry); data]
  end.

Definition _guild_hash_transformer (path : string) : Transformer := fun w entry data =>
  match data with
  | VNone => Ok VNone
  | _ => extern "Asset._from_guild_image"
           [state_ref; VInt (guild_id (guild w)); data; VStr path]
  end.

Definition _enum_transformer (enum : string) : Transformer := fun w entry data =>
  extern "enums.try_enum" [VStr enum; data].

Definition _flag_transformer (cls : string) : Transformer := fun w entry data =>
  let* z := Py.int data in extern (cls +:+ "._from_value") [VInt z].

Definition _transform_type : Transformer := fun w entry data =>
  if Py.startswith (action_name (action entry)) "sticker_"
  then extern "enums.try_enum" [VStr "StickerType"; data]
  else extern "enums.try_enum" [VStr "ChannelType"; data].

(** The Transform Registry: raw key, then the renamed key and the
    transformer, either of which may be absent. *)
Definition TRANSFORMERS : list (string * (option string * option Transformer)) :=
  [ ("verification_level", (None, Some (_enum_transformer "VerificationLevel")));
    ("explicit_content_filter", (None, Some (_enum_transformer "ContentFilter")));
    ("allow", (None, Some (_flag_transformer "Permissions")));
    ("deny", (None, Some (_flag_transformer "Permissions")));
    ("permissions", (None, Some (_flag_transformer "Permissions")));
    ("id", (None, Some _transform_snowflake));
    ("color", (Some "colour", Some _transform_color));
    ("owner_id", (Some "owner", Some _transform_member_id));
    ("inviter_id", (Some "inviter", Some _transform_member_id));
    ("channel_id", (Some "channel", Some _transform_channel));
    ("afk_channel_id", (Some "afk_channel", Some _transform_channel));
    ("system_channel_id", (Some "system_channel", Some _transform_channel));
    ("system_channel_flags", (None, Some (_flag_transformer "SystemChannelFlags")));
    ("widget_channel_id", (Some "widget_channel", Some _transform_channel));
    ("rules_channel_id", (Some "rules_channel", Some _transform_channel));
    ("public_updates_channel_id", (Some "public_updates_channel", Some _transform_channel));
    ("permission_overwrites", (Some "overwrites", Some _transform_overwrites));
    ("splash_hash", (Some "splash", Some (_guild_hash_transformer "splashes")));
    ("banner_hash", (Some "banner", Some (_guild_hash_transformer "banners")));
    ("discovery_splash_hash",
      (Some "discovery_splash", Some (_guild_hash_transformer "discovery-splashes")));
    ("icon_hash", (Some "icon", Some _transform_icon));
    ("avatar_hash", (Some "avatar", Some _transform_avatar));
    ("rate_limit_per_user", (Some "slowmode_delay", None));
    ("guild_id", (Some "guild", Some _transform_guild_id));
    ("tags", (Some "emoji", None));
    ("default_message_notifications",
      (Some "default_notifications", Some (_enum_transformer "NotificationLevel")));
    ("video_quality_mode", (None, Some (_enum_transformer "VideoQualityMode")));
    ("privacy_level", (None, Some (_enum_transformer "PrivacyLevel")));
    ("format_type", (None, Some (_enum_transformer "StickerFormatType")));
    ("type", (None, Some _transform_type));
    ("communication_disabled_until", (Some "timed_out_until", Some _transform_timestamp));
    ("expire_behavior", (None, Some (_enum_transformer "ExpireBehaviour")));
    ("mfa_level", (None, Some (_enum_transformer "MFALevel")));
    ("status", (None, Some (_enum_transformer "EventStatus")));
    ("entity_type", (None, Some (_enum_transformer "EntityType")));
    ("preferred_locale", (None, Some (_enum_transformer "Locale")));
    ("image_hash", (Some "cover_image", Some _transform_cover_image)) ].

End Transformers.

(** ** [AuditLogChanges] *)

Module Changes.
Section Changes.
Context `{!Collaborators}.

(** One role stub of a [$add] or [$remove] record. *)
Definition role_of_stub (w : World) (e : val) : result val :=
  let* i := Py.getitem e "id" in
  let* role_id := Py.int i in
  match get_role (guild w) (Some role_id) with
  | VNone =>
      let* role := Object (VInt role_id) in
      let* nm := Py.getitem e "name" in
      inst_setattr role "name" nm
  | role => Ok role
  end.

(** [_handle_role(first, second, entry, elem)]; the two containers come
    back in the order they went in. *)
Definition _handle_role (w : World) (entry : AuditLogEntry)
    (first second : AuditLogDiff) (elem : val)
  : result (AuditLogDiff * AuditLogDiff) :=
  let* first :=
    if hasattr first "roles" then Ok first else setattr first "roles" (VList []) in
  let* stubs := Py.iter elem in
  let* data := mapM (role_of_stub w) stubs in
  let* second := setattr second "roles" (VList data) in
  Ok (first, second).

(** [diff.<attr>.append(x)]: the attribute is read and the list it holds
    grows in place, no assignment is involved. *)
Definition append_to (d : AuditLogDiff) (attr : string) (x : val)
  : result AuditLogDiff :=
  let* l := getattr d attr in
  match l with
  | VList items => Ok (store d attr (VList (items ++ [x])))
  | _ => Raise AttributeError
  end.

(** The first half of [_handle_app_command_permissions]: the target of one
    record, [Ok None] when the method returns early, and [Some VNone] when
    no lookup was attempted or the lookup missed. *)
Definition permission_target (w : World) (target_id : Z) (old_value new_value : val)
  : result (option val) :=
  if (target_id =? guild_id (guild w) - 1)%Z
  then Ok (Some (AllChannels (guild w)))
  else
    match Py.or_ old_value new_value with
    | VNone => Ok None
    | _value =>
        let* permission_type := Py.getitem _value "type" in
        Ok (Some
              (if Py.eq_int permission_type 1 then get_role (guild w) (Some target_id)
               else if Py.eq_int permission_type 2 then _get_member w (Some target_id)
               else if Py.eq_int permission_type 3 then get_channel (guild w) (Some target_id)
               else VNone))
    end.

(** The second half: the pairs appended for one record once its target is
    known. *)
Definition append_permissions (target : val) (before after : AuditLogDiff)
    (old_value new_value : val) : result (AuditLogDiff * AuditLogDiff) :=
  let* before :=
    match old_value with
    | VNone => Ok before
    | _ =>
        let* old_permission := Py.getitem old_value "permission" in
        append_to before "app_command_permissions" (VTuple [target; old_permission])
    end in
  let* after :=
    match new_value with
    | VNone => Ok after
    | _ =>
        let* new_permission := Py.getitem new_value "permission" in
        append_to after "app_command_permissions" (VTuple [target; new_permission])
    end in
  Ok (before, after).

Definition _handle_app_command_permissions (w : World) (entry : AuditLogEntry)
    (before after : AuditLogDiff) (target_id : Z) (old_value new_value : val)
  : result (AuditLogDiff * AuditLogDiff) :=
  let* found := permission_target w target_id old_value new_value in
  match found with
  | None => Ok (before, after)
  | Some target =>
      let* target :=
        match target with
        | VNone => Object (VInt target_id)
        | _ => Ok target
        end in
      append_permissions target before after old_value new_value
  end.

(** [TRANSFORMERS[attr]] for a string key, with the rename applied: the
    effective attribute name and the transformer. *)
Definition resolve (raw : string) : string * option Transformer :=
  match Py.assoc raw TRANSFORMERS with
  | Some (key, transformer) =>
      (match key with
       | Some k => if String.eqb k EmptyString then raw else k
       | None => raw
       end, transformer)
  | None => (raw, None)
  end.

(** [elem[field]], [None] when the field is missing, transformed when it is
    there and a transformer exists. *)
Definition decode_value (w : World) (entry : AuditLogEntry)
    (transformer : option Transformer) (elem : val) (field : string) : result val :=
  match Py.getitem elem field with
  | Raise KeyError => Ok VNone
  | Raise e => Raise e
  | Ok v =>
      match transformer with
      | Some t => t w entry v
      | None => Ok v
      end
  end.

(** The body of the loop over the change records. A key that is not a
    string ends in [TypeError]: at the registry lookup when it cannot be
    hashed, at [setattr] otherwise. *)
Definition decode_record (w : World) (entry : AuditLogEntry)
    (st : AuditLogDiff * AuditLogDiff) (elem : val)
  : result (AuditLogDiff * AuditLogDiff) :=
  let '(before, after) := st in
  let* attr := Py.getitem elem "key" in
  if Py.eq_str attr "$add" then
    let* new_value := Py.getitem elem "new_value" in
    _handle_role w entry before after new_value
  else if Py.eq_str attr "$remove" then
    let* new_value := Py.getitem elem "new_value" in
    let* '(after, before) := _handle_role w entry after before new_value in
    Ok (before, after)
  else
    match attr with
    | VStr raw =>
        let '(attr, transformer) := resolve raw in
        let* b := decode_value w entry transformer elem "old_value" in
        let* before := setattr before attr b in
        let* a := decode_value w entry transformer elem "new_value" in
        let* after := setattr after attr a in
        Ok (before, after)
    | _ => Raise TypeError
    end.

(** The aliases added after the loop. *)
Definition add_alias (attr alias : string) (st : AuditLogDiff * AuditLogDiff)
  : result (AuditLogDiff * AuditLogDiff) :=
  let '(before, after) := st in
  if hasattr after attr then
    let* a := getattr after attr in
    let* after := setattr after alias a in
    let* b := getattr before attr in
    let* before := setattr before alias b in
    Ok (before, after)
  else Ok (before, after).

(** The per-record algorithm: the loop and the aliases. *)
Definition decode_per_record (w : World) (entry : AuditLogEntry) (data : val)
  : result AuditLogChanges :=
  let* elems := Py.iter data in
  let* st := foldM (decode_record w entry) ([], []) elems in
  let* st := add_alias "colour" "color" st in
  let* '(before, after) := add_alias "expire_behavior" "expire_behaviour" st in
  Ok {| before := before; after := after |}.

(** The loop run instead for an application-command permission update. *)
Definition decode_permission_record (w : World) (entry : AuditLogEntry)
    (st : AuditLogDiff * AuditLogDiff) (d : val)
  : result (AuditLogDiff * AuditLogDiff) :=
  let '(before, after) := st in
  let* k := Py.getitem d "key" in
  let* target_id := Py.int k in
  let* old_value := Py.get d "old_value" VNone in
  let* new_value := Py.get d "new_value" VNone in
  _handle_app_command_permissions w entry before after target_id old_value new_value.

Definition decode_permissions (w : World) (entry : AuditLogEntry) (data : val)
  : result AuditLogChanges :=
  let* before := setattr [] "app_command_permissions" (VList []) in
  let* after := setattr [] "app_command_permissions" (VList []) in
  let* ds := Py.iter data in
  let* '(before, after) := foldM (decode_permission_record w entry) (before, after) ds in
  Ok {| before := before; after := after |}.

(** [AuditLogChanges.__init__(entry, data)] *)
Definition init (w : World) (entry : AuditLogEntry) (data : val)
  : result AuditLogChanges :=
  if is_action (action entry) "app_command_permission_update"
  then decode_permissions w entry data
  else decode_per_record w entry data.

End Changes.
End Changes.

(** ** [AuditLogEntry] *)

Module Entry.

(** Assignments to the instance dictionary. *)
Definition del__changes (e : AuditLogEntry) : AuditLogEntry :=
  {| action := action e; entry_id := entry_id e; reason := reason e;
     extra := extra e; _changes := None; user := user e;
     _target_id := _target_id e;
     cached_created_at := cached_created_at e; cached_target := cached_target e;
     cached_category := cached_category e; cached_changes := cached_changes e;
     cached_before := cached_before e; cached_after := cached_after e |}.

Definition set_created_at (v : val) (e : AuditLogEntry) : AuditLogEntry :=
  {| action := action e; entry_id := entry_id e; reason := reason e;
     extra := extra e; _changes := _changes e; user := user e;
     _target_id := _target_id e;
     cached_created_at := Some v; cached_target := cached_target e;
     cached_category := cached_category e; cached_changes := cached_changes e;
     cached_before := cached_before e; cached_after := cached_after e |}.

Definition set_target (v : val) (e : AuditLogEntry) : AuditLogEntry :=
  {| action := action e; entry_id := entry_id e; reason := reason e;
     extra := extra e; _changes := _changes e; user := user e;
     _target_id := _target_id e;
     cached_created_at := cached_created_at e; cached_target := Some v;
     cached_category := cached_category e; cached_changes := cached_changes e;
     cached_before := cached_before e; cached_after := cached_after e |}.

Definition set_category (v : option AuditLogActionCategory) (e : AuditLogEntry)
  : AuditLogEntry :=
  {| action := action e; entry_id := entry_id e; reason := reason e;
     extra := extra e; _changes := _changes e; user := user e;
     _target_id := _target_id e;
     cached_created_at := cached_created_at e; cached_target := cached_target e;
     cached_category := Some v; cached_changes := cached_changes e;
     cached_before := cached_before e; cached_after := cached_after e |}.

Definition set_changes (v : AuditLogChanges) (e : AuditLogEntry) : AuditLogEntry :=
  {| action := action e; entry_id := entry_id e; reason := reason e;
     extra := extra e; _changes := _changes e; user := user e;
     _target_id := _target_id e;
     cached_created_at := cached_created_at e; cached_target := cached_target e;
     cached_category := cached_category e; cached_changes := Some v;
     cached_before := cached_before e; cached_after := cached_after e |}.

Definition set_before (v : AuditLogDiff) (e : AuditLogEntry) : AuditLogEntry :=
  {| action := action e; entry_id := entry_id e; reason := reason e;
     extra := extra e; _changes := _changes e; user := user e;
     _target_id := _target_id e;
     cached_created_at := cached_created_at e; cached_target := cached_target e;
     cached_category := cached_category e; cached_changes := cached_changes e;
     cached_before := Some v; cached_after := cached_after e |}.

Definition set_after (v : AuditLogDiff) (e : AuditLogEntry) : AuditLogEntry :=
  {| action := action e; entry_id := entry_id e; reason := reason e;
     extra := extra e; _changes := _changes e; user := user e;
     _target_id := _target_id e;
     cached_created_at := cached_created_at e; cached_target := cached_target e;
     cached_category := cached_category e; cached_changes := cached_changes e;
     cached_before := cached_before e; cached_after := Some v |}.

(** Modelled from the spec: [utils.cached_property] is missing. The wrapped
    function runs on the first access and its result is stored on the
    instance; every later access returns the stored result. *)
Definition cached_property {A}
    (slot : AuditLogEntry -> option A) (store : A -> AuditLogEntry -> AuditLogEntry)
    (function : World -> AuditLogEntry -> result (A * AuditLogEntry))
    (w : World) (self : AuditLogEntry) : result (A * AuditLogEntry) :=
  match slot self with
  | Some v => Ok (v, self)
  | None =>
      let* '(v, self) := function w self in
      Ok (v, store v self)
  end.

Section Entry.
Context `{!Collaborators}.

(** The value of [self.extra] for a recognized action and a true [options]
    block. *)
Definition decode_extra (w : World) (a : action_t) (extra : val) : result val :=
  if is_action a "member_prune" then
    let* d := Py.getitem extra "delete_member_days" in
    let* delete_member_days := Py.int d in
    let* m := Py.getitem extra "members_removed" in
    let* members_removed := Py.int m in
    Ok (VInst "_AuditLogProxyMemberPrune"
          [("delete_member_days", VInt delete_member_days);
           ("members_removed", VInt members_removed)])
  else if is_action a "member_move" || is_action a "message_delete" then
    let* c := Py.getitem extra "channel_id" in
    let* channel_id := Py.int c in
    let* n := Py.getitem extra "count" in
    let* count := Py.int n in
    let* channel :=
      or_else (get_channel_or_thread (guild w) (Some channel_id))
              (Object (VInt channel_id)) in
    Ok (VInst "_AuditLogProxyMemberMoveOrMessageDelete"
          [("count", VInt count); ("channel", channel)])
  else if is_action a "member_disconnect" then
    let* n := Py.getitem extra "count" in
    let* count := Py.int n in
    Ok (VInst "_AuditLogProxyMemberDisconnect" [("count", VInt count)])
  else if Py.endswith (action_name a) "pin" then
    let* c := Py.getitem extra "channel_id" in
    let* channel_id := Py.int c in
    let* channel :=
      or_else (get_channel_or_thread (guild w) (Some channel_id))
              (Object (VInt channel_id)) in
    let* m := Py.getitem extra "message_id" in
    let* message_id := Py.int m in
    Ok (VInst "_AuditLogProxyPinAction"
          [("channel", channel); ("message_id", VInt message_id)])
  else if Py.startswith (action_name a) "overwrite_" then
    let* i := Py.getitem extra "id" in
    let* instance_id := Py.int i in
    let* the_type := Py.get extra "type" VNone in
    if Py.eq_str the_type "1" then Ok (_get_member w (Some instance_id))
    else if Py.eq_str the_type "0" then
      match get_role (guild w) (Some instance_id) with
      | VNone =>
          let* role := Object (VInt instance_id) in
          let* role_name := Py.get extra "role_name" VNone in
          inst_setattr role "name" role_name
      | role => Ok role
      end
    else Ok VNone
  else if Py.startswith (action_name a) "stage_instance" then
    let* c := Py.getitem extra "channel_id" in
    let* channel_id := Py.int c in
    let* channel :=
      or_else (get_channel (guild w) (Some channel_id)) (Object (VInt channel_id)) in
    Ok (VInst "_AuditLogProxyStageInstanceAction" [("channel", channel)])
  else if Py.startswith (action_name a) "app_command" then
    let* i := Py.getitem extra "application_id" in
    let* application_id := Py.int i in
    or_else (_get_integration_by_app_id w (Some application_id))
            (Object (VInt application_id))
  else Ok VNone.

(** [AuditLogEntry(users=, integrations=, app_commands=, data=, guild=)]:
    the constructor stores the references that make up the world and calls
    [_from_data]. *)
Definition _from_data (w : World) (data : val) : result AuditLogEntry :=
  let* action_type := Py.getitem data "action_type" in
  let a := try_enum action_type in
  let* i := Py.getitem data "id" in
  let* id := Py.int i in
  let* reason := Py.get data "reason" VNone in
  let* options := Py.get data "options" VNone in
  let* extra :=
    if is_member a && Py.truthy options then decode_extra w a options else Ok VNone in
  let* raw_changes := Py.get data "changes" (VList []) in
  let* user_id := _get_as_snowflake data "user_id" in
  let* target_id := _get_as_snowflake data "target_id" in
  Ok {| action := a; entry_id := id; reason := reason; extra := extra;
        _changes := Some raw_changes; user := _get_member w user_id;
        _target_id := target_id;
        cached_created_at := None; cached_target := None; cached_category := None;
        cached_changes := None; cached_before := None; cached_after := None |}.

(** *** Cached properties *)

Definition created_at : World -> AuditLogEntry -> result (val * AuditLogEntry) :=
  cached_property cached_created_at set_created_at
    (fun w self =>
       let* t := extern "utils.snowflake_time" [VInt (entry_id self)] in Ok (t, self)).

Definition category
  : World -> AuditLogEntry -> result (option AuditLogActionCategory * AuditLogEntry) :=
  cached_property cached_category set_category
    (fun w self => Ok (action_category (action self), self)).

Definition changes : World -> AuditLogEntry -> result (AuditLogChanges * AuditLogEntry) :=
  cached_property cached_changes set_changes
    (fun w self =>
       let* raw := match _changes self with
                   | Some raw => Ok raw
                   | None => Raise AttributeError
                   end in
       let* obj := Changes.init w self raw in
       Ok (obj, del__changes self)).

Definition before : World -> AuditLogEntry -> result (AuditLogDiff * AuditLogEntry) :=
  cached_property cached_before set_before
    (fun w self => let* '(c, self) := changes w self in Ok (before c, self)).

Definition after : World -> AuditLogEntry -> result (AuditLogDiff * AuditLogEntry) :=
  cached_property cached_after set_after
    (fun w self => let* '(c, self) := changes w self in Ok (after c, self)).

(** *** Target resolvers *)

Definition Converter : Type :=
  World -> AuditLogEntry -> option Z -> result (val * AuditLogEntry).

Definition _convert_target_guild : Converter := fun w self target_id =>
  Ok (guild_ref (guild w), self).

Definition _convert_target_channel : Converter := fun w self target_id =>
  let* t := or_else (get_channel (guild w) target_id) (Object (of_optional target_id)) in
  Ok (t, self).

Definition _convert_target_user : Converter := fun w self target_id =>
  Ok (_get_member w target_id, self).

Definition _convert_target_role : Converter := fun w self target_id =>
  let* t := or_else (get_role (guild w) target_id) (Object (of_optional target_id)) in
  Ok (t, self).

Definition _convert_target_invite : Converter := fun w self target_id =>
  let* '(changeset, self) :=
    if is_action (action self) "invite_delete" then before w self else after w self in
  let* max_age := getattr changeset "max_age" in
  let* max_uses := getattr changeset "max_uses" in
  let* code := getattr changeset "code" in
  let* temporary := getattr changeset "temporary" in
  let* uses := getattr changeset "uses" in
  let fake_payload :=
    VDict [("max_age", max_age); ("max_uses", max_uses); ("code", code);
           ("temporary", temporary); ("uses", uses); ("channel", VNone)] in
  let* channel := getattr changeset "channel" in
  let obj := Invite state_ref fake_payload (guild_ref (guild w)) channel in
  let* obj :=
    except (let* inviter := getattr changeset "inviter" in
            inst_setattr obj "inviter" inviter)
           AttributeError (Ok obj) in
  Ok (obj, self).

Definition _convert_target_emoji : Converter := fun w self target_id =>
  let* t := or_else (get_emoji (_state w) target_id) (Object (of_optional target_id)) in
  Ok (t, self).

Definition _convert_target_message : Converter := fun w self target_id =>
  Ok (_get_member w target_id, self).

Definition _convert_target_stage_instance : Converter := fun w self target_id =>
  let* t := or_else (get_stage_instance (guild w) target_id)
                    (Object (of_optional target_id)) in
  Ok (t, self).

Definition _convert_target_sticker : Converter := fun w self target_id =>
  let* t := or_else (get_sticker (_state w) target_id) (Object (of_optional target_id)) in
  Ok (t, self).

Definition _convert_target_thread : Converter := fun w self target_id =>
  let* t := or_else (get_thread (guild w) target_id) (Object (of_optional target_id)) in
  Ok (t, self).

Definition _convert_target_guild_scheduled_event : Converter := fun w self target_id =>
  let* t := or_else (get_scheduled_event (guild w) target_id)
                    (Object (of_optional target_id)) in
  Ok (t, self).

Definition _convert_target_integration : Converter := fun w self target_id =>
  let* t := or_else (_get_integration w target_id) (Object (of_optional target_id)) in
  Ok (t, self).

Definition _convert_target_app_command : Converter := fun w self target_id =>
  let* t := or_else (_get_app_command w target_id) (Object (of_optional target_id)) in
  Ok (t, self).

Definition _convert_target_integration_or_app_command : Converter :=
  fun w self target_id =>
  let* t := or_else (Py.or_ (_get_integration_by_app_id w target_id)
                            (_get_app_command w target_id))
                    (Object (of_optional target_id)) in
  Ok (t, self).

(** The methods [getattr(self, '_convert_target_' + kind)] can find, by
    the kind that completes their name. *)
Definition converters : list (string * Converter) :=
  [ ("guild", _convert_target_guild);
    ("channel", _convert_target_channel);
    ("user", _convert_target_user);
    ("role", _convert_target_role);
    ("invite", _convert_target_invite);
    ("emoji", _convert_target_emoji);
    ("message", _convert_target_message);
    ("stage_instance", _convert_target_stage_instance);
    ("sticker", _convert_target_sticker);
    ("thread", _convert_target_thread);
    ("guild_scheduled_event", _convert_target_guild_scheduled_event);
    ("integration", _convert_target_integration);
    ("app_command", _convert_target_app_command);
    ("integration_or_app_command", _convert_target_integration_or_app_command) ].

(** The function wrapped by the [target] property. *)
Definition resolve_target (w : World) (self : AuditLogEntry)
  : result (val * AuditLogEntry) :=
  match action_target_type (action self) with
  | None => Ok (VNone, self)
  | Some kind =>
      match Py.assoc kind converters with
      | None =>
          match _target_id self with
          | None => Ok (VNone, self)
          | Some z => let* o := Object (VInt z) in Ok (o, self)
          end
      | Some converter => converter w self (_target_id self)
      end
  end.

Definition target : World -> AuditLogEntry -> result (val * AuditLogEntry) :=
  cached_property cached_target set_target resolve_target.

End Entry.
End Entry.

(** The value of an access, without the entry it leaves behind. *)
Definition returned {A S} (r : result (A * S)) : result A :=
  let* '(a, _) := r in Ok a.

(** ** A sample world for the examples *)

(** A few members of the action enum, enough to run the decoder. *)
Definition sample_members : list AuditLogAction :=
  [ {| name := "guild_update"; value := 1;
       category := Some update; target_type := Some "guild" |};
    {| name := "member_prune"; value := 21;
       category := None; target_type := Some "user" |};
    {| name := "member_role_update"; value := 25;
       category := Some update; target_type := Some "user" |};
    {| name := "role_update"; value := 31;
       category := Some update; target_type := Some "role" |};
    {| name := "invite_create"; value := 40;
       category := Some create; target_type := Some "invite" |};
    {| name := "invite_delete"; value := 42;
       category := Some delete; target_type := Some "invite" |};
    {| name := "app_command_permission_update"; value := 121;
       category := Some update; target_type := Some "integration_or_app_command" |} ].

(** Collaborators that record each foreign call as an instance of the
    called name. *)
Definition sample_collaborators : Collaborators :=
  {| AuditLogAction_members := sample_members;
     unknown_name := fun _ => "unknown";
     extern := fun f args => Ok (VInst f [("args", VList args)]) |}.

Definition sample_guild : Guild :=
  {| guild_id := 1000;
     _roles := {[ 7 := VInst "Role" [("id", VInt 7); ("name", VStr "mods")] ]};
     _channels := {[ 50 := VInst "TextChannel" [("id", VInt 50)] ]};
     _threads := ∅;
     _members := {[ 3 := VInst "Member" [("id", VInt 3)] ]};
     _stage_instances := ∅;
     _scheduled_events := ∅ |}.

Definition sample_world : World :=
  {| guild := sample_guild;
     _state := {| _emojis := ∅; _stickers := ∅; _guilds := ∅ |};
     _users := {[ 4 := VInst "User" [("id", VInt 4)] ]};
     _integrations := [];
     _app_commands := ∅ |}.

(** The same world after the caches were emptied. *)
Definition emptied_world : World :=
  {| guild := {| guild_id := 1000; _roles := ∅; _channels := ∅; _threads := ∅;
                 _members := ∅; _stage_instances := ∅; _scheduled_events := ∅ |};
     _state := {| _emojis := ∅; _stickers := ∅; _guilds := ∅ |};
     _users := ∅;
     _integrations := [];
     _app_commands := ∅ |}.

Definition make_entry (a : action_t) (raw_changes : val) (target_id : option Z)
  : AuditLogEntry :=
  {| action := a; entry_id := 1; reason := VNone; extra := VNone;
     _changes := Some raw_changes; user := VNone; _target_id := target_id;
     cached_created_at := None; cached_target := None; cached_category := None;
     cached_changes := None; cached_before := None; cached_after := None |}.

Definition sample_action (nm : string) : action_t :=
  match List.find (fun m => String.eqb (name m) nm) sample_members with
  | Some m => Member m
  | None => Unrecognized (VStr nm)
  end.

Definition change (key : string) (old_value new_value : val) : val :=
  VDict [("key", VStr key); ("old_value", old_value); ("new_value", new_value)].

Definition stub (id : string) (nm : string) : val :=
  VDict [("id", VStr id); ("name", VStr nm)].

(** ** Definitions used to state the properties *)

(** The raw value of a field of a change record, null when the field is
    absent. *)
Definition raw_field (elem : val) (field : string) : val :=
  match Py.getitem elem field with
  | Ok v => v
  | Raise _ => VNone
  end.

(** A record that leaves the [roles] attribute alone: its key is a string
    other than [$add], [$remove] and [roles], and other than [__dict__],
    under which a record replaces the instance dictionary. *)
Definition bystander (elem : val) : bool :=
  match Py.getitem elem "key" with
  | Ok (VStr k) =>
      negb (String.eqb k "$add" || String.eqb k "$remove" || String.eqb k "roles"
            || String.eqb k "__dict__")
  | _ => false
  end.

(** A role record: its key and the stubs its [new_value] lists. *)
Definition role_record (key : string) (stubs : list val) (elem : val) : Prop :=
  Py.getitem elem "key" = Ok (VStr key) ∧ Py.getitem elem "new_value" = Ok (VList stubs).

(** The opaque reference for an integer id. *)
Definition placeholder (id : Z) : val := VInst "Object" [("id", VInt id)].

(** The two containers of a change-set carry the same attribute names. *)
Definition aligned (b a : AuditLogDiff) : Prop := ∀ k, hasattr b k = hasattr a k.

(** What [_handle_role] does to its first container. *)
Definition ensure_roles (d : AuditLogDiff) : AuditLogDiff :=
  if hasattr d "roles" then d else store d "roles" (VList []).

(** A role stub that [role_of_stub] can read: an id with an integer reading
    and, when the guild does not know the role, a name. *)
Definition readable_stub (w : World) (e : val) : Prop :=
  ∃ i z, Py.getitem e "id" = Ok i ∧ Py.int i = Ok z
    ∧ (get_role (guild w) (Some z) = VNone → ∃ nm, Py.getitem e "name" = Ok nm).

(** The target of a permission record by its [permission_type]: 1 is a
    role, 2 a user, 3 a channel; the opaque reference when the lookup
    misses or the type is none of these. *)
Definition typed_target (w : World) (permission_type : val) (target_id : Z) : val :=
  let found :=
    if Py.eq_int permission_type 1 then get_role (guild w) (Some target_id)
    else if Py.eq_int permission_type 2 then _get_member w (Some target_id)
    else if Py.eq_int permission_type 3 then get_channel (guild w) (Some target_id)
    else VNone in
  match found with
  | VNone => placeholder target_id
  | _ => found
  end.

(** The raw change list an entry keeps: the [changes] of the payload, the
    empty list when the payload has none. *)
Definition raw_changes (data : val) : val :=
  match Py.getitem data "changes" with
  | Ok v => v
  | Raise _ => VList []
  end.

(** The attributes of an entry that the specification calls projections,
    and what reading one of them yields. [extra] is a plain attribute set
    by the constructor; the others are cached properties. *)
Inductive projection : Type :=
  | p_target | p_extra | p_changes | p_before | p_after | p_category | p_created_at.

Inductive projected : Type :=
  | a_value (v : val)
  | a_changes (c : AuditLogChanges)
  | a_diff (d : AuditLogDiff)
  | a_category (c : option AuditLogActionCategory).

Definition access `{!Collaborators} (p : projection) (w : World) (self : AuditLogEntry)
  : result (projected * AuditLogEntry) :=
  match p with
  | p_target => let* '(v, self) := Entry.target w self in Ok (a_value v, self)
  | p_extra => Ok (a_value (extra self), self)
  | p_changes => let* '(c, self) := Entry.changes w self in Ok (a_changes c, self)
  | p_before => let* '(d, self) := Entry.before w self in Ok (a_diff d, self)
  | p_after => let* '(d, self) := Entry.after w self in Ok (a_diff d, self)
  | p_category => let* '(c, self) := Entry.category w self in Ok (a_category c, self)
  | p_created_at => let* '(v, self) := Entry.created_at w self in Ok (a_value v, self)
  end.

(** The lookup behind each target kind whose resolver falls back to an
    opaque reference. *)
Definition kind_lookup (kind : string) (w : World) (target_id : option Z) : option val :=
  if String.eqb kind "channel" then Some (get_channel (guild w) target_id)
  else if String.eqb kind "role" then Some (get_role (guild w) target_id)
  else if String.eqb kind "emoji" then Some (get_emoji (_state w) target_id)
  else if String.eqb kind "stage_instance"
    then Some (get_stage_instance (guild w) target_id)
  else if String.eqb kind "sticker" then Some (get_sticker (_state w) target_id)
  else if String.eqb kind "thread" then Some (get_thread (guild w) target_id)
  else if String.eqb kind "guild_scheduled_event"
    then Some (get_scheduled_event (guild w) target_id)
  else if String.eqb kind "integration" then Some (_get_integration w target_id)
  else if String.eqb kind "app_command" then Some (_get_app_command w target_id)
  else if String.eqb kind "integration_or_app_command"
    then Some (Py.or_ (_get_integration_by_app_id w target_id)
                      (_get_app_command w target_id))
  else None.

(** The fields of a change-set that make up the synthetic invite payload,
    and the channel handed to the constructor. *)
Definition invite_fields : list string :=
  ["max_age"; "max_uses"; "code"; "temporary"; "uses"; "channel"].

(** The invite target in the words of the specification: a synthetic
    payload read from one change-set, the channel of that change-set, and
    the inviter of that change-set attached when it has one. *)
Definition invite_of_changeset (w : World) (changeset : AuditLogDiff) : result val :=
  let* max_age := getattr changeset "max_age" in
  let* max_uses := getattr changeset "max_uses" in
  let* code := getattr changeset "code" in
  let* temporary := getattr changeset "temporary" in
  let* uses := getattr changeset "uses" in
  let* channel := getattr changeset "channel" in
  let payload :=
    VDict [("max_age", max_age); ("max_uses", max_uses); ("code", code);
           ("temporary", temporary); ("uses", uses); ("channel", VNone)] in
  let fields :=
    [("_state", state_ref); ("data", payload); ("guild", guild_ref (guild w));
     ("channel", channel)] in
  Ok (match Py.assoc "inviter" changeset with
      | Some inviter => VInst "Invite" (fields ++ [("inviter", inviter)])
      | None => VInst "Invite" fields
      end).

(** Sample records and payloads. *)
Definition sample_add : val :=
  VDict [("key", VStr "$add");
         ("new_value", VList [stub "7" "mods"; stub "999" "gone"])].

Definition sample_remove : val :=
  VDict [("key", VStr "$remove");
         ("old_value", VList [stub "7" "mods"]);
         ("new_value", VList [stub "8" "retired"])].

Definition sample_unknown_payload : val :=
  VDict [("id", VStr "12"); ("action_type", VInt 9999); ("target_id", VStr "3");
         ("changes", VList [change "nick" (VStr "a") (VStr "b")])].

Definition sample_invite_changes : val :=
  VList [change "code" (VStr "abc") VNone;
         change "max_age" (VInt 3600) VNone;
         change "max_uses" (VInt 5) VNone;
         change "temporary" (VBool false) VNone;
         change "uses" (VInt 2) VNone;
         change "channel_id" (VStr "50") VNone;
         change "inviter_id" (VStr "3") VNone].

Definition sample_role : val := VInst "Role" [("id", VInt 7); ("name", VStr "mods")].

(** [AuditLogDiff.__len__] and [AuditLogDiff.__iter__]: the size of the
    instance dictionary and its items in insertion order. *)
Module Diff.

Definition __len__ (self : AuditLogDiff) : nat := length self.

Definition __iter__ (self : AuditLogDiff) : list (string * val) := self.

End Diff.

(** The attribute names of a container, in the order [__iter__] yields
    them. *)
Definition names (d : AuditLogDiff) : list string := map fst (Diff.__iter__ d).

(** A permission list as the permission loop builds it: the only attribute
    of the container, holding pairs whose target is never [None]. *)
Definition permission_list (d : AuditLogDiff) : Prop :=
  ∃ pairs, d = [("app_command_permissions", VList pairs)]
    ∧ Forall (λ p, ∃ target permission,
                p = VTuple [target; permission] ∧ target ≠ VNone) pairs.

(** What the containers have in common: the same names in the same order,
    none of them twice. *)
Definition paired (st : AuditLogDiff * AuditLogDiff) : Prop :=
  names (fst st) = names (snd st) ∧ NoDup (names (fst st)).

(** The attribute a record writes on both containers when it decodes:
    [roles] for the two role records, the effective name of its key
    otherwise. *)
Definition written `{!Collaborators} (elem : val) : option string :=
  match Py.getitem elem "key" with
  | Ok (VStr k) =>
      if String.eqb k "$add" || String.eqb k "$remove" then Some "roles"
      else Some (fst (Changes.resolve k))
  | _ => None
  end.

(** Registered keys whose transformer reads its argument with [int], and
    registered keys whose decoding lets a null value through. *)
Definition integer_keys : list string :=
  ["id"; "allow"; "deny"; "permissions"; "system_channel_flags"].

Definition nullable_keys : list string :=
  ["owner_id"; "inviter_id"; "channel_id"; "afk_channel_id"; "system_channel_id";
   "widget_channel_id"; "rules_channel_id"; "public_updates_channel_id";
   "splash_hash"; "banner_hash"; "discovery_splash_hash"; "icon_hash";
   "avatar_hash"; "rate_limit_per_user"; "guild_id"; "tags"; "image_hash"].

(** The target of one permission overwrite: type ['0'] names a role, type
    ['1'] a member or user, and the opaque reference stands in when the
    lookup finds nothing or the type is anything else. *)
Definition overwrite_target (w : World) (ow_type : val) (ow_id : Z) : val :=
  let found :=
    if Py.eq_str ow_type "0" then get_role (guild w) (Some ow_id)
    else if Py.eq_str ow_type "1" then _get_member w (Some ow_id)
    else VNone in
  match found with
  | VNone => placeholder ow_id
  | _ => found
  end.

(** A raw overwrite and the pair it decodes to. *)
Definition overwrite_of (w : World) (elem pair : val) : Prop :=
  ∃ i ow_id ow_type ow,
    Py.getitem elem "id" = Ok i ∧ Py.int i = Ok ow_id
    ∧ Py.getitem elem "type" = Ok ow_type
    ∧ pair = VTuple [overwrite_target w ow_type ow_id; ow]
    ∧ overwrite_target w ow_type ow_id ≠ VNone.

(** The attributes the constructor sets and no property writes. *)
Definition eager (e : AuditLogEntry) : action_t * Z * val * val * val * option Z :=
  (action e, entry_id e, reason e, extra e, user e, _target_id e).

(** The state of the lazy change-set of an entry: the raw list is there
    exactly as long as the change-set is not cached, and the cached
    [before] and [after] are the containers of the cached change-set. *)
Definition coherent (e : AuditLogEntry) : Prop :=
  match cached_changes e with
  | None => is_Some (_changes e) ∧ cached_before e = None ∧ cached_after e = None
  | Some c =>
      _changes e = None
      ∧ (∀ d, cached_before e = Some d → d = before c)
      ∧ (∀ d, cached_after e = Some d → d = after c)
  end.

(** The tests on the action that the constructor runs, in its order, before
    it reads the [options] block. *)
Definition takes_count_and_channel (a : action_t) : bool :=
  negb (is_action a "member_prune")
  && (is_action a "member_move" || is_action a "message_delete").

Definition takes_pin `{!Collaborators} (a : action_t) : bool :=
  negb (is_action a "member_prune")
  && negb (is_action a "member_move" || is_action a "message_delete")
  && negb (is_action a "member_disconnect")
  && Py.endswith (action_name a) "pin".

Definition takes_overwrite `{!Collaborators} (a : action_t) : bool :=
  negb (is_action a "member_prune")
  && negb (is_action a "member_move" || is_action a "message_delete")
  && negb (is_action a "member_disconnect")
  && negb (Py.endswith (action_name a) "pin")
  && Py.startswith (action_name a) "overwrite_".

Definition takes_stage_instance `{!Collaborators} (a : action_t) : bool :=
  negb (is_action a "member_prune")
  && negb (is_action a "member_move" || is_action a "message_delete")
  && negb (is_action a "member_disconnect")
  && negb (Py.endswith (action_name a) "pin")
  && negb (Py.startswith (action_name a) "overwrite_")
  && Py.startswith (action_name a) "stage_instance".

Definition takes_options `{!Collaborators} (a : action_t) : bool :=
  is_action a "member_prune"
  || is_action a "member_move" || is_action a "message_delete"
  || is_action a "member_disconnect"
  || Py.endswith (action_name a) "pin"
  || Py.startswith (action_name a) "overwrite_"
  || Py.startswith (action_name a) "stage_instance"
  || Py.startswith (action_name a) "app_command".

(** More sample inputs. *)
Definition sample_role_entry : AuditLogEntry :=
  make_entry (sample_action "role_update") (VList []) (Some 7).

Definition sample_invite_entry : AuditLogEntry :=
  make_entry (sample_action "invite_delete") sample_invite_changes None.

Definition sample_permission_entry : AuditLogEntry :=
  make_entry (sample_action "app_command_permission_update") (VList []) (Some 3).

Definition sample_message_delete : action_t :=
  Member {| name := "message_delete"; value := 72;
            category := Some delete; target_type := Some "message" |}.

Definition sample_overwrite_update : action_t :=
  Member {| name := "overwrite_update"; value := 14;
            category := Some update; target_type := Some "channel" |}.

Definition sample_overwrites : list val :=
  [VDict [("id", VStr "7"); ("type", VStr "0"); ("allow", VStr "1024"); ("deny", VStr "0")];
   VDict [("id", VStr "7"); ("type", VInt 0); ("allow", VStr "0"); ("deny", VStr "8")]].

Definition sample_plain_payload : val :=
  VDict [("id", VStr "12"); ("action_type", VInt 31); ("options", VDict [])].

Definition sample_prune_payload : val :=
  VDict [("id", VStr "12"); ("action_type", VInt 21);
         ("options", VDict [("delete_member_days", VStr "7")]);
         ("changes", VInt 0)].

(** A record whose key is [__dict__]: its values, when they are
    dictionaries, become the instance dictionaries of the containers. *)
Definition replaces_dict (elem : val) : bool :=
  match Py.getitem elem "key" with
  | Ok (VStr k) => String.eqb k "__dict__"
  | _ => false
  end.

(** The pair a permission record adds to a container for a target: none
    for a null value, else the target with the value's [permission]. *)
Definition pair_of (target value : val) : list val :=
  match value with
  | VNone => []
  | _ => [VTuple [target; raw_field value "permission"]]
  end.

(** The target of a permission record, when it has one: the all-channels
    sentinel when its key reads as [guild.id - 1], whatever its values hold;
    otherwise the target that the [type] of [old_value or new_value] names,
    and none when neither value is there. *)
Definition record_target (w : World) (d : val) : option val :=
  match (let* k := Py.getitem d "key" in Py.int k) with
  | Ok target_id =>
      if (target_id =? guild_id (guild w) - 1)%Z
      then Some (AllChannels (guild w))
      else
        match Py.or_ (raw_field d "old_value") (raw_field d "new_value") with
        | VNone => None
        | value => Some (typed_target w (raw_field value "type") target_id)
        end
  | Raise _ => None
  end.

(** The pairs a permission record contributes to the container of a side
    ([old_value] for [before], [new_value] for [after]). *)
Definition contributed (w : World) (side : string) (d : val) : list val :=
  match record_target w d with
  | Some target => pair_of target (raw_field d side)
  | None => []
  end.

(** A permission record that can be read: its key has an integer reading,
    each value is null or holds a [permission], and [old_value or
    new_value] holds a [type] unless the key is the sentinel. *)
Definition side_readable (value : val) : Prop :=
  value = VNone ∨ ∃ permission, Py.getitem value "permission" = Ok permission.

Definition permission_record (w : World) (d : val) : Prop :=
  ∃ k target_id,
    Py.getitem d "key" = Ok k ∧ Py.int k = Ok target_id
    ∧ side_readable (raw_field d "old_value")
    ∧ side_readable (raw_field d "new_value")
    ∧ (target_id ≠ guild_id (guild w) - 1 →
       let value := Py.or_ (raw_field d "old_value") (raw_field d "new_value") in
       value = VNone ∨ ∃ permission_type, Py.getitem value "type" = Ok permission_type).

(** ** Lemmas on dictionaries and containers *)

Example int_snowflake : Py.int (VStr "999") = Ok 999.
Proof. reflexivity. Qed.

Example int_underscore : Py.int (VStr " -1_000 ") = Ok (-1000).
Proof. reflexivity. Qed.

Example int_bad : Py.int (VStr "12a") = Raise ValueError.
Proof. reflexivity. Qed.

Example endswith_pin : Py.endswith "message_unpin" "pin" = true.
Proof. reflexivity. Qed.

Section Dictionaries.
Context {V : Type}.
Implicit Types (d : list (string * V)) (k : string) (v : V).

Lemma assoc_set_eq d k v : Py.assoc k (Py.assoc_set k v d) = Some v.
Proof.
  induction d as [|[k' v'] d IH]; simpl.
  - by rewrite String.eqb_refl.
  - destruct (String.eqb k k') eqn:E; simpl.
    + by rewrite String.eqb_refl.
    + by rewrite E.
Qed.

Lemma assoc_set_ne d k k' v : k ≠ k' → Py.assoc k' (Py.assoc_set k v d) = Py.assoc k' d.
Proof.
  intros Hne. induction d as [|[k0 v0] d IH]; simpl.
  - apply String.eqb_neq in Hne. rewrite String.eqb_sym in Hne. by rewrite Hne.
  - destruct (String.eqb k k0) eqn:E; simpl.
    + apply String.eqb_eq in E as <-.
      assert (String.eqb k' k = false) as ->; [|done].
      apply String.eqb_neq. congruence.
    + by rewrite IH.
Qed.

Lemma assoc_set_lookup d k k' v :
  Py.assoc k' (Py.assoc_set k v d) = if String.eqb k k' then Some v else Py.assoc k' d.
Proof.
  destruct (String.eqb k k') eqn:E.
  - apply String.eqb_eq in E as <-. apply assoc_set_eq.
  - apply String.eqb_neq in E. by apply assoc_set_ne.
Qed.

End Dictionaries.

Lemma getattr_store_eq d k v : getattr (store d k v) k = Ok v.
Proof. unfold getattr, store. by rewrite assoc_set_eq. Qed.

Lemma getattr_store_ne d k k' v : k ≠ k' → getattr (store d k v) k' = getattr d k'.
Proof. intros. unfold getattr, store. by rewrite assoc_set_ne. Qed.

Lemma hasattr_store d k k' v :
  hasattr (store d k v) k' = String.eqb k k' || hasattr d k'.
Proof.
  unfold hasattr, store. rewrite assoc_set_lookup.
  by destruct (String.eqb k k').
Qed.

(** An assignment that succeeds either replaced the instance dictionary or
    bound the name in it. *)
Lemma setattr_plain d k v : reserved k = false → setattr d k v = Ok (store d k v).
Proof.
  unfold reserved, setattr. intros H.
  apply orb_false_iff in H as [H ->]. apply orb_false_iff in H as [-> ->]. done.
Qed.

Lemma setattr_Ok d k v d' :
  setattr d k v = Ok d' →
  (k = "__dict__" ∧ v = VDict d') ∨ (reserved k = false ∧ d' = store d k v).
Proof.
  unfold reserved, setattr.
  destruct (String.eqb k "__class__"); [discriminate|].
  destruct (String.eqb k "__weakref__"); [discriminate|].
  destruct (String.eqb k "__dict__") eqn:E.
  - apply String.eqb_eq in E. destruct v; try discriminate.
    intros [= ->]. by left.
  - intros [= <-]. by right.
Qed.

Lemma setattr_Ok_plain d k v d' :
  k ≠ "__dict__" → setattr d k v = Ok d' → d' = store d k v.
Proof. intros Hne Hset. apply setattr_Ok in Hset as [[? _]|[_ ?]]; done. Qed.

Lemma hasattr_getattr d k : hasattr d k = true ↔ ∃ v, getattr d k = Ok v.
Proof.
  unfold hasattr, getattr. destruct (Py.assoc k d); split; eauto.
  - intros; discriminate.
  - intros [? ?]; discriminate.
Qed.

Lemma rbind_Ok {A B} (m : result A) (k : A → result B) (b : B) :
  rbind m k = Ok b ↔ ∃ a, m = Ok a ∧ k a = Ok b.
Proof.
  destruct m; simpl; split; eauto.
  - intros (? & [= <-] & ?). done.
  - intros; discriminate.
  - intros (? & ? & ?); discriminate.
Qed.

Lemma foldM_app {A S} (f : S → A → result S) (s : S) (l1 l2 : list A) :
  foldM f s (l1 ++ l2) = let* s' := foldM f s l1 in foldM f s' l2.
Proof.
  revert s. induction l1 as [|x l1 IH]; intros s; simpl; [done|].
  destruct (f s x); simpl; [apply IH | done].
Qed.

(** ** The change-set decoder *)

Section ChangeSet.
Context `{!Collaborators}.
Implicit Types (w : World) (entry : AuditLogEntry) (b a : AuditLogDiff).

Lemma eq_str_false (k s : string) : k ≠ s → Py.eq_str (VStr k) s = false.
Proof. intros. simpl. by apply String.eqb_neq. Qed.

Lemma decode_value_identity w entry elem field :
  (∃ k, Py.getitem elem "key" = Ok k) →
  Changes.decode_value w entry None elem field = Ok (raw_field elem field).
Proof.
  intros [k Hk]. unfold Changes.decode_value, raw_field.
  destruct elem; try discriminate. simpl.
  by destruct (Py.assoc field d).
Qed.

(** An alias never touches another attribute, and is the copy of the
    attribute it mirrors. *)
Lemma add_alias_other attr alias b a b' a' k :
  reserved alias = false →
  Changes.add_alias attr alias (b, a) = Ok (b', a') → alias ≠ k →
  getattr b' k = getattr b k ∧ getattr a' k = getattr a k.
Proof.
  unfold Changes.add_alias. intros Hres Hrun Hne.
  destruct (hasattr a attr); [|by inversion Hrun].
  destruct (getattr a attr) as [va|]; [|discriminate]. cbn [rbind] in Hrun.
  rewrite setattr_plain in Hrun by done. cbn [rbind] in Hrun.
  destruct (getattr b attr) as [vb|]; [|discriminate]. cbn [rbind] in Hrun.
  rewrite setattr_plain in Hrun by done. cbn [rbind] in Hrun.
  inversion Hrun; subst. by rewrite !getattr_store_ne.
Qed.

Lemma add_alias_absent attr alias b a :
  hasattr a attr = false → Changes.add_alias attr alias (b, a) = Ok (b, a).
Proof. unfold Changes.add_alias. by intros ->. Qed.

Lemma add_alias_present attr alias b a va vb :
  reserved alias = false →
  getattr a attr = Ok va → getattr b attr = Ok vb →
  Changes.add_alias attr alias (b, a) = Ok (store b alias vb, store a alias va).
Proof.
  intros Hres Ha Hb. unfold Changes.add_alias.
  assert (hasattr a attr = true) as -> by (apply hasattr_getattr; eauto).
  rewrite Ha, Hb. cbn [rbind]. by rewrite !setattr_plain.
Qed.

Lemma aligned_store b a k vb va :
  aligned b a → aligned (store b k vb) (store a k va).
Proof. intros Hal k'. by rewrite !hasattr_store, Hal. Qed.

Lemma add_alias_aligned attr alias b a :
  reserved alias = false →
  aligned b a →
  ∃ b' a', Changes.add_alias attr alias (b, a) = Ok (b', a') ∧ aligned b' a'.
Proof.
  intros Hres Hal. destruct (hasattr a attr) eqn:Ha.
  - pose proof Ha as Hb. rewrite <- Hal in Hb.
    apply hasattr_getattr in Ha as [va Ha]. apply hasattr_getattr in Hb as [vb Hb].
    rewrite (add_alias_present _ _ _ _ _ _ Hres Ha Hb).
    eexists _, _. split; [done|]. by apply aligned_store.
  - rewrite add_alias_absent by done. eauto.
Qed.

Lemma decode_record_unregistered w entry elem key b a :
  Py.getitem elem "key" = Ok (VStr key) →
  key ≠ "$add" → key ≠ "$remove" →
  Py.assoc key TRANSFORMERS = None →
  Changes.decode_record w entry (b, a) elem =
    let* b' := setattr b key (raw_field elem "old_value") in
    let* a' := setattr a key (raw_field elem "new_value") in
    Ok (b', a').
Proof.
  intros Hkey Hadd Hrem Hreg. unfold Changes.decode_record.
  rewrite Hkey. cbn [rbind].
  rewrite !eq_str_false by done.
  unfold Changes.resolve. rewrite Hreg.
  rewrite !decode_value_identity by eauto. done.
Qed.

(** C5. A change record whose key is neither [$add] nor [$remove], is
    absent from the Transform Registry and is none of the names
    [__class__], [__dict__] and [__weakref__] is passed through: the loop
    body stores the raw [old_value] and [new_value] (null when absent) under
    the raw key on both containers, and decoding the list made of that
    record alone yields containers that hold exactly these values under
    that key. *)
Theorem unregistered_key_passes_through w entry elem key :
  Py.getitem elem "key" = Ok (VStr key) →
  key ≠ "$add" → key ≠ "$remove" →
  Py.assoc key TRANSFORMERS = None →
  reserved key = false →
  is_action (action entry) "app_command_permission_update" = false →
  (∀ b a, Changes.decode_record w entry (b, a) elem =
     Ok (store b key (raw_field elem "old_value"),
         store a key (raw_field elem "new_value")))
  ∧ ∃ c, Changes.init w entry (VList [elem]) = Ok c
      ∧ getattr (before c) key = Ok (raw_field elem "old_value")
      ∧ getattr (after c) key = Ok (raw_field elem "new_value").
Proof.
  intros Hkey Hadd Hrem Hreg Hres Hact.
  assert (∀ b a, Changes.decode_record w entry (b, a) elem =
            Ok (store b key (raw_field elem "old_value"),
                store a key (raw_field elem "new_value"))) as Hstep.
  { intros. rewrite (decode_record_unregistered _ _ _ key) by done.
    by rewrite !setattr_plain. }
  split; [done|].
  unfold Changes.init, Changes.decode_per_record. rewrite Hact.
  cbn [Py.iter rbind foldM].
  rewrite Hstep. cbn [rbind].
  set (b0 := store [] key (raw_field elem "old_value")).
  set (a0 := store [] key (raw_field elem "new_value")).
  assert (aligned b0 a0) as Hal0 by (apply aligned_store; by intros k).
  assert (key ≠ "color") as Hcolor.
  { intros ->. cbv in Hreg. discriminate. }
  assert (key ≠ "expire_behavior") as Hexp.
  { intros ->. cbv in Hreg. discriminate. }
  destruct (add_alias_aligned "colour" "color" b0 a0 eq_refl Hal0)
    as (b1 & a1 & H1 & Hal1).
  rewrite H1. cbn [rbind].
  destruct (add_alias_other _ "color" _ _ _ _ key eq_refl H1) as [Hb1 Ha1]; [congruence|].
  assert (hasattr a1 "expire_behavior" = false) as Hno.
  { destruct (hasattr a1 "expire_behavior") eqn:E; [|done].
    apply hasattr_getattr in E as [v E].
    destruct (add_alias_other _ "color" _ _ _ _ "expire_behavior" eq_refl H1) as [_ Ha]; [done|].
    rewrite Ha in E. unfold a0 in E. rewrite getattr_store_ne in E by done.
    discriminate. }
  rewrite add_alias_absent by done. cbn [rbind].
  eexists. split; [done|]. simpl.
  rewrite Hb1, Ha1. unfold b0, a0. by rewrite !getattr_store_eq.
Qed.

(** *** Role records *)

Lemma handle_role_list w entry first second stubs :
  Changes._handle_role w entry first second (VList stubs) =
    let* data := mapM (Changes.role_of_stub w) stubs in
    Ok (ensure_roles first, store second "roles" (VList data)).
Proof.
  unfold Changes._handle_role, ensure_roles.
  destruct (hasattr first "roles"); cbn [rbind Py.iter];
    by destruct (mapM (Changes.role_of_stub w) stubs).
Qed.

Lemma getattr_ensure_roles d :
  getattr (ensure_roles d) "roles" =
    if hasattr d "roles" then getattr d "roles" else Ok (VList []).
Proof.
  unfold ensure_roles. destruct (hasattr d "roles"); [done|].
  apply getattr_store_eq.
Qed.

Lemma decode_record_add w entry elem stubs data b a :
  role_record "$add" stubs elem →
  mapM (Changes.role_of_stub w) stubs = Ok data →
  Changes.decode_record w entry (b, a) elem =
    Ok (ensure_roles b, store a "roles" (VList data)).
Proof.
  intros [Hkey Hnew] Hdata. unfold Changes.decode_record.
  rewrite Hkey. cbn [rbind Py.eq_str String.eqb Ascii.eqb Bool.eqb].
  rewrite Hnew. cbn [rbind]. by rewrite handle_role_list, Hdata.
Qed.

Lemma decode_record_remove w entry elem stubs data b a :
  role_record "$remove" stubs elem →
  mapM (Changes.role_of_stub w) stubs = Ok data →
  Changes.decode_record w entry (b, a) elem =
    Ok (store b "roles" (VList data), ensure_roles a).
Proof.
  intros [Hkey Hnew] Hdata. unfold Changes.decode_record.
  rewrite Hkey. cbn [rbind Py.eq_str String.eqb Ascii.eqb Bool.eqb].
  rewrite Hnew. cbn [rbind]. by rewrite handle_role_list, Hdata.
Qed.

(** No entry of the registry renames a key to [roles]. *)
Lemma resolve_roles (k : string) :
  k ≠ "roles" → fst (Changes.resolve k) ≠ "roles".
Proof.
  intros Hne. unfold Changes.resolve, TRANSFORMERS. cbn [Py.assoc].
  repeat match goal with
         | |- context [String.eqb k ?s] =>
             destruct (String.eqb k s); [cbn; first [discriminate | exact Hne]|]
         end.
  done.
Qed.

(** No entry of the registry renames a key to [__dict__], and none renames
    [__dict__]. *)
Lemma resolve_dict (k : string) :
  k ≠ "__dict__" → fst (Changes.resolve k) ≠ "__dict__".
Proof.
  intros Hne. unfold Changes.resolve, TRANSFORMERS. cbn [Py.assoc].
  repeat match goal with
         | |- context [String.eqb k ?s] =>
             destruct (String.eqb k s); [cbn; first [discriminate | exact Hne]|]
         end.
  done.
Qed.

Lemma resolve_reserved (k : string) :
  reserved k = true → Changes.resolve k = (k, None).
Proof.
  unfold reserved. intros Hres.
  apply orb_true_iff in Hres as [Hres|Hres];
    [apply orb_true_iff in Hres as [Hres|Hres]|];
    apply String.eqb_eq in Hres as ->; reflexivity.
Qed.

Lemma decode_record_bystander w entry elem b a b' a' :
  bystander elem = true →
  Changes.decode_record w entry (b, a) elem = Ok (b', a') →
  getattr b' "roles" = getattr b "roles" ∧ getattr a' "roles" = getattr a "roles".
Proof.
  unfold bystander, Changes.decode_record. intros Hby Hrun.
  destruct (Py.getitem elem "key") as [[]|] eqn:Hkey; try discriminate.
  cbn [rbind Py.eq_str] in Hrun.
  apply negb_true_iff in Hby.
  apply orb_false_iff in Hby as [Hby Hdict].
  apply orb_false_iff in Hby as [Hby Hroles].
  apply orb_false_iff in Hby as [Hadd Hrem].
  rewrite Hadd, Hrem in Hrun.
  apply String.eqb_neq in Hroles. apply resolve_roles in Hroles.
  apply String.eqb_neq in Hdict. apply resolve_dict in Hdict.
  destruct (Changes.resolve s) as [attr transformer]. simpl in Hroles, Hdict.
  apply rbind_Ok in Hrun as (vb & _ & Hrun).
  apply rbind_Ok in Hrun as (b1 & Hb & Hrun).
  apply rbind_Ok in Hrun as (va & _ & Hrun).
  apply rbind_Ok in Hrun as (a1 & Ha & Hrun).
  apply setattr_Ok_plain in Hb; [|done]. apply setattr_Ok_plain in Ha; [|done].
  inversion Hrun; subst. by rewrite !getattr_store_ne.
Qed.

Lemma loop_bystanders w entry elems : ∀ b a b' a',
  Forall (λ elem, bystander elem = true) elems →
  foldM (Changes.decode_record w entry) (b, a) elems = Ok (b', a') →
  getattr b' "roles" = getattr b "roles" ∧ getattr a' "roles" = getattr a "roles".
Proof.
  induction elems as [|elem elems IH]; intros b a b' a' Hall Hrun.
  - by inversion Hrun.
  - inversion Hall as [|? ? Hby Hrest]; subst. simpl in Hrun.
    apply rbind_Ok in Hrun as ([b1 a1] & Hstep & Hrun).
    destruct (decode_record_bystander _ _ _ _ _ _ _ Hby Hstep) as [Hb Ha].
    destruct (IH _ _ _ _ Hrest Hrun) as [-> ->]. done.
Qed.

(** The aliases leave [roles] alone, so the containers returned by the
    per-record algorithm show the [roles] the loop left. *)
Lemma decode_per_record_roles w entry elems c :
  Changes.decode_per_record w entry (VList elems) = Ok c →
  ∃ b a, foldM (Changes.decode_record w entry) ([], []) elems = Ok (b, a)
    ∧ getattr (before c) "roles" = getattr b "roles"
    ∧ getattr (after c) "roles" = getattr a "roles".
Proof.
  unfold Changes.decode_per_record. cbn [Py.iter rbind]. intros Hrun.
  apply rbind_Ok in Hrun as ([b a] & Hloop & Hrun).
  apply rbind_Ok in Hrun as ([b1 a1] & H1 & Hrun).
  apply rbind_Ok in Hrun as ([b2 a2] & H2 & Hrun).
  inversion Hrun; subst. simpl.
  destruct (add_alias_other _ "color" _ _ _ _ "roles" eq_refl H1) as [Hb1 Ha1]; [done|].
  destruct (add_alias_other _ "expire_behaviour" _ _ _ _ "roles" eq_refl H2) as [Hb2 Ha2]; [done|].
  exists b, a. by rewrite Hb2, Ha2, Hb1, Ha1.
Qed.

Lemma foldM_split {A S} (f : S → A → result S) pre x post (s s' : S) :
  foldM f s (pre ++ x :: post) = Ok s' →
  ∃ s1 s2, foldM f s pre = Ok s1 ∧ f s1 x = Ok s2 ∧ foldM f s2 post = Ok s'.
Proof.
  rewrite foldM_app. intros Hrun.
  apply rbind_Ok in Hrun as (s1 & Hpre & Hrun). simpl in Hrun.
  apply rbind_Ok in Hrun as (s2 & Hstep & Hpost). eauto.
Qed.

Lemma getattr_hasattr_eq d d' k : getattr d k = getattr d' k → hasattr d k = hasattr d' k.
Proof.
  unfold getattr, hasattr.
  destruct (Py.assoc k d), (Py.assoc k d'); done.
Qed.

(** The loop from a [$add] record on, when only bystanders follow. *)
Lemma loop_after_add w entry elem stubs data post b a b' a' :
  role_record "$add" stubs elem →
  mapM (Changes.role_of_stub w) stubs = Ok data →
  Forall (λ elem, bystander elem = true) post →
  foldM (Changes.decode_record w entry) (b, a) (elem :: post) = Ok (b', a') →
  getattr b' "roles" = getattr (ensure_roles b) "roles"
  ∧ getattr a' "roles" = Ok (VList data).
Proof.
  intros Hrec Hdata Hpost Hrun. cbn [foldM] in Hrun.
  rewrite (decode_record_add _ _ _ _ _ _ _ Hrec Hdata) in Hrun. cbn [rbind] in Hrun.
  destruct (loop_bystanders _ _ _ _ _ _ _ Hpost Hrun) as [-> ->].
  by rewrite getattr_store_eq.
Qed.

Lemma loop_after_remove w entry elem stubs data post b a b' a' :
  role_record "$remove" stubs elem →
  mapM (Changes.role_of_stub w) stubs = Ok data →
  Forall (λ elem, bystander elem = true) post →
  foldM (Changes.decode_record w entry) (b, a) (elem :: post) = Ok (b', a') →
  getattr b' "roles" = Ok (VList data)
  ∧ getattr a' "roles" = getattr (ensure_roles a) "roles".
Proof.
  intros Hrec Hdata Hpost Hrun. cbn [foldM] in Hrun.
  rewrite (decode_record_remove _ _ _ _ _ _ _ Hrec Hdata) in Hrun. cbn [rbind] in Hrun.
  destruct (loop_bystanders _ _ _ _ _ _ _ Hpost Hrun) as [-> ->].
  by rewrite getattr_store_eq.
Qed.

Lemma ensure_roles_present d v :
  getattr d "roles" = Ok v → getattr (ensure_roles d) "roles" = Ok v.
Proof.
  intros Hd. rewrite getattr_ensure_roles.
  assert (hasattr d "roles" = true) as -> by (apply hasattr_getattr; eauto). done.
Qed.

Lemma ensure_roles_absent d :
  getattr d "roles" = getattr [] "roles" →
  getattr (ensure_roles d) "roles" = Ok (VList []).
Proof.
  intros Hd. rewrite getattr_ensure_roles.
  by rewrite (getattr_hasattr_eq _ _ _ Hd).
Qed.

(** C4. Let a change list of an action other than the application-command
    permission update hold one [$add] record listing the stubs [sa] and one
    [$remove] record listing the stubs [sc]. Decoding the two records alone,
    in either order, gives [after.roles] the decoded [sa] and [before.roles]
    the decoded [sc]; the same holds for the containers of any successful
    decode in which the other records leave [roles] alone. With a [$add]
    and no [$remove], [before.roles] is the empty list, and symmetrically
    [after.roles] is the empty list with a [$remove] and no [$add]. *)
Theorem role_records_fill_roles w entry add rem sa sc ra rc :
  is_action (action entry) "app_command_permission_update" = false →
  role_record "$add" sa add →
  role_record "$remove" sc rem →
  mapM (Changes.role_of_stub w) sa = Ok ra →
  mapM (Changes.role_of_stub w) sc = Ok rc →
  let decoded :=
    {| before := [("roles", VList rc)]; after := [("roles", VList ra)] |} in
  Changes.init w entry (VList [add; rem]) = Ok decoded
  ∧ Changes.init w entry (VList [rem; add]) = Ok decoded
  ∧ (∀ pre mid post c,
       Forall (λ elem, bystander elem = true) (pre ++ mid ++ post) →
       Changes.init w entry (VList (pre ++ add :: mid ++ rem :: post)) = Ok c
       ∨ Changes.init w entry (VList (pre ++ rem :: mid ++ add :: post)) = Ok c →
       getattr (after c) "roles" = Ok (VList ra)
       ∧ getattr (before c) "roles" = Ok (VList rc))
  ∧ (∀ pre post c,
       Forall (λ elem, bystander elem = true) (pre ++ post) →
       Changes.init w entry (VList (pre ++ add :: post)) = Ok c →
       getattr (after c) "roles" = Ok (VList ra)
       ∧ getattr (before c) "roles" = Ok (VList []))
  ∧ (∀ pre post c,
       Forall (λ elem, bystander elem = true) (pre ++ post) →
       Changes.init w entry (VList (pre ++ rem :: post)) = Ok c →
       getattr (before c) "roles" = Ok (VList rc)
       ∧ getattr (after c) "roles" = Ok (VList [])).
Proof.
  intros Hact Hadd Hrem Hra Hrc decoded. unfold Changes.init. rewrite Hact.
  assert (∀ elems c,
            Changes.decode_per_record w entry (VList elems) = Ok c →
            ∃ b a, foldM (Changes.decode_record w entry) ([], []) elems = Ok (b, a)
              ∧ getattr (before c) "roles" = getattr b "roles"
              ∧ getattr (after c) "roles" = getattr a "roles") as Hroles
    by (intros; by apply decode_per_record_roles).
  assert (∀ st x rest st',
            Changes.decode_record w entry st x = Ok st' →
            foldM (Changes.decode_record w entry) st (x :: rest) =
              foldM (Changes.decode_record w entry) st' rest) as Hcons
    by (intros ? ? ? ? Hx; cbn [foldM]; by rewrite Hx).
  split; [|split; [|split; [|split]]].
  - unfold Changes.decode_per_record. cbn [Py.iter rbind foldM].
    rewrite (decode_record_add _ _ _ _ _ _ _ Hadd Hra). cbn [rbind].
    rewrite (decode_record_remove _ _ _ _ _ _ _ Hrem Hrc). reflexivity.
  - unfold Changes.decode_per_record. cbn [Py.iter rbind foldM].
    rewrite (decode_record_remove _ _ _ _ _ _ _ Hrem Hrc). cbn [rbind].
    rewrite (decode_record_add _ _ _ _ _ _ _ Hadd Hra). reflexivity.
  - intros pre mid post c Hall Hrun.
    apply Forall_app in Hall as [Hpre Hrest].
    apply Forall_app in Hrest as [Hmid Hpost].
    destruct Hrun as [Hrun|Hrun];
      apply Hroles in Hrun as (b & a & Hloop & -> & ->);
      apply foldM_split in Hloop as ([b1 a1] & s2 & _ & Hstep & Hl).
    + rewrite <- (Hcons _ _ _ _ Hstep) in Hl. clear Hstep.
      rewrite (Hcons _ _ _ _ (decode_record_add _ _ _ _ _ _ _ Hadd Hra)) in Hl.
      apply foldM_split in Hl as ([b3 a3] & s4 & Hl3 & Hstep & Hl).
      rewrite <- (Hcons _ _ _ _ Hstep) in Hl.
      destruct (loop_bystanders _ _ _ _ _ _ _ Hmid Hl3) as [_ Ha3].
      rewrite getattr_store_eq in Ha3.
      destruct (loop_after_remove _ _ _ _ _ _ _ _ _ _ Hrem Hrc Hpost Hl) as [-> ->].
      split; [by apply ensure_roles_present | done].
    + rewrite <- (Hcons _ _ _ _ Hstep) in Hl. clear Hstep.
      rewrite (Hcons _ _ _ _ (decode_record_remove _ _ _ _ _ _ _ Hrem Hrc)) in Hl.
      apply foldM_split in Hl as ([b3 a3] & s4 & Hl3 & Hstep & Hl).
      rewrite <- (Hcons _ _ _ _ Hstep) in Hl.
      destruct (loop_bystanders _ _ _ _ _ _ _ Hmid Hl3) as [Hb3 _].
      rewrite getattr_store_eq in Hb3.
      destruct (loop_after_add _ _ _ _ _ _ _ _ _ _ Hadd Hra Hpost Hl) as [-> ->].
      split; [done | by apply ensure_roles_present].
  - intros pre post c Hall Hrun.
    apply Forall_app in Hall as [Hpre Hpost].
    apply Hroles in Hrun as (b & a & Hloop & -> & ->).
    apply foldM_split in Hloop as ([b1 a1] & s2 & Hl1 & Hstep & Hl).
    rewrite <- (Hcons _ _ _ _ Hstep) in Hl.
    destruct (loop_after_add _ _ _ _ _ _ _ _ _ _ Hadd Hra Hpost Hl) as [-> ->].
    destruct (loop_bystanders _ _ _ _ _ _ _ Hpre Hl1) as [Hb1 _].
    split; [done | by apply ensure_roles_absent].
  - intros pre post c Hall Hrun.
    apply Forall_app in Hall as [Hpre Hpost].
    apply Hroles in Hrun as (b & a & Hloop & -> & ->).
    apply foldM_split in Hloop as ([b1 a1] & s2 & Hl1 & Hstep & Hl).
    rewrite <- (Hcons _ _ _ _ Hstep) in Hl.
    destruct (loop_after_remove _ _ _ _ _ _ _ _ _ _ Hrem Hrc Hpost Hl) as [-> ->].
    destruct (loop_bystanders _ _ _ _ _ _ _ Hpre Hl1) as [_ Ha1].
    split; [done | by apply ensure_roles_absent].
Qed.

Lemma mapM_elem_of {A B} (f : A → result B) (l : list A) (ys : list B) x y :
  mapM f l = Ok ys → x ∈ l → f x = Ok y → y ∈ ys.
Proof.
  revert ys. induction l as [|x' l IH]; intros ys Hrun Hin Hx.
  - by apply elem_of_nil in Hin.
  - cbn [mapM] in Hrun.
    apply rbind_Ok in Hrun as (y' & Hy' & Hrun).
    apply rbind_Ok in Hrun as (ys' & Hys' & Hrun).
    inversion Hrun; subst.
    apply elem_of_cons in Hin as [->|Hin].
    + rewrite Hx in Hy'. inversion Hy'. apply list_elem_of_here.
    + apply list_elem_of_further. by apply IH.
Qed.

Lemma mapM_total {A B} (f : A → result B) (l : list A) :
  Forall (λ x, ∃ y, f x = Ok y) l → ∃ ys, mapM f l = Ok ys.
Proof.
  induction 1 as [|x l [y Hy] _ [ys Hys]]; [by exists []|].
  exists (y :: ys). cbn [mapM]. by rewrite Hy, Hys.
Qed.

Lemma role_of_stub_missing w e raw_id role_id nm :
  Py.getitem e "id" = Ok raw_id → Py.int raw_id = Ok role_id →
  get_role (guild w) (Some role_id) = VNone →
  Py.getitem e "name" = Ok nm →
  Changes.role_of_stub w e = Ok (VInst "Object" [("id", VInt role_id); ("name", nm)]).
Proof.
  intros Hid Hint Hmiss Hname. unfold Changes.role_of_stub.
  rewrite Hid. cbn [rbind]. rewrite Hint. cbn [rbind]. rewrite Hmiss.
  cbn. by rewrite Hname.
Qed.

Lemma role_of_stub_readable w e :
  readable_stub w e → ∃ role, Changes.role_of_stub w e = Ok role.
Proof.
  intros (i & z & Hid & Hint & Hname). unfold Changes.role_of_stub.
  rewrite Hid. cbn [rbind]. rewrite Hint. cbn [rbind].
  destruct (get_role (guild w) (Some z)) eqn:Hrole; eauto.
  destruct Hname as [nm Hnm]; [done|]. cbn. rewrite Hnm. cbn. eauto.
Qed.

(** C8. A role id listed in a [$add] or [$remove] record that matches no
    role of the guild is decoded to an opaque reference whose id is the
    integer reading of the raw id, annotated with the name found in the
    stub; it is a member of the [roles] list that [_handle_role] stores,
    and [_handle_role] raises nothing when every stub of the record can be
    read. *)
Theorem unknown_role_becomes_placeholder
    w entry first second stubs e raw_id role_id nm :
  e ∈ stubs →
  Py.getitem e "id" = Ok raw_id → Py.int raw_id = Ok role_id →
  get_role (guild w) (Some role_id) = VNone →
  Py.getitem e "name" = Ok nm →
  Forall (readable_stub w) stubs →
  let opaque := VInst "Object" [("id", VInt role_id); ("name", nm)] in
  Changes.role_of_stub w e = Ok opaque
  ∧ inst_getattr opaque "id" = Ok (VInt role_id)
  ∧ inst_getattr opaque "name" = Ok nm
  ∧ ∃ roles,
      Changes._handle_role w entry first second (VList stubs) =
        Ok (ensure_roles first, store second "roles" (VList roles))
      ∧ opaque ∈ roles.
Proof.
  intros Hin Hid Hint Hmiss Hname Hall opaque.
  pose proof (role_of_stub_missing _ _ _ _ _ Hid Hint Hmiss Hname) as Hstub.
  split; [done|]. split; [done|]. split; [done|].
  destruct (mapM_total (Changes.role_of_stub w) stubs) as [roles Hroles].
  { eapply Forall_impl; [exact Hall|]. intros. by apply role_of_stub_readable. }
  exists roles. rewrite handle_role_list, Hroles. split; [done|].
  by eapply mapM_elem_of.
Qed.

(** C10. Both role records read their role list from [new_value]: two
    records with the same key, [$add] or [$remove], and the same
    [new_value] decode alike whatever else they hold; a record without
    [new_value] raises [KeyError]; and a lone [$remove] record fills
    [before.roles] with the decoded stubs of its [new_value]. *)
Theorem role_records_read_new_value w entry :
  is_action (action entry) "app_command_permission_update" = false →
  (∀ key elem elem' st,
     key = "$add" ∨ key = "$remove" →
     Py.getitem elem "key" = Ok (VStr key) →
     Py.getitem elem' "key" = Ok (VStr key) →
     Py.getitem elem "new_value" = Py.getitem elem' "new_value" →
     Changes.decode_record w entry st elem = Changes.decode_record w entry st elem')
  ∧ (∀ key elem st,
       key = "$add" ∨ key = "$remove" →
       Py.getitem elem "key" = Ok (VStr key) →
       Py.getitem elem "new_value" = Raise KeyError →
       Changes.decode_record w entry st elem = Raise KeyError)
  ∧ (∀ elem sc rc,
       role_record "$remove" sc elem →
       mapM (Changes.role_of_stub w) sc = Ok rc →
       Changes.init w entry (VList [elem]) =
         Ok {| before := [("roles", VList rc)]; after := [("roles", VList [])] |}).
Proof.
  intros Hact. split; [|split].
  - intros key elem elem' [b a] Hkey Hk Hk' Hnew. unfold Changes.decode_record.
    rewrite Hk, Hk'. cbn [rbind]. by destruct Hkey as [-> | ->]; cbn; rewrite Hnew.
  - intros key elem [b a] Hkey Hk Hnew. unfold Changes.decode_record.
    rewrite Hk. cbn [rbind]. by destruct Hkey as [-> | ->]; cbn; rewrite Hnew.
  - intros elem sc rc Hrem Hrc. unfold Changes.init. rewrite Hact.
    unfold Changes.decode_per_record. cbn [Py.iter rbind foldM].
    by rewrite (decode_record_remove _ _ _ _ _ _ _ Hrem Hrc).
Qed.

(** *** Aliases *)

Lemma hasattr_ensure_roles d k :
  hasattr (ensure_roles d) k = String.eqb "roles" k || hasattr d k.
Proof.
  unfold ensure_roles. destruct (hasattr d "roles") eqn:Hd.
  - destruct (String.eqb "roles" k) eqn:E; [|done].
    apply String.eqb_eq in E as <-. by rewrite Hd.
  - apply hasattr_store.
Qed.

Lemma handle_role_shape w entry first second elem first' second' :
  Changes._handle_role w entry first second elem = Ok (first', second') →
  first' = ensure_roles first ∧ ∃ data, second' = store second "roles" (VList data).
Proof.
  unfold Changes._handle_role. intros Hrun.
  apply rbind_Ok in Hrun as (first1 & Hfirst & Hrun).
  apply rbind_Ok in Hrun as (stubs & _ & Hrun).
  apply rbind_Ok in Hrun as (data & _ & Hrun).
  apply rbind_Ok in Hrun as (second1 & Hsecond & Hrun).
  apply setattr_Ok_plain in Hsecond; [|done].
  inversion Hrun; subst. split; [|eauto].
  unfold ensure_roles. destruct (hasattr first "roles").
  - by inversion Hfirst.
  - by apply setattr_Ok_plain in Hfirst.
Qed.

(** The three ways the loop body can succeed. *)
Lemma decode_record_cases w entry elem b a b' a' :
  Changes.decode_record w entry (b, a) elem = Ok (b', a') →
  (Py.getitem elem "key" = Ok (VStr "$add")
   ∧ b' = ensure_roles b ∧ ∃ data, a' = store a "roles" (VList data))
  ∨ (Py.getitem elem "key" = Ok (VStr "$remove")
     ∧ a' = ensure_roles a ∧ ∃ data, b' = store b "roles" (VList data))
  ∨ (∃ raw vb va,
       (Py.getitem elem "key" = Ok (VStr raw) ∧ raw ≠ "$add" ∧ raw ≠ "$remove")
       ∧ Changes.decode_value w entry (snd (Changes.resolve raw)) elem "old_value"
         = Ok vb
       ∧ Changes.decode_value w entry (snd (Changes.resolve raw)) elem "new_value"
         = Ok va
       ∧ setattr b (fst (Changes.resolve raw)) vb = Ok b'
       ∧ setattr a (fst (Changes.resolve raw)) va = Ok a').
Proof.
  unfold Changes.decode_record. intros Hrun.
  apply rbind_Ok in Hrun as (attr & Hkey & Hrun).
  destruct (Py.eq_str attr "$add") eqn:Hadd.
  { destruct attr; try discriminate. apply String.eqb_eq in Hadd as ->.
    apply rbind_Ok in Hrun as (nv & _ & Hrun).
    apply handle_role_shape in Hrun as [-> ?]. by left. }
  destruct (Py.eq_str attr "$remove") eqn:Hrem.
  { destruct attr; try discriminate. apply String.eqb_eq in Hrem as ->.
    apply rbind_Ok in Hrun as (nv & _ & Hrun).
    apply rbind_Ok in Hrun as ([a1 b1] & Hrun & Hret).
    apply handle_role_shape in Hrun as [-> ?].
    inversion Hret; subst. right; by left. }
  destruct attr; try discriminate.
  destruct (Changes.resolve s) as [attr transformer] eqn:Hres.
  apply rbind_Ok in Hrun as (vb & Hvb & Hrun).
  apply rbind_Ok in Hrun as (b1 & Hb & Hrun).
  apply rbind_Ok in Hrun as (va & Hva & Hrun).
  apply rbind_Ok in Hrun as (a1 & Ha & Hrun).
  inversion Hrun; subst. right; right. exists s, vb, va. rewrite Hres.
  cbn [Py.eq_str] in Hadd, Hrem. by apply String.eqb_neq in Hadd, Hrem.
Qed.

(** Away from [__dict__] records, a regular record binds one name on each
    container. *)
Lemma decode_record_cases_plain w entry elem b a b' a' :
  replaces_dict elem = false →
  Changes.decode_record w entry (b, a) elem = Ok (b', a') →
  (Py.getitem elem "key" = Ok (VStr "$add")
   ∧ b' = ensure_roles b ∧ ∃ data, a' = store a "roles" (VList data))
  ∨ (Py.getitem elem "key" = Ok (VStr "$remove")
     ∧ a' = ensure_roles a ∧ ∃ data, b' = store b "roles" (VList data))
  ∨ (∃ raw vb va,
       (Py.getitem elem "key" = Ok (VStr raw) ∧ raw ≠ "$add" ∧ raw ≠ "$remove")
       ∧ b' = store b (fst (Changes.resolve raw)) vb
       ∧ a' = store a (fst (Changes.resolve raw)) va).
Proof.
  intros Hplain Hrun.
  apply decode_record_cases in Hrun
    as [?|[?|(raw & vb & va & Hkey & _ & _ & Hb & Ha)]]; [by left|right; by left|].
  right; right. exists raw, vb, va. split; [done|]. destruct Hkey as (Hkey & _ & _).
  unfold replaces_dict in Hplain. rewrite Hkey in Hplain.
  apply String.eqb_neq, resolve_dict in Hplain.
  split; by eapply setattr_Ok_plain.
Qed.

Lemma decode_record_aligned w entry elem b a b' a' :
  replaces_dict elem = false →
  aligned b a →
  Changes.decode_record w entry (b, a) elem = Ok (b', a') →
  aligned b' a'.
Proof.
  intros Hplain Hal Hrun k.
  apply decode_record_cases_plain in Hrun
    as [(_ & -> & data & ->)|[(_ & -> & data & ->)|(raw & vb & va & _ & -> & ->)]];
    [| | |done].
  - by rewrite hasattr_ensure_roles, hasattr_store, Hal.
  - by rewrite hasattr_ensure_roles, hasattr_store, Hal.
  - by rewrite !hasattr_store, Hal.
Qed.

Lemma decode_record_keeps w entry elem b a b' a' k :
  replaces_dict elem = false →
  Changes.decode_record w entry (b, a) elem = Ok (b', a') →
  hasattr a k = true → hasattr a' k = true.
Proof.
  intros Hplain Hrun Hk.
  apply decode_record_cases_plain in Hrun
    as [(_ & -> & data & ->)|[(_ & -> & data & ->)|(raw & vb & va & _ & -> & ->)]];
    [| | |done].
  - rewrite hasattr_store, Hk. apply orb_true_r.
  - rewrite hasattr_ensure_roles, Hk. apply orb_true_r.
  - rewrite hasattr_store, Hk. apply orb_true_r.
Qed.

Lemma loop_aligned w entry elems : ∀ b a b' a',
  Forall (λ elem, replaces_dict elem = false) elems →
  aligned b a →
  foldM (Changes.decode_record w entry) (b, a) elems = Ok (b', a') →
  aligned b' a'.
Proof.
  induction elems as [|elem elems IH]; intros b a b' a' Hplain Hal Hrun.
  - by inversion Hrun; subst.
  - inversion Hplain; subst.
    cbn [foldM] in Hrun. apply rbind_Ok in Hrun as ([b1 a1] & Hstep & Hrun).
    eapply IH; [done| |done]. by eapply decode_record_aligned.
Qed.

Lemma loop_keeps w entry elems k : ∀ b a b' a',
  Forall (λ elem, replaces_dict elem = false) elems →
  foldM (Changes.decode_record w entry) (b, a) elems = Ok (b', a') →
  hasattr a k = true → hasattr a' k = true.
Proof.
  induction elems as [|elem elems IH]; intros b a b' a' Hplain Hrun Hk.
  - by inversion Hrun; subst.
  - inversion Hplain; subst.
    cbn [foldM] in Hrun. apply rbind_Ok in Hrun as ([b1 a1] & Hstep & Hrun).
    eapply IH; [done|done|]. by eapply decode_record_keeps.
Qed.

(** A record with the raw key [raw] leaves the attribute that the registry
    names for [raw] on the container. *)
Lemma loop_produces w entry elems elem raw : ∀ b a b' a',
  Forall (λ elem, replaces_dict elem = false) elems →
  elem ∈ elems →
  Py.getitem elem "key" = Ok (VStr raw) →
  raw ≠ "$add" → raw ≠ "$remove" →
  foldM (Changes.decode_record w entry) (b, a) elems = Ok (b', a') →
  hasattr a' (fst (Changes.resolve raw)) = true.
Proof.
  induction elems as [|x elems IH]; intros b a b' a' Hplain Hin Hkey Hadd Hrem Hrun.
  - by apply elem_of_nil in Hin.
  - inversion Hplain as [|? ? Hx Hrest]; subst.
    cbn [foldM] in Hrun. apply rbind_Ok in Hrun as ([b1 a1] & Hstep & Hrun).
    apply elem_of_cons in Hin as [<-|Hin]; [|by eapply IH].
    eapply loop_keeps; [done|done|].
    apply decode_record_cases_plain in Hstep
      as [(Hk & _)|[(Hk & _)|(raw' & vb & va & (Hk & _ & _) & -> & ->)]]; [| | |done];
      rewrite Hkey in Hk; inversion Hk; subst; try done.
    rewrite hasattr_store. by rewrite String.eqb_refl.
Qed.

Lemma add_alias_mirror attr alias b a b' a' :
  reserved alias = false →
  Changes.add_alias attr alias (b, a) = Ok (b', a') →
  hasattr a attr = true → alias ≠ attr →
  ∃ vb va, getattr b attr = Ok vb ∧ getattr a attr = Ok va
    ∧ getattr b' attr = Ok vb ∧ getattr b' alias = Ok vb
    ∧ getattr a' attr = Ok va ∧ getattr a' alias = Ok va.
Proof.
  unfold Changes.add_alias. intros Hres Hrun Ha Hne. rewrite Ha in Hrun.
  apply rbind_Ok in Hrun as (va & Hva & Hrun).
  rewrite setattr_plain in Hrun by done. cbn [rbind] in Hrun.
  apply rbind_Ok in Hrun as (vb & Hvb & Hrun).
  rewrite setattr_plain in Hrun by done. cbn [rbind] in Hrun.
  inversion Hrun; subst. exists vb, va.
  by rewrite !getattr_store_eq, !getattr_store_ne.
Qed.

(** C9. Let the change records of an action other than the
    application-command permission update hold no record whose key is
    [__dict__]. Whenever the loop over the records succeeds, the decoder
    succeeds; if the loop produced [colour] on [after], both containers
    keep their [colour] value and carry it verbatim as [color]; likewise
    [expire_behavior] is carried as [expire_behaviour]; and a record with
    the raw key [color] makes the loop produce [colour]. *)
Theorem aliases_mirror_both_spellings w entry data elems b a :
  is_action (action entry) "app_command_permission_update" = false →
  Py.iter data = Ok elems →
  Forall (λ elem, replaces_dict elem = false) elems →
  foldM (Changes.decode_record w entry) ([], []) elems = Ok (b, a) →
  ∃ c, Changes.init w entry data = Ok c
    ∧ (hasattr a "colour" = true →
       ∃ vb va, getattr b "colour" = Ok vb ∧ getattr a "colour" = Ok va
         ∧ getattr (before c) "colour" = Ok vb ∧ getattr (before c) "color" = Ok vb
         ∧ getattr (after c) "colour" = Ok va ∧ getattr (after c) "color" = Ok va)
    ∧ (hasattr a "expire_behavior" = true →
       ∃ vb va, getattr b "expire_behavior" = Ok vb ∧ getattr a "expire_behavior" = Ok va
         ∧ getattr (before c) "expire_behavior" = Ok vb
         ∧ getattr (before c) "expire_behaviour" = Ok vb
         ∧ getattr (after c) "expire_behavior" = Ok va
         ∧ getattr (after c) "expire_behaviour" = Ok va)
    ∧ (∀ elem, elem ∈ elems → Py.getitem elem "key" = Ok (VStr "color") →
       hasattr a "colour" = true).
Proof.
  intros Hact Hiter Hplain Hloop.
  assert (aligned b a) as Hal by (eapply loop_aligned; [done| |done]; by intros k).
  destruct (add_alias_aligned "colour" "color" b a eq_refl Hal)
    as (b1 & a1 & H1 & Hal1).
  destruct (add_alias_aligned "expire_behavior" "expire_behaviour" b1 a1 eq_refl Hal1)
    as (b2 & a2 & H2 & _).
  exists {| before := b2; after := a2 |}. split; [|split; [|split]].
  - unfold Changes.init, Changes.decode_per_record.
    rewrite Hact, Hiter. cbn [rbind]. rewrite Hloop. cbn [rbind].
    rewrite H1. cbn [rbind]. by rewrite H2.
  - intros Hcol. cbn [before after].
    destruct (add_alias_mirror _ "color" _ _ _ _ eq_refl H1 Hcol)
      as (vb & va & Hb & Ha & Hb1 & Hb1' & Ha1 & Ha1'); [done|].
    destruct (add_alias_other _ "expire_behaviour" _ _ _ _ "colour" eq_refl H2)
      as [Hb2 Ha2]; [done|].
    destruct (add_alias_other _ "expire_behaviour" _ _ _ _ "color" eq_refl H2)
      as [Hb2' Ha2']; [done|].
    exists vb, va. by rewrite Hb2, Ha2, Hb2', Ha2'.
  - intros Hexp. cbn [before after].
    destruct (add_alias_other _ "color" _ _ _ _ "expire_behavior" eq_refl H1)
      as [Hb1 Ha1]; [done|].
    assert (hasattr a1 "expire_behavior" = true) as Hexp1
      by (by rewrite (getattr_hasattr_eq _ _ _ Ha1)).
    destruct (add_alias_mirror _ "expire_behaviour" _ _ _ _ eq_refl H2 Hexp1)
      as (vb & va & Hb & Ha & Hb2 & Hb2' & Ha2 & Ha2'); [done|].
    exists vb, va. by rewrite <- Hb1, <- Ha1.
  - intros elem Hin Hkey.
    change "colour" with (fst (Changes.resolve "color")).
    by eapply loop_produces.
Qed.

(** *** Application-command permissions *)

Lemma get_raw_field d k field :
  Py.getitem d "key" = Ok k → Py.get d field VNone = Ok (raw_field d field).
Proof.
  destruct d; try discriminate. intros _. unfold raw_field. simpl.
  by destruct (Py.assoc field d).
Qed.

Lemma handle_permissions_sentinel w entry b a old_value new_value :
  Changes._handle_app_command_permissions w entry b a
    (guild_id (guild w) - 1) old_value new_value =
  Changes.append_permissions (AllChannels (guild w)) b a old_value new_value.
Proof.
  unfold Changes._handle_app_command_permissions, Changes.permission_target.
  by rewrite Z.eqb_refl.
Qed.

Lemma handle_permissions_typed w entry b a target_id old_value new_value pt :
  target_id ≠ guild_id (guild w) - 1 →
  Py.getitem (Py.or_ old_value new_value) "type" = Ok pt →
  Changes._handle_app_command_permissions w entry b a target_id old_value new_value =
  Changes.append_permissions (typed_target w pt target_id) b a old_value new_value.
Proof.
  intros Hne Htype.
  unfold Changes._handle_app_command_permissions, Changes.permission_target.
  apply Z.eqb_neq in Hne. rewrite Hne.
  destruct (Py.or_ old_value new_value) as [| | | | | |items|]; try discriminate.
  rewrite Htype. cbn [rbind]. unfold typed_target.
  by destruct (if Py.eq_int pt 1 then _ else _).
Qed.

Lemma handle_permissions_absent w entry b a target_id old_value new_value :
  target_id ≠ guild_id (guild w) - 1 →
  Py.or_ old_value new_value = VNone →
  Changes._handle_app_command_permissions w entry b a target_id old_value new_value =
  Ok (b, a).
Proof.
  intros Hne Hnone.
  unfold Changes._handle_app_command_permissions, Changes.permission_target.
  apply Z.eqb_neq in Hne. by rewrite Hne, Hnone.
Qed.

Lemma raw_field_getitem d field v : Py.getitem d field = Ok v → raw_field d field = v.
Proof. unfold raw_field. by intros ->. Qed.

Lemma append_permissions_pairs target lb la old_value new_value b' a' :
  Changes.append_permissions target
    [("app_command_permissions", VList lb)] [("app_command_permissions", VList la)]
    old_value new_value = Ok (b', a') →
  b' = [("app_command_permissions", VList (lb ++ pair_of target old_value))]
  ∧ a' = [("app_command_permissions", VList (la ++ pair_of target new_value))].
Proof.
  unfold Changes.append_permissions. intros Hrun.
  apply rbind_Ok in Hrun as (b1 & Hb & Hrun).
  apply rbind_Ok in Hrun as (a1 & Ha & Hrun).
  inversion Hrun; subst. split.
  - destruct old_value;
      try (inversion Hb; subst; cbn [pair_of]; by rewrite app_nil_r);
      apply rbind_Ok in Hb as (p & Hp & Hb);
      cbn [pair_of]; rewrite (raw_field_getitem _ _ _ Hp);
      by inversion Hb.
  - destruct new_value;
      try (inversion Ha; subst; cbn [pair_of]; by rewrite app_nil_r);
      apply rbind_Ok in Ha as (p & Hp & Ha);
      cbn [pair_of]; rewrite (raw_field_getitem _ _ _ Hp);
      by inversion Ha.
Qed.

Lemma append_permissions_readable target b a old_value new_value :
  (∃ lb, b = [("app_command_permissions", VList lb)]) →
  (∃ la, a = [("app_command_permissions", VList la)]) →
  side_readable old_value → side_readable new_value →
  ∃ b' a', Changes.append_permissions target b a old_value new_value = Ok (b', a').
Proof.
  intros [lb ->] [la ->] Hold Hnew. unfold Changes.append_permissions.
  destruct Hold as [->|[p Hp]];
    [|destruct old_value; try discriminate; rewrite Hp];
    (destruct Hnew as [->|[q Hq]];
      [|destruct new_value; try discriminate; rewrite Hq]);
    cbn; eauto.
Qed.

(** One record of the permission loop adds what it contributes. *)
Lemma permission_step w entry lb la d b' a' :
  Changes.decode_permission_record w entry
    ([("app_command_permissions", VList lb)], [("app_command_permissions", VList la)]) d
    = Ok (b', a') →
  b' = [("app_command_permissions", VList (lb ++ contributed w "old_value" d))]
  ∧ a' = [("app_command_permissions", VList (la ++ contributed w "new_value" d))].
Proof.
  unfold Changes.decode_permission_record. intros Hrun.
  apply rbind_Ok in Hrun as (k & Hkey & Hrun).
  apply rbind_Ok in Hrun as (target_id & Hint & Hrun).
  rewrite !(get_raw_field _ _ _ Hkey) in Hrun. cbn [rbind] in Hrun.
  unfold contributed, record_target. rewrite Hkey. cbn [rbind]. rewrite Hint.
  destruct (target_id =? guild_id (guild w) - 1)%Z eqn:Hid.
  - apply Z.eqb_eq in Hid as ->. rewrite handle_permissions_sentinel in Hrun.
    by apply append_permissions_pairs.
  - apply Z.eqb_neq in Hid.
    destruct (Py.or_ (raw_field d "old_value") (raw_field d "new_value")) eqn:Hor;
      try (rewrite (handle_permissions_absent _ _ _ _ _ _ _ Hid Hor) in Hrun;
           inversion Hrun; subst; by rewrite !app_nil_r);
      (destruct (Py.getitem (Py.or_ (raw_field d "old_value") (raw_field d "new_value"))
                   "type") as [pt|] eqn:Htype;
       [ rewrite (handle_permissions_typed _ _ _ _ _ _ _ pt Hid Htype) in Hrun;
         rewrite Hor in Htype; rewrite (raw_field_getitem _ _ _ Htype);
         by apply append_permissions_pairs
       | unfold Changes._handle_app_command_permissions, Changes.permission_target
           in Hrun;
         apply Z.eqb_neq in Hid; rewrite Hid in Hrun;
         rewrite Hor in Hrun, Htype; rewrite Htype in Hrun; discriminate ]).
Qed.

Lemma permission_step_total w entry b a d :
  (∃ lb, b = [("app_command_permissions", VList lb)]) →
  (∃ la, a = [("app_command_permissions", VList la)]) →
  permission_record w d →
  ∃ b' a', Changes.decode_permission_record w entry (b, a) d = Ok (b', a').
Proof.
  intros Hb Ha (k & target_id & Hkey & Hint & Hold & Hnew & Htype).
  unfold Changes.decode_permission_record.
  rewrite Hkey. cbn [rbind]. rewrite Hint. cbn [rbind].
  rewrite !(get_raw_field _ _ _ Hkey). cbn [rbind].
  destruct (decide (target_id = guild_id (guild w) - 1)) as [->|Hid].
  - rewrite handle_permissions_sentinel. by apply append_permissions_readable.
  - destruct (Htype Hid) as [Hnone|[pt Hpt]].
    + rewrite handle_permissions_absent by done. eauto.
    + rewrite (handle_permissions_typed _ _ _ _ _ _ _ pt) by done.
      by apply append_permissions_readable.
Qed.

Lemma permission_loop w entry records : ∀ lb la b' a',
  foldM (Changes.decode_permission_record w entry)
    ([("app_command_permissions", VList lb)], [("app_command_permissions", VList la)])
    records = Ok (b', a') →
  b' = [("app_command_permissions",
         VList (lb ++ flat_map (contributed w "old_value") records))]
  ∧ a' = [("app_command_permissions",
           VList (la ++ flat_map (contributed w "new_value") records))].
Proof.
  induction records as [|d records IH]; intros lb la b' a' Hrun.
  - inversion Hrun; subst. cbn [flat_map]. by rewrite !app_nil_r.
  - cbn [foldM] in Hrun. apply rbind_Ok in Hrun as ([b1 a1] & Hstep & Hrun).
    apply permission_step in Hstep as [-> ->].
    apply IH in Hrun as [-> ->]. cbn [flat_map]. by rewrite <- !app_assoc.
Qed.

Lemma permission_loop_total w entry records : ∀ lb la,
  Forall (permission_record w) records →
  ∃ b' a',
    foldM (Changes.decode_permission_record w entry)
      ([("app_command_permissions", VList lb)],
       [("app_command_permissions", VList la)]) records = Ok (b', a').
Proof.
  induction records as [|d records IH]; intros lb la Hall; [cbn; eauto|].
  inversion Hall as [|? ? Hd Hrest]; subst. cbn [foldM].
  destruct (permission_step_total w entry
              [("app_command_permissions", VList lb)]
              [("app_command_permissions", VList la)] d) as (b1 & a1 & Hstep);
    [eauto | eauto | done |].
  pose proof Hstep as Hshape. apply permission_step in Hshape as [-> ->].
  destruct (IH (lb ++ contributed w "old_value" d)%list
              (la ++ contributed w "new_value" d)%list Hrest) as (b' & a' & Hloop).
  exists b', a'. etransitivity; [|exact Hloop].
  exact (f_equal
           (λ r, rbind r (λ s', foldM (Changes.decode_permission_record w entry) s' records))
           Hstep).
Qed.

(** C6. For the application-command permission update the decoder leaves,
    in [before.app_command_permissions] and [after.app_command_permissions],
    the pairs that the records contribute, in the order of the records, and
    it succeeds on records that can be read. A record whose key reads as
    [guild.id - 1] contributes its pairs with the all-channels sentinel as
    target, whatever its values hold. Any other record takes the
    [permission_type] of [old_value or new_value]: 1 looks up a role, 2 a
    member or user, 3 a channel, and the opaque reference stands in when
    the lookup misses; with neither value present the record adds nothing. *)
Theorem permission_records_resolve_targets w entry data records :
  is_action (action entry) "app_command_permission_update" = true →
  Py.iter data = Ok records →
  (∀ c, Changes.init w entry data = Ok c →
     before c = [("app_command_permissions",
                  VList (flat_map (contributed w "old_value") records))]
     ∧ after c = [("app_command_permissions",
                   VList (flat_map (contributed w "new_value") records))])
  ∧ (Forall (permission_record w) records → ∃ c, Changes.init w entry data = Ok c)
  ∧ (∀ d k side,
       Py.getitem d "key" = Ok k →
       Py.int k = Ok (guild_id (guild w) - 1) →
       contributed w side d = pair_of (AllChannels (guild w)) (raw_field d side))
  ∧ (∀ d k target_id side,
       Py.getitem d "key" = Ok k →
       Py.int k = Ok target_id →
       target_id ≠ guild_id (guild w) - 1 →
       let value := Py.or_ (raw_field d "old_value") (raw_field d "new_value") in
       (value = VNone → contributed w side d = [])
       ∧ (value ≠ VNone →
          contributed w side d =
            pair_of (typed_target w (raw_field value "type") target_id)
              (raw_field d side)))
  ∧ (∀ target_id,
       typed_target w (VInt 1) target_id =
         match get_role (guild w) (Some target_id) with
         | VNone => placeholder target_id
         | role => role
         end
       ∧ typed_target w (VInt 2) target_id =
           match _get_member w (Some target_id) with
           | VNone => placeholder target_id
           | member => member
           end
       ∧ typed_target w (VInt 3) target_id =
           match get_channel (guild w) (Some target_id) with
           | VNone => placeholder target_id
           | channel => channel
           end).
Proof.
  intros Hact Hiter. unfold Changes.init. rewrite Hact.
  assert (Changes.decode_permissions w entry data =
            let* '(before, after) :=
              foldM (Changes.decode_permission_record w entry)
                ([("app_command_permissions", VList [])],
                 [("app_command_permissions", VList [])]) records in
            Ok {| before := before; after := after |}) as ->.
  { unfold Changes.decode_permissions. by rewrite Hiter. }
  split; [|split; [|split; [|split]]].
  - intros c Hrun. apply rbind_Ok in Hrun as ([b a] & Hloop & Hrun).
    inversion Hrun; subst. cbn [before after].
    by apply permission_loop in Hloop as [-> ->].
  - intros Hall.
    destruct (permission_loop_total w entry records [] [] Hall) as (b & a & ->).
    cbn [rbind]. eauto.
  - intros d k side Hkey Hint. unfold contributed, record_target.
    rewrite Hkey. cbn [rbind]. by rewrite Hint, Z.eqb_refl.
  - intros d k target_id side Hkey Hint Hid.
    unfold contributed, record_target. rewrite Hkey. cbn [rbind]. rewrite Hint.
    apply Z.eqb_neq in Hid. rewrite Hid. split.
    + by intros ->.
    + intros Hvalue.
      by destruct (Py.or_ (raw_field d "old_value") (raw_field d "new_value")).
  - intros target_id. unfold typed_target. cbn [Py.eq_int Z.eqb Pos.eqb].
    repeat split;
      match goal with |- context [match ?x with _ => _ end] => by destruct x end.
Qed.

End ChangeSet.

(** ** Entries *)

Section Entries.
Context `{!Collaborators}.
Implicit Types (w : World) (self : AuditLogEntry).

Lemma cached_property_twice {A}
    (slot : AuditLogEntry → option A) (store : A → AuditLogEntry → AuditLogEntry)
    (function : World → AuditLogEntry → result (A * AuditLogEntry))
    w1 w2 self v self' :
  (∀ x e, slot (store x e) = Some x) →
  Entry.cached_property slot store function w1 self = Ok (v, self') →
  Entry.cached_property slot store function w2 self' = Ok (v, self').
Proof.
  intros Hstore. unfold Entry.cached_property.
  destruct (slot self) as [x|] eqn:Hslot.
  - intros [= <- <-]. by rewrite Hslot.
  - intros Hrun. apply rbind_Ok in Hrun as ([x e] & _ & Hrun).
    inversion Hrun; subst. by rewrite Hstore.
Qed.

Lemma cached_property_first {A}
    (slot : AuditLogEntry → option A) (store : A → AuditLogEntry → AuditLogEntry)
    (function : World → AuditLogEntry → result (A * AuditLogEntry)) w self :
  slot self = None →
  Entry.cached_property slot store function w self =
    let* '(v, self) := function w self in Ok (v, store v self).
Proof. unfold Entry.cached_property. by intros ->. Qed.

(** C3. Reading a projection of an entry a second time returns the result
    of the first read and leaves the entry as it was, whatever happened to
    the lookup tables, the guild and the connection state in between. This
    holds for [target], [extra] and [changes], and for the other cached
    properties. *)
Theorem projections_are_cached (p : projection) w1 w2 self r self' :
  access p w1 self = Ok (r, self') →
  access p w2 self' = Ok (r, self').
Proof.
  destruct p; cbn [access]; intros Hrun;
    try (apply rbind_Ok in Hrun as ([v e] & Hget & Hret);
         inversion Hret; subst;
         unfold Entry.target, Entry.changes, Entry.before, Entry.after,
           Entry.category, Entry.created_at in *;
         apply (cached_property_twice _ _ _ w1 w2) in Hget; [|done];
         by rewrite Hget).
  by inversion Hrun; subst.
Qed.

(** *** Unrecognized actions *)

Lemma try_enum_unknown (code : Z) :
  Forall (λ m, value m ≠ code) AuditLogAction_members →
  try_enum (VInt code) = Unrecognized (VInt code).
Proof.
  unfold try_enum. intros Hall.
  induction Hall as [|m ms Hm _ IH]; [done|].
  cbn [List.find Py.eq_int].
  assert ((code =? value m)%Z = false) as -> by (apply Z.eqb_neq; congruence).
  exact IH.
Qed.

Lemma returned_Ok {A S} (r : result (A * S)) a s : r = Ok (a, s) → returned r = Ok a.
Proof. by intros ->. Qed.

(** C1. A payload whose [action_type] is an integer that no member of the
    action enum carries, and whose [id], [user_id] and [target_id] can be
    read, constructs an entry; its action is the unrecognized variant, its
    [extra], [category] and [target] are absent, and its [changes] are the
    result of the per-record algorithm on the raw change list. *)
Theorem unknown_action_degrades w w' data code raw_id number user_id target_id :
  Py.getitem data "action_type" = Ok (VInt code) →
  Forall (λ m, value m ≠ code) AuditLogAction_members →
  Py.getitem data "id" = Ok raw_id → Py.int raw_id = Ok number →
  _get_as_snowflake data "user_id" = Ok user_id →
  _get_as_snowflake data "target_id" = Ok target_id →
  ∃ self, Entry._from_data w data = Ok self
    ∧ action self = Unrecognized (VInt code)
    ∧ extra self = VNone
    ∧ returned (Entry.category w' self) = Ok None
    ∧ returned (Entry.target w' self) = Ok VNone
    ∧ returned (Entry.changes w' self) =
        Changes.decode_per_record w' self (raw_changes data).
Proof.
  intros Haction Hunknown Hid Hint Huser Htarget.
  unfold Entry._from_data.
  rewrite Haction. cbn [rbind]. rewrite (try_enum_unknown _ Hunknown).
  rewrite Hid. cbn [rbind]. rewrite Hint. cbn [rbind].
  destruct data as [| | | | | |items|]; try discriminate.
  cbn [Py.get rbind is_member andb]. rewrite Huser, Htarget. cbn [rbind].
  eexists. split; [done|]. cbn [action extra].
  split; [done|]. split; [done|]. split; [done|]. split; [done|].
  unfold Entry.changes. rewrite cached_property_first by done.
  cbn [_changes rbind]. unfold Changes.init. cbn [action is_action].
  replace (from_option id (VList []) (Py.assoc "changes" items))
    with (raw_changes (VDict items))
    by (unfold raw_changes; simpl; by destruct (Py.assoc "changes" items)).
  match goal with
  | |- context [Changes.decode_per_record ?w ?e ?d] =>
      by destruct (Changes.decode_per_record w e d)
  end.
Qed.

(** *** Targets *)

Lemma target_first w self kind :
  action_target_type (action self) = Some kind →
  cached_target self = None →
  Entry.target w self =
    let* '(v, self) :=
      match Py.assoc kind Entry.converters with
      | None =>
          match _target_id self with
          | None => Ok (VNone, self)
          | Some z => let* o := Object (VInt z) in Ok (o, self)
          end
      | Some converter => converter w self (_target_id self)
      end in
    Ok (v, Entry.set_target v self).
Proof.
  intros Hkind Hcache. unfold Entry.target.
  rewrite cached_property_first by done.
  unfold Entry.resolve_target. by rewrite Hkind.
Qed.

Lemma truthy_not_None (found : val) (other : val) :
  other ≠ VNone → (if Py.truthy found then found else other) ≠ VNone.
Proof.
  intros Hother. destruct (Py.truthy found) eqn:Htrue; [|done].
  intros ->. discriminate.
Qed.

(** C2, amended. On the first access to [target] of an entry whose action
    has a target kind: for the kinds channel, role, emoji, stage_instance,
    sticker, thread, guild_scheduled_event, integration, app_command and
    integration_or_app_command, a present raw id resolves to the cached
    entity or else to the opaque reference carrying the raw id, never to
    absent; the kind guild resolves to the guild of the entry; the kinds
    user and message resolve to what the member lookup finds, which is
    absent when neither the guild nor the users table knows the id or when
    the raw id is absent; a kind without a resolver resolves to the opaque
    reference carrying the raw id, and to absent when the raw id is
    absent. *)
Theorem target_by_kind w self kind :
  action_target_type (action self) = Some kind →
  cached_target self = None →
  (∀ tid found,
     _target_id self = Some tid →
     kind_lookup kind w (Some tid) = Some found →
     returned (Entry.target w self) =
       Ok (if Py.truthy found then found else placeholder tid)
     ∧ (if Py.truthy found then found else placeholder tid) ≠ VNone)
  ∧ (kind = "guild" → returned (Entry.target w self) = Ok (guild_ref (guild w)))
  ∧ (kind = "user" ∨ kind = "message" →
     returned (Entry.target w self) = Ok (_get_member w (_target_id self))
     ∧ (get_member (guild w) (_target_id self) = VNone →
        cache_get (_users w) (_target_id self) = VNone →
        returned (Entry.target w self) = Ok VNone))
  ∧ (Py.assoc kind Entry.converters = None →
     returned (Entry.target w self) =
       Ok (match _target_id self with
           | Some tid => placeholder tid
           | None => VNone
           end)).
Proof.
  intros Hkind Hcache. rewrite (target_first _ _ _ Hkind Hcache).
  split; [|split; [|split]].
  - intros tid found Htid Hlook. split; [|by apply truthy_not_None].
    unfold kind_lookup in Hlook. rewrite Htid.
    repeat match type of Hlook with
           | (if String.eqb kind ?s then _ else _) = _ =>
               destruct (String.eqb kind s) eqn:E;
               [ apply String.eqb_eq in E; subst kind;
                 match type of Hlook with
                 | Some ?x = Some found =>
                     assert (x = found) as Hfound by congruence; clear Hlook
                 end;
                 cbn [Py.assoc Entry.converters String.eqb Ascii.eqb Bool.eqb];
                 cbv [Entry._convert_target_channel Entry._convert_target_role
                      Entry._convert_target_emoji Entry._convert_target_stage_instance
                      Entry._convert_target_sticker Entry._convert_target_thread
                      Entry._convert_target_guild_scheduled_event
                      Entry._convert_target_integration
                      Entry._convert_target_app_command
                      Entry._convert_target_integration_or_app_command
                      or_else of_optional];
                 rewrite Hfound; by destruct (Py.truthy found)
               | clear E ]
           end.
    discriminate.
  - by intros ->.
  - intros Hk.
    assert (returned
              (let* '(v, self0) :=
                 match Py.assoc kind Entry.converters with
                 | Some converter => converter w self (_target_id self)
                 | None =>
                     match _target_id self with
                     | Some z => let* o := Object (VInt z) in Ok (o, self)
                     | None => Ok (VNone, self)
                     end
                 end in
               Ok (v, Entry.set_target v self0)) =
            Ok (_get_member w (_target_id self))) as Hret
      by (by destruct Hk as [-> | ->]).
    split; [done|]. intros Hmember Huser. rewrite Hret.
    unfold _get_member. destruct (_target_id self); [|done].
    by rewrite Hmember, Huser.
  - intros ->. by destruct (_target_id self).
Qed.

(** *** The invite target *)

Lemma convert_target_invite_eq w self target_id :
  Entry._convert_target_invite w self target_id =
    let* '(changeset, self) :=
      if is_action (action self) "invite_delete"
      then Entry.before w self else Entry.after w self in
    let* obj := invite_of_changeset w changeset in
    Ok (obj, self).
Proof.
  unfold Entry._convert_target_invite.
  destruct (if is_action (action self) "invite_delete" then _ else _)
    as [[changeset self1]|]; cbn [rbind]; [|done].
  unfold invite_of_changeset.
  destruct (getattr changeset "max_age"); cbn [rbind]; [|done].
  destruct (getattr changeset "max_uses"); cbn [rbind]; [|done].
  destruct (getattr changeset "code"); cbn [rbind]; [|done].
  destruct (getattr changeset "temporary"); cbn [rbind]; [|done].
  destruct (getattr changeset "uses"); cbn [rbind]; [|done].
  destruct (getattr changeset "channel"); cbn [rbind]; [|done].
  unfold getattr. by destruct (Py.assoc "inviter" changeset).
Qed.

Lemma invite_of_changeset_inviter w changeset obj :
  invite_of_changeset w changeset = Ok obj →
  inst_getattr obj "inviter" = getattr changeset "inviter".
Proof.
  unfold invite_of_changeset. intros Hrun.
  repeat (apply rbind_Ok in Hrun as (? & _ & Hrun)).
  inversion Hrun; subst. unfold getattr.
  by destruct (Py.assoc "inviter" changeset).
Qed.

Lemma invite_of_changeset_has w changeset obj :
  invite_of_changeset w changeset = Ok obj →
  Forall (λ field, hasattr changeset field = true) invite_fields.
Proof.
  unfold invite_of_changeset. intros Hrun.
  apply rbind_Ok in Hrun as (? & H1 & Hrun).
  apply rbind_Ok in Hrun as (? & H2 & Hrun).
  apply rbind_Ok in Hrun as (? & H3 & Hrun).
  apply rbind_Ok in Hrun as (? & H4 & Hrun).
  apply rbind_Ok in Hrun as (? & H5 & Hrun).
  apply rbind_Ok in Hrun as (? & H6 & Hrun).
  repeat constructor; apply hasattr_getattr; eauto.
Qed.

Lemma getattr_raises d k e : getattr d k = Raise e → e = AttributeError.
Proof. unfold getattr. destruct (Py.assoc k d); [done|]. by intros [= <-]. Qed.

Lemma invite_of_changeset_raises w changeset e :
  invite_of_changeset w changeset = Raise e → e = AttributeError.
Proof.
  unfold invite_of_changeset.
  repeat match goal with
         | |- rbind (getattr changeset ?f) _ = _ → _ =>
             destruct (getattr changeset f) eqn:?; cbn [rbind];
             [|intros [= <-]; by eapply getattr_raises]
         end.
  discriminate.
Qed.

Lemma invite_of_changeset_needs w changeset field :
  field ∈ invite_fields → hasattr changeset field = false →
  invite_of_changeset w changeset = Raise AttributeError.
Proof.
  intros Hin Hno.
  destruct (invite_of_changeset w changeset) as [obj|e] eqn:Hrun.
  - apply invite_of_changeset_has in Hrun.
    rewrite Forall_forall in Hrun. apply Hrun in Hin. congruence.
  - f_equal. by eapply invite_of_changeset_raises.
Qed.

Lemma invite_of_changeset_total w changeset :
  Forall (λ field, hasattr changeset field = true) invite_fields →
  ∃ obj, invite_of_changeset w changeset = Ok obj.
Proof.
  intros Hall. destruct (invite_of_changeset w changeset) as [obj|e] eqn:Hrun; [eauto|].
  exfalso. unfold invite_of_changeset, invite_fields in *.
  repeat match goal with
         | H : Forall _ (_ :: _) |- _ =>
             let Hf := fresh "Hf" in
             apply Forall_cons in H as [Hf H];
             apply hasattr_getattr in Hf as [? Hf];
             rewrite Hf in Hrun; cbn [rbind] in Hrun; clear Hf
         end.
  discriminate.
Qed.

(** C7. The first access to [target] of an entry with the invite target
    kind decodes the change-set, takes [before] when the action is
    [invite_delete] and [after] for any other action, and rebuilds the
    invite from that container alone. The inviter of the invite is the
    [inviter] of that container, and stays unset when the container has
    none; a container that lacks one of the payload fields or the channel
    raises [AttributeError]; with these six present the invite is built
    whether or not there is an inviter. *)
Theorem invite_target_from_changeset w self :
  action_target_type (action self) = Some "invite" →
  cached_target self = None →
  Entry.target w self =
    (let* '(changeset, self) :=
       if is_action (action self) "invite_delete"
       then Entry.before w self else Entry.after w self in
     let* obj := invite_of_changeset w changeset in
     Ok (obj, Entry.set_target obj self))
  ∧ (∀ changeset obj,
       invite_of_changeset w changeset = Ok obj →
       inst_getattr obj "inviter" = getattr changeset "inviter")
  ∧ (∀ changeset field,
       field ∈ invite_fields → hasattr changeset field = false →
       invite_of_changeset w changeset = Raise AttributeError)
  ∧ (∀ changeset,
       Forall (λ field, hasattr changeset field = true) invite_fields →
       ∃ obj, invite_of_changeset w changeset = Ok obj).
Proof.
  intros Hkind Hcache. split; [|split; [|split]].
  - rewrite (target_first _ _ _ Hkind Hcache).
    cbn [Py.assoc Entry.converters String.eqb Ascii.eqb Bool.eqb].
    rewrite convert_target_invite_eq.
    destruct (if is_action (action self) "invite_delete" then _ else _)
      as [[changeset self1]|]; cbn [rbind]; [|done].
    by destruct (invite_of_changeset w changeset).
  - apply invite_of_changeset_inviter.
  - apply invite_of_changeset_needs.
  - apply invite_of_changeset_total.
Qed.

End Entries.

(** ** The properties on the sample world *)

Example unknown_action_degrades_witness :
  let self :=
    {| action := Unrecognized (VInt 9999); entry_id := 12; reason := VNone;
       extra := VNone;
       _changes := Some (VList [change "nick" (VStr "a") (VStr "b")]);
       user := VNone; _target_id := Some 3;
       cached_created_at := None; cached_target := None; cached_category := None;
       cached_changes := None; cached_before := None; cached_after := None |} in
  (Py.getitem sample_unknown_payload "action_type" = Ok (VInt 9999)
   ∧ Forall (λ m, value m ≠ 9999) sample_members
   ∧ Py.getitem sample_unknown_payload "id" = Ok (VStr "12")
   ∧ Py.int (VStr "12") = Ok 12
   ∧ _get_as_snowflake sample_unknown_payload "user_id" = Ok None
   ∧ _get_as_snowflake sample_unknown_payload "target_id" = Ok (Some 3))
  ∧ @Entry._from_data sample_collaborators sample_world sample_unknown_payload = Ok self
  ∧ returned (Entry.category emptied_world self) = Ok None
  ∧ returned (@Entry.target sample_collaborators emptied_world self) = Ok VNone
  ∧ returned (@Entry.changes sample_collaborators emptied_world self) =
      Ok {| before := [("nick", VStr "a")]; after := [("nick", VStr "b")] |}.
Proof.
  intros self.
  assert (Forall (λ m, value m ≠ 9999) sample_members) as Hunknown
    by (repeat constructor; discriminate).
  split; [by repeat split|].
  destruct (@unknown_action_degrades sample_collaborators sample_world emptied_world
              sample_unknown_payload 9999 (VStr "12") 12 None (Some 3))
    as (self' & Hbuilt & _ & _ & Hcategory & Htarget & Hchanges);
    [reflexivity | exact Hunknown | reflexivity | reflexivity
    | reflexivity | reflexivity |].
  assert (@Entry._from_data sample_collaborators sample_world sample_unknown_payload
          = Ok self) as Hself by reflexivity.
  rewrite Hself in Hbuilt. injection Hbuilt as <-.
  split; [exact Hself|]. split; [exact Hcategory|]. split; [exact Htarget|].
  rewrite Hchanges. reflexivity.
Defined.

(** C2 as stated fails: the action has the target kind [user] and the raw
    target id 5 is present, yet neither the guild nor the users table knows
    5 and [target] is absent. *)
Example absent_user_target :
  let self := make_entry (sample_action "member_prune") (VList []) (Some 5) in
  action_target_type (action self) = Some "user"
  ∧ _target_id self = Some 5
  ∧ returned (@Entry.target sample_collaborators sample_world self) = Ok VNone.
Proof. by vm_compute. Qed.

Example target_by_kind_witness :
  let self := make_entry (sample_action "role_update") (VList []) (Some 999) in
  (action_target_type (action self) = Some "role" ∧ cached_target self = None)
  ∧ returned (@Entry.target sample_collaborators sample_world self) =
      Ok (placeholder 999).
Proof.
  intros self. split; [by split|].
  destruct (@target_by_kind sample_collaborators sample_world self "role")
    as [Hlookup _]; [reflexivity | reflexivity |].
  destruct (Hlookup 999 VNone) as [Htarget _]; [reflexivity | reflexivity |].
  exact Htarget.
Defined.

Example projections_are_cached_witness :
  let self := make_entry (sample_action "role_update") (VList []) (Some 7) in
  let self' := Entry.set_target sample_role self in
  @access sample_collaborators p_target sample_world self
    = Ok (a_value sample_role, self')
  ∧ @access sample_collaborators p_target emptied_world self'
    = Ok (a_value sample_role, self').
Proof.
  intros self self'.
  assert (@access sample_collaborators p_target sample_world self
          = Ok (a_value sample_role, self')) as Hfirst by reflexivity.
  split; [exact Hfirst|].
  exact (@projections_are_cached sample_collaborators p_target
           sample_world emptied_world self _ self' Hfirst).
Defined.

Example role_records_fill_roles_witness :
  let entry := make_entry (sample_action "member_role_update") (VList []) (Some 3) in
  let ra := [sample_role; VInst "Object" [("id", VInt 999); ("name", VStr "gone")]] in
  let rc := [VInst "Object" [("id", VInt 8); ("name", VStr "retired")]] in
  (is_action (action entry) "app_command_permission_update" = false
   ∧ role_record "$add" [stub "7" "mods"; stub "999" "gone"] sample_add
   ∧ role_record "$remove" [stub "8" "retired"] sample_remove
   ∧ mapM (Changes.role_of_stub sample_world) [stub "7" "mods"; stub "999" "gone"] = Ok ra
   ∧ mapM (Changes.role_of_stub sample_world) [stub "8" "retired"] = Ok rc)
  ∧ @Changes.init sample_collaborators sample_world entry
      (VList [sample_add; sample_remove]) =
    Ok {| before := [("roles", VList rc)]; after := [("roles", VList ra)] |}.
Proof.
  intros entry ra rc. split; [by repeat split|].
  apply (@role_records_fill_roles sample_collaborators sample_world entry
           sample_add sample_remove
           [stub "7" "mods"; stub "999" "gone"] [stub "8" "retired"] ra rc);
    by repeat split.
Defined.

(** C5 as stated fails: the key [__class__] is neither [$add] nor
    [$remove] and is absent from the registry, yet the record is not passed
    through: the assignment raises [TypeError], in the loop body and so in
    the decoder. With the key [__dict__] the old value [{}] is not stored
    under the key: the container is left without any attribute. *)
Example reserved_key_raises :
  let entry := make_entry (sample_action "member_role_update") (VList []) (Some 3) in
  let elem := change "__class__" (VInt 1) (VInt 2) in
  let elem' := change "__dict__" (VDict []) (VDict []) in
  Py.getitem elem "key" = Ok (VStr "__class__")
  ∧ Py.assoc "__class__" (@TRANSFORMERS sample_collaborators) = None
  ∧ is_action (action entry) "app_command_permission_update" = false
  ∧ @Changes.decode_record sample_collaborators sample_world entry ([], []) elem =
      Raise TypeError
  ∧ @Changes.init sample_collaborators sample_world entry (VList [elem]) =
      Raise TypeError
  ∧ Py.assoc "__dict__" (@TRANSFORMERS sample_collaborators) = None
  ∧ @Changes.init sample_collaborators sample_world entry (VList [elem']) =
      Ok {| before := []; after := [] |}.
Proof. by vm_compute. Qed.

Example unregistered_key_witness :
  let entry := make_entry (sample_action "member_role_update") (VList []) (Some 3) in
  let elem := VDict [("key", VStr "nick"); ("new_value", VStr "b")] in
  (Py.getitem elem "key" = Ok (VStr "nick")
   ∧ "nick" ≠ "$add" ∧ "nick" ≠ "$remove"
   ∧ Py.assoc "nick" (@TRANSFORMERS sample_collaborators) = None
   ∧ reserved "nick" = false
   ∧ is_action (action entry) "app_command_permission_update" = false)
  ∧ ∀ b a, @Changes.decode_record sample_collaborators sample_world entry (b, a) elem =
      Ok (store b "nick" VNone, store a "nick" (VStr "b")).
Proof.
  intros entry elem. split; [by repeat split|].
  apply (@unregistered_key_passes_through sample_collaborators sample_world entry
           elem "nick"); by repeat split.
Defined.

Example permission_records_witness :
  let entry :=
    make_entry (sample_action "app_command_permission_update") (VList []) (Some 3) in
  let records :=
    [VDict [("key", VStr "999");
            ("new_value", VDict [("type", VInt 1); ("permission", VBool true)])];
     VDict [("key", VStr "7");
            ("old_value", VDict [("type", VInt 1); ("permission", VBool false)])];
     VDict [("key", VStr "8");
            ("old_value", VDict [("type", VInt 3); ("permission", VBool false)])]] in
  ∃ c,
    (is_action (action entry) "app_command_permission_update" = true
     ∧ Py.iter (VList records) = Ok records
     ∧ @Changes.init sample_collaborators sample_world entry (VList records) = Ok c)
    ∧ before c =
        [("app_command_permissions",
          VList [VTuple [VInst "Role" [("id", VInt 7); ("name", VStr "mods")]; VBool false];
                 VTuple [placeholder 8; VBool false]])]
    ∧ after c =
        [("app_command_permissions",
          VList [VTuple [AllChannels sample_guild; VBool true]])].
Proof.
  intros entry records. eexists. split; [by repeat split|].
  destruct (@permission_records_resolve_targets sample_collaborators sample_world entry
              (VList records) records eq_refl eq_refl) as (Hdecoded & _).
  exact (Hdecoded _ eq_refl).
Defined.

Example invite_target_witness :
  let self := make_entry (sample_action "invite_delete") sample_invite_changes None in
  (action_target_type (action self) = Some "invite" ∧ cached_target self = None)
  ∧ returned (@Entry.target sample_collaborators sample_world self) =
      (let* '(changeset, _) := @Entry.before sample_collaborators sample_world self in
       invite_of_changeset sample_world changeset).
Proof.
  intros self. split; [by split|].
  destruct (@invite_target_from_changeset sample_collaborators sample_world self)
    as [Htarget _]; [reflexivity | reflexivity |].
  rewrite Htarget. reflexivity.
Defined.

Example unknown_role_witness :
  let entry := make_entry (sample_action "member_role_update") (VList []) (Some 3) in
  let stubs := [stub "7" "mods"; stub "999" "gone"] in
  (stub "999" "gone" ∈ stubs
   ∧ Py.getitem (stub "999" "gone") "id" = Ok (VStr "999")
   ∧ Py.int (VStr "999") = Ok 999
   ∧ get_role (guild sample_world) (Some 999) = VNone
   ∧ Py.getitem (stub "999" "gone") "name" = Ok (VStr "gone")
   ∧ Forall (readable_stub sample_world) stubs)
  ∧ Changes.role_of_stub sample_world (stub "999" "gone") =
      Ok (VInst "Object" [("id", VInt 999); ("name", VStr "gone")]).
Proof.
  intros entry stubs.
  assert (stub "999" "gone" ∈ stubs) as Hin by (repeat constructor).
  assert (Forall (readable_stub sample_world) stubs) as Hall.
  { repeat constructor.
    - exists (VStr "7"), 7. repeat split. intros _. by exists (VStr "mods").
    - exists (VStr "999"), 999. repeat split. intros _. by exists (VStr "gone"). }
  split; [by repeat split|].
  apply (unknown_role_becomes_placeholder sample_world entry
           [] [] stubs (stub "999" "gone") (VStr "999") 999 (VStr "gone"));
    done.
Defined.

(** C9 as stated fails. A record with the key [__dict__] and the values
    [{}] and [{'colour': 1}] passes the loop and leaves [colour] on [after]
    alone: the alias pass then raises [AttributeError] at [before.colour].
    And such a record with two empty values after a [color] record leaves
    neither spelling on the containers. *)
Example dict_record_breaks_aliases :
  let entry := make_entry (sample_action "role_update") (VList []) (Some 7) in
  let elems := [change "__dict__" (VDict []) (VDict [("colour", VInt 1)])] in
  let elems' := [change "color" (VInt 1) (VInt 2); change "__dict__" (VDict []) (VDict [])] in
  is_action (action entry) "app_command_permission_update" = false
  ∧ foldM (@Changes.decode_record sample_collaborators sample_world entry) ([], [])
      elems = Ok ([], [("colour", VInt 1)])
  ∧ hasattr [("colour", VInt 1)] "colour" = true
  ∧ @Changes.init sample_collaborators sample_world entry (VList elems) =
      Raise AttributeError
  ∧ @Changes.init sample_collaborators sample_world entry (VList elems') =
      Ok {| before := []; after := [] |}.
Proof. by vm_compute. Qed.

Example aliases_mirror_witness :
  let entry := make_entry (sample_action "role_update") (VList []) (Some 7) in
  let data := VList [change "color" (VInt 1) (VInt 2)] in
  let b := [("colour", VInst "Colour" [("args", VList [VInt 1])])] in
  let a := [("colour", VInst "Colour" [("args", VList [VInt 2])])] in
  (is_action (action entry) "app_command_permission_update" = false
   ∧ Py.iter data = Ok [change "color" (VInt 1) (VInt 2)]
   ∧ Forall (λ elem, replaces_dict elem = false) [change "color" (VInt 1) (VInt 2)]
   ∧ foldM (@Changes.decode_record sample_collaborators sample_world entry) ([], [])
       [change "color" (VInt 1) (VInt 2)] = Ok (b, a))
  ∧ ∃ c, @Changes.init sample_collaborators sample_world entry data = Ok c
      ∧ getattr (after c) "color" = getattr (after c) "colour"
      ∧ getattr (before c) "color" = getattr (before c) "colour"
      ∧ hasattr (after c) "color" = true.
Proof.
  intros entry data b a.
  assert (Forall (λ elem, replaces_dict elem = false) [change "color" (VInt 1) (VInt 2)])
    as Hplain by (by repeat constructor).
  split; [by repeat split|].
  destruct (@aliases_mirror_both_spellings sample_collaborators sample_world entry
              data [change "color" (VInt 1) (VInt 2)] b a)
    as (c & Hinit & Hcolour & _ & _);
    [reflexivity | reflexivity | exact Hplain | reflexivity |].
  destruct Hcolour as (vb & va & _ & _ & Hb & Hb' & Ha & Ha'); [reflexivity|].
  exists c. split; [exact Hinit|].
  rewrite Ha, Ha', Hb, Hb'. repeat split.
  apply hasattr_getattr. eauto.
Defined.

Example role_records_read_new_value_witness :
  let entry := make_entry (sample_action "member_role_update") (VList []) (Some 3) in
  is_action (action entry) "app_command_permission_update" = false
  ∧ @Changes.init sample_collaborators sample_world entry (VList [sample_remove]) =
      Ok {| before :=
              [("roles", VList [VInst "Object" [("id", VInt 8); ("name", VStr "retired")]])];
            after := [("roles", VList [])] |}.
Proof.
  intros entry. split; [reflexivity|].
  destruct (@role_records_read_new_value sample_collaborators sample_world entry)
    as (_ & _ & Hremove); [reflexivity|].
  apply (Hremove sample_remove [stub "8" "retired"]); by repeat split.
Defined.

(** ** More on the change-set decoder *)

Section Containers.
Context `{!Collaborators}.
Implicit Types (w : World) (entry : AuditLogEntry) (b a d : AuditLogDiff).

Lemma hasattr_names d k : hasattr d k = true ↔ k ∈ names d.
Proof.
  unfold hasattr, names, Diff.__iter__.
  induction d as [|[k' v] d IH]; simpl.
  - split; [discriminate|]. intros Hin. by apply elem_of_nil in Hin.
  - destruct (String.eqb k k') eqn:E.
    + apply String.eqb_eq in E as ->. split; [|done]. intros _. apply list_elem_of_here.
    + apply String.eqb_neq in E. rewrite IH, elem_of_cons.
      split; [by right|]. by intros [?|?].
Qed.

Lemma names_store d k v :
  names (store d k v) = if hasattr d k then names d else (names d ++ [k])%list.
Proof.
  unfold names, Diff.__iter__, store, hasattr.
  induction d as [|[k' v'] d IH]; simpl; [done|].
  destruct (String.eqb k k') eqn:E; simpl.
  - by apply String.eqb_eq in E as ->.
  - rewrite IH. by destruct (Py.assoc k d).
Qed.

Lemma hasattr_same_names b a k : names b = names a → hasattr b k = hasattr a k.
Proof.
  intros Hnames. apply eq_true_iff_eq. by rewrite !hasattr_names, Hnames.
Qed.

Lemma names_ensure_roles d v :
  names (ensure_roles d) = names (store d "roles" v).
Proof.
  unfold ensure_roles. rewrite names_store.
  destruct (hasattr d "roles") eqn:E; [done|]. by rewrite names_store, E.
Qed.

Lemma NoDup_names_store d k v : NoDup (names d) → NoDup (names (store d k v)).
Proof.
  intros Hd. rewrite names_store. destruct (hasattr d k) eqn:Hk; [done|].
  apply NoDup_app. split; [done|]. split; [|apply NoDup_singleton].
  intros x Hx Hin. apply list_elem_of_singleton in Hin as ->.
  apply hasattr_names in Hx. congruence.
Qed.

Lemma paired_store b a k vb va :
  paired (b, a) → paired (store b k vb, store a k va).
Proof.
  intros [Hnames Hdup]. split; simpl in *.
  - by rewrite !names_store, (hasattr_same_names _ _ _ Hnames), Hnames.
  - by apply NoDup_names_store.
Qed.

Lemma paired_swap b a : paired (b, a) → paired (a, b).
Proof. intros [Hnames Hdup]. split; simpl in *; [done|]. by rewrite <- Hnames. Qed.

Lemma paired_ensure_roles b a v :
  paired (b, a) → paired (ensure_roles b, store a "roles" v).
Proof.
  intros Hp. destruct (paired_store b a "roles" v v Hp) as [Hnames Hdup].
  split; simpl in *; by rewrite (names_ensure_roles _ v).
Qed.

Lemma decode_record_paired w entry elem b a b' a' :
  replaces_dict elem = false →
  paired (b, a) →
  Changes.decode_record w entry (b, a) elem = Ok (b', a') →
  paired (b', a').
Proof.
  intros Hplain Hp Hrun.
  apply decode_record_cases_plain in Hrun
    as [(_ & -> & data & ->)|[(_ & -> & data & ->)|(raw & vb & va & _ & -> & ->)]];
    [| | |done].
  - by apply paired_ensure_roles.
  - by apply paired_swap, paired_ensure_roles, paired_swap.
  - by apply paired_store.
Qed.

Lemma loop_paired w entry elems : ∀ b a b' a',
  Forall (λ elem, replaces_dict elem = false) elems →
  paired (b, a) →
  foldM (Changes.decode_record w entry) (b, a) elems = Ok (b', a') →
  paired (b', a').
Proof.
  induction elems as [|elem elems IH]; intros b a b' a' Hplain Hp Hrun.
  - by inversion Hrun; subst.
  - inversion Hplain; subst.
    cbn [foldM] in Hrun. apply rbind_Ok in Hrun as ([b1 a1] & Hstep & Hrun).
    eapply IH; [done| |done]. by eapply decode_record_paired.
Qed.

Lemma add_alias_paired attr alias b a b' a' :
  reserved alias = false →
  paired (b, a) →
  Changes.add_alias attr alias (b, a) = Ok (b', a') →
  paired (b', a').
Proof.
  unfold Changes.add_alias. intros Hres Hp Hrun.
  destruct (hasattr a attr); [|by inversion Hrun; subst].
  apply rbind_Ok in Hrun as (va & _ & Hrun).
  rewrite setattr_plain in Hrun by done. cbn [rbind] in Hrun.
  apply rbind_Ok in Hrun as (vb & _ & Hrun).
  rewrite setattr_plain in Hrun by done. cbn [rbind] in Hrun.
  inversion Hrun; subst. by apply paired_store.
Qed.

Lemma decode_permissions_loop w entry data :
  Changes.decode_permissions w entry data =
    let* ds := Py.iter data in
    let* '(before, after) :=
      foldM (Changes.decode_permission_record w entry)
        ([("app_command_permissions", VList [])],
         [("app_command_permissions", VList [])]) ds in
    Ok {| before := before; after := after |}.
Proof. reflexivity. Qed.

Lemma foldM_invariant {A S} (P : S → Prop) (f : S → A → result S) l : ∀ s s',
  (∀ s x s', P s → f s x = Ok s' → P s') →
  P s → foldM f s l = Ok s' → P s'.
Proof.
  induction l as [|x l IH]; intros s s' Hstep Hs Hrun.
  - by inversion Hrun; subst.
  - cbn [foldM] in Hrun. apply rbind_Ok in Hrun as (s1 & Hx & Hrun).
    eapply IH; [done| |done]. by eapply Hstep.
Qed.

Lemma append_to_shape d attr x d' :
  Changes.append_to d attr x = Ok d' →
  ∃ items, getattr d attr = Ok (VList items)
    ∧ d' = store d attr (VList (items ++ [x])).
Proof.
  unfold Changes.append_to. intros Hrun.
  apply rbind_Ok in Hrun as (l & Hl & Hrun).
  destruct l; try discriminate. inversion Hrun; subst. eauto.
Qed.

Lemma append_permissions_shape target b a old_value new_value b' a' :
  Changes.append_permissions target b a old_value new_value = Ok (b', a') →
  (b' = b ∨ ∃ items permission,
              getattr b "app_command_permissions" = Ok (VList items)
              ∧ b' = store b "app_command_permissions"
                       (VList (items ++ [VTuple [target; permission]])))
  ∧ (a' = a ∨ ∃ items permission,
                getattr a "app_command_permissions" = Ok (VList items)
                ∧ a' = store a "app_command_permissions"
                         (VList (items ++ [VTuple [target; permission]]))).
Proof.
  unfold Changes.append_permissions. intros Hrun.
  apply rbind_Ok in Hrun as (b1 & Hb & Hrun).
  apply rbind_Ok in Hrun as (a1 & Ha & Hrun).
  inversion Hrun; subst. split.
  - destruct old_value; try (inversion Hb; subst; by left);
      apply rbind_Ok in Hb as (p & _ & Hb);
      apply append_to_shape in Hb as (items & Hitems & ->); right; eauto.
  - destruct new_value; try (inversion Ha; subst; by left);
      apply rbind_Ok in Ha as (p & _ & Ha);
      apply append_to_shape in Ha as (items & Hitems & ->); right; eauto.
Qed.

(** The target handed to [append_permissions] is never [None]. *)
Lemma handle_permissions_shape w entry b a target_id old_value new_value b' a' :
  Changes._handle_app_command_permissions w entry b a target_id old_value new_value
    = Ok (b', a') →
  (b' = b ∧ a' = a)
  ∨ ∃ target, target ≠ VNone
      ∧ Changes.append_permissions target b a old_value new_value = Ok (b', a').
Proof.
  unfold Changes._handle_app_command_permissions. intros Hrun.
  apply rbind_Ok in Hrun as (found & Hfound & Hrun).
  destruct found as [target|]; [|inversion Hrun; subst; by left].
  apply rbind_Ok in Hrun as (target' & Htarget & Hrun).
  right. exists target'. split; [|done].
  destruct target; inversion Htarget; subst; done.
Qed.

Lemma permission_list_append d target permission items :
  permission_list d → target ≠ VNone →
  getattr d "app_command_permissions" = Ok (VList items) →
  permission_list
    (store d "app_command_permissions" (VList (items ++ [VTuple [target; permission]]))).
Proof.
  intros (pairs & -> & Hall) Htarget Hget.
  inversion Hget; subst. eexists. split; [reflexivity|].
  apply Forall_app. split; [done|]. repeat constructor. eauto.
Qed.

Lemma decode_permission_record_list w entry b a (record : val) b' a' :
  permission_list b ∧ permission_list a →
  Changes.decode_permission_record w entry (b, a) record = Ok (b', a') →
  permission_list b' ∧ permission_list a'.
Proof.
  intros [Hb Ha] Hrun. unfold Changes.decode_permission_record in Hrun.
  apply rbind_Ok in Hrun as (k & _ & Hrun).
  apply rbind_Ok in Hrun as (target_id & _ & Hrun).
  apply rbind_Ok in Hrun as (old_value & _ & Hrun).
  apply rbind_Ok in Hrun as (new_value & _ & Hrun).
  apply handle_permissions_shape in Hrun as [[-> ->]|(target & Htarget & Hrun)]; [done|].
  apply append_permissions_shape in Hrun
    as [[->|(ib & pb & Hib & ->)] [->|(ia & pa & Hia & ->)]];
    split; try done; by apply permission_list_append.
Qed.

(** X1. A change-set that decodes has two containers that iterate over
    the same attribute names in the same order, without repeating a name;
    in particular they have the same length. This holds for the
    application-command permission update whatever the records are, and for
    the other actions when no record has the key [__dict__]. *)
Theorem containers_stay_paired w entry data elems c :
  Py.iter data = Ok elems →
  (is_action (action entry) "app_command_permission_update" = false →
   Forall (λ elem, replaces_dict elem = false) elems) →
  Changes.init w entry data = Ok c →
  map fst (Diff.__iter__ (before c)) = map fst (Diff.__iter__ (after c))
  ∧ NoDup (map fst (Diff.__iter__ (before c)))
  ∧ Diff.__len__ (before c) = Diff.__len__ (after c).
Proof.
  intros Hiter Hplain Hrun.
  assert (paired (before c, after c)) as [Hnames Hdup].
  { unfold Changes.init in Hrun.
    destruct (is_action (action entry) "app_command_permission_update").
    - rewrite decode_permissions_loop in Hrun.
      apply rbind_Ok in Hrun as (ds & _ & Hrun).
      apply rbind_Ok in Hrun as ([b a] & Hloop & Hrun).
      inversion Hrun; subst. cbn [before after].
      apply (foldM_invariant (λ st, permission_list (fst st) ∧ permission_list (snd st)))
        in Hloop.
      + destruct Hloop as [(pb & Hb & _) (pa & Ha & _)]. simpl in Hb, Ha. subst.
        split; [done|]. apply NoDup_singleton.
      + intros [b0 a0] x [b1 a1]. apply decode_permission_record_list.
      + split; by exists [].
    - unfold Changes.decode_per_record in Hrun. rewrite Hiter in Hrun.
      cbn [rbind] in Hrun.
      apply rbind_Ok in Hrun as ([b a] & Hloop & Hrun).
      apply rbind_Ok in Hrun as ([b1 a1] & H1 & Hrun).
      apply rbind_Ok in Hrun as ([b2 a2] & H2 & Hrun).
      inversion Hrun; subst. cbn [before after].
      apply loop_paired in Hloop; [|by apply Hplain|split; [done|apply NoDup_nil_2]].
      eapply (add_alias_paired _ "expire_behaviour"); [done| |exact H2].
      by eapply (add_alias_paired _ "color"). }
  simpl in Hnames, Hdup. unfold names in *. split; [done|]. split; [done|].
  unfold Diff.__len__, Diff.__iter__ in *.
  by rewrite <- (length_map fst (before c)), Hnames, length_map.
Qed.

(** X2. For the application-command permission update every container of a
    decoded change-set holds the single attribute [app_command_permissions],
    a list of (target, permission) pairs whose target is never [None]; a
    record key never becomes an attribute name. *)
Theorem permission_update_shape w entry data c :
  is_action (action entry) "app_command_permission_update" = true →
  Changes.init w entry data = Ok c →
  permission_list (before c) ∧ permission_list (after c).
Proof.
  intros Hact Hrun. unfold Changes.init in Hrun. rewrite Hact in Hrun.
  rewrite decode_permissions_loop in Hrun.
  apply rbind_Ok in Hrun as (ds & _ & Hrun).
  apply rbind_Ok in Hrun as ([b a] & Hloop & Hrun).
  inversion Hrun; subst. cbn [before after].
  apply (foldM_invariant (λ st, permission_list (fst st) ∧ permission_list (snd st)))
    in Hloop; [done| |].
  - intros [b0 a0] x [b1 a1]. apply decode_permission_record_list.
  - split; by exists [].
Qed.

End Containers.

Section Records.
Context `{!Collaborators}.
Implicit Types (w : World) (entry : AuditLogEntry) (b a : AuditLogDiff).

Lemma decode_record_regular w entry elem raw b a :
  Py.getitem elem "key" = Ok (VStr raw) →
  raw ≠ "$add" → raw ≠ "$remove" →
  Changes.decode_record w entry (b, a) elem =
    let* vb := Changes.decode_value w entry (snd (Changes.resolve raw)) elem "old_value" in
    let* b' := setattr b (fst (Changes.resolve raw)) vb in
    let* va := Changes.decode_value w entry (snd (Changes.resolve raw)) elem "new_value" in
    let* a' := setattr a (fst (Changes.resolve raw)) va in
    Ok (b', a').
Proof.
  intros Hkey Hadd Hrem. unfold Changes.decode_record.
  rewrite Hkey. cbn [rbind]. rewrite !eq_str_false by done.
  by destruct (Changes.resolve raw).
Qed.

(** The registry renames no key to one of the reserved names. *)
Lemma resolve_plain (k : string) :
  reserved k = false → reserved (fst (Changes.resolve k)) = false.
Proof.
  intros Hres. unfold Changes.resolve, TRANSFORMERS. cbn [Py.assoc].
  repeat match goal with
         | |- context [String.eqb k ?s] =>
             destruct (String.eqb k s); [cbn; first [reflexivity | exact Hres]|]
         end.
  exact Hres.
Qed.

Lemma getattr_ensure_roles_ne d k :
  k ≠ "roles" → getattr (ensure_roles d) k = getattr d k.
Proof.
  intros Hne. unfold ensure_roles. destruct (hasattr d "roles"); [done|].
  by rewrite getattr_store_ne.
Qed.

Lemma decode_record_frame w entry elem attr b a b' a' :
  written elem ≠ Some attr → replaces_dict elem = false →
  Changes.decode_record w entry (b, a) elem = Ok (b', a') →
  getattr b' attr = getattr b attr ∧ getattr a' attr = getattr a attr.
Proof.
  unfold written. intros Hw Hplain Hrun.
  apply decode_record_cases_plain in Hrun
    as [(Hk & -> & data & ->)|[(Hk & -> & data & ->)
       |(raw & vb & va & (Hk & Hadd & Hrem) & -> & ->)]];
    [| | |done]; rewrite Hk in Hw.
  - assert (attr ≠ "roles") by (cbn in Hw; congruence).
    by rewrite getattr_ensure_roles_ne, getattr_store_ne.
  - assert (attr ≠ "roles") by (cbn in Hw; congruence).
    by rewrite getattr_ensure_roles_ne, getattr_store_ne.
  - apply String.eqb_neq in Hadd, Hrem. rewrite Hadd, Hrem in Hw. cbn in Hw.
    assert (fst (Changes.resolve raw) ≠ attr) by congruence.
    by rewrite !getattr_store_ne.
Qed.

Lemma loop_frame w entry elems attr : ∀ b a b' a',
  Forall (λ elem, written elem ≠ Some attr ∧ replaces_dict elem = false) elems →
  foldM (Changes.decode_record w entry) (b, a) elems = Ok (b', a') →
  getattr b' attr = getattr b attr ∧ getattr a' attr = getattr a attr.
Proof.
  induction elems as [|elem elems IH]; intros b a b' a' Hall Hrun.
  - by inversion Hrun.
  - inversion Hall as [|? ? [Hw Hplain] Hrest]; subst. cbn [foldM] in Hrun.
    apply rbind_Ok in Hrun as ([b1 a1] & Hstep & Hrun).
    destruct (decode_record_frame _ _ _ _ _ _ _ _ Hw Hplain Hstep) as [Hb Ha].
    destruct (IH _ _ _ _ Hrest Hrun) as [-> ->]. done.
Qed.

(** X3. The attribute a record writes ends with the values of the last
    record that writes it: for a change list of an action other than the
    application-command permission update that decodes, a record with a
    regular key other than [__dict__] fixes the attribute named by the
    registry (the key itself when the registry has no rename) to its
    [old_value] and [new_value] run through the registry's transformer,
    provided no later record writes that attribute or has the key
    [__dict__], and the attribute is not one of the two alias spellings.
    Earlier records that write it are overwritten. *)
Theorem last_record_wins w entry pre elem post raw c :
  is_action (action entry) "app_command_permission_update" = false →
  Py.getitem elem "key" = Ok (VStr raw) →
  raw ≠ "$add" → raw ≠ "$remove" → raw ≠ "__dict__" →
  fst (Changes.resolve raw) ≠ "color" →
  fst (Changes.resolve raw) ≠ "expire_behaviour" →
  Forall (λ later, written later ≠ Some (fst (Changes.resolve raw))
                   ∧ replaces_dict later = false) post →
  Changes.init w entry (VList (pre ++ elem :: post)) = Ok c →
  ∃ vb va,
    Changes.decode_value w entry (snd (Changes.resolve raw)) elem "old_value" = Ok vb
    ∧ Changes.decode_value w entry (snd (Changes.resolve raw)) elem "new_value" = Ok va
    ∧ getattr (before c) (fst (Changes.resolve raw)) = Ok vb
    ∧ getattr (after c) (fst (Changes.resolve raw)) = Ok va.
Proof.
  intros Hact Hkey Hadd Hrem Hdict Hcolor Hexp Hpost Hrun.
  unfold Changes.init in Hrun. rewrite Hact in Hrun.
  unfold Changes.decode_per_record in Hrun. cbn [Py.iter rbind] in Hrun.
  apply rbind_Ok in Hrun as ([b a] & Hloop & Hrun).
  apply rbind_Ok in Hrun as ([b1 a1] & H1 & Hrun).
  apply rbind_Ok in Hrun as ([b2 a2] & H2 & Hrun).
  inversion Hrun; subst. cbn [before after].
  apply foldM_split in Hloop as ([b3 a3] & [b4 a4] & _ & Hstep & Hrest).
  rewrite (decode_record_regular _ _ _ raw) in Hstep by done.
  apply rbind_Ok in Hstep as (vb & Hvb & Hstep).
  apply rbind_Ok in Hstep as (b5 & Hb5 & Hstep).
  apply rbind_Ok in Hstep as (va & Hva & Hstep).
  apply rbind_Ok in Hstep as (a5 & Ha5 & Hstep).
  apply resolve_dict in Hdict.
  apply setattr_Ok_plain in Hb5; [|done]. apply setattr_Ok_plain in Ha5; [|done].
  inversion Hstep; subst.
  destruct (loop_frame _ _ _ _ _ _ _ _ Hpost Hrest) as [Hb Ha].
  rewrite getattr_store_eq in Hb, Ha.
  destruct (add_alias_other _ "color" _ _ _ _ (fst (Changes.resolve raw)) eq_refl H1)
    as [Hb1 Ha1]; [congruence|].
  destruct (add_alias_other _ "expire_behaviour" _ _ _ _ (fst (Changes.resolve raw))
              eq_refl H2)
    as [Hb2 Ha2]; [congruence|].
  exists vb, va. by rewrite Hb2, Ha2, Hb1, Ha1.
Qed.

(** X4. Role records replace, they do not accumulate: in a change list of
    an action other than the application-command permission update that
    decodes, [after.roles] is the decoded list of the last [$add] record and
    nothing of an earlier [$add], whatever comes before it, as long as the
    records after it leave [roles] alone (their keys are strings other than
    [$add], [$remove], [roles] and [__dict__]); [before.roles] is set as
    well. The same holds for [$remove] with the containers exchanged. *)
Theorem last_role_record_wins w entry pre elem post stubs roles c :
  is_action (action entry) "app_command_permission_update" = false →
  mapM (Changes.role_of_stub w) stubs = Ok roles →
  Forall (λ later, bystander later = true) post →
  Changes.init w entry (VList (pre ++ elem :: post)) = Ok c →
  (role_record "$add" stubs elem →
   getattr (after c) "roles" = Ok (VList roles)
   ∧ ∃ others, getattr (before c) "roles" = Ok others)
  ∧ (role_record "$remove" stubs elem →
     getattr (before c) "roles" = Ok (VList roles)
     ∧ ∃ others, getattr (after c) "roles" = Ok others).
Proof.
  intros Hact Hroles Hpost Hrun.
  unfold Changes.init in Hrun. rewrite Hact in Hrun.
  apply decode_per_record_roles in Hrun as (b & a & Hloop & -> & ->).
  apply foldM_split in Hloop as ([b1 a1] & s2 & _ & Hstep & Hrest).
  assert (foldM (Changes.decode_record w entry) (b1, a1) (elem :: post) = Ok (b, a))
    as Hl by (cbn [foldM]; by rewrite Hstep).
  split; intros Hrec.
  - destruct (loop_after_add _ _ _ _ _ _ _ _ _ _ Hrec Hroles Hpost Hl) as [-> ->].
    split; [done|]. rewrite getattr_ensure_roles.
    destruct (hasattr b1 "roles") eqn:Hb; [|eauto].
    by apply hasattr_getattr in Hb.
  - destruct (loop_after_remove _ _ _ _ _ _ _ _ _ _ Hrec Hroles Hpost Hl) as [-> ->].
    split; [done|]. rewrite getattr_ensure_roles.
    destruct (hasattr a1 "roles") eqn:Ha; [|eauto].
    by apply hasattr_getattr in Ha.
Qed.

(** X5. A field that a record lacks decodes to [None] and the transformer
    is not called: a record lacking both fields binds [None] on both
    containers under every key but the three reserved names, where the
    assignment of [None] raises ([AttributeError] for [__weakref__],
    [TypeError] for [__class__] and [__dict__]). A field that is present
    and null is handed to the transformer: the keys whose transformer reads
    an integer raise [TypeError] on it, while the back-reference, asset and
    untransformed keys decode it to [None]. *)
Theorem absent_and_null_fields w entry elem raw b a :
  Py.getitem elem "key" = Ok (VStr raw) →
  raw ≠ "$add" → raw ≠ "$remove" →
  let attr := fst (Changes.resolve raw) in
  (Py.getitem elem "old_value" = Raise KeyError →
   Py.getitem elem "new_value" = Raise KeyError →
   Changes.decode_record w entry (b, a) elem =
     if reserved raw
     then Raise (if String.eqb raw "__weakref__" then AttributeError else TypeError)
     else Ok (store b attr VNone, store a attr VNone))
  ∧ (raw ∈ integer_keys →
     Py.getitem elem "old_value" = Ok VNone →
     Changes.decode_record w entry (b, a) elem = Raise TypeError)
  ∧ (raw ∈ nullable_keys →
     Py.getitem elem "old_value" = Ok VNone →
     Py.getitem elem "new_value" = Ok VNone →
     Changes.decode_record w entry (b, a) elem =
       Ok (store b attr VNone, store a attr VNone)).
Proof.
  intros Hkey Hadd Hrem attr. unfold attr.
  rewrite (decode_record_regular _ _ _ raw) by done.
  unfold Changes.decode_value. split; [|split].
  - intros -> ->. cbn [rbind]. destruct (reserved raw) eqn:Hres.
    + rewrite (resolve_reserved _ Hres). cbn [fst]. unfold reserved in Hres.
      apply orb_true_iff in Hres as [Hres|Hres];
        [apply orb_true_iff in Hres as [Hres|Hres]|];
        apply String.eqb_eq in Hres as ->; reflexivity.
    + by rewrite !setattr_plain by (by apply resolve_plain).
  - intros Hin ->. unfold integer_keys in Hin.
    repeat (apply elem_of_cons in Hin as [->|Hin]; [reflexivity|]).
    by apply elem_of_nil in Hin.
  - intros Hin -> ->. unfold nullable_keys in Hin.
    repeat (apply elem_of_cons in Hin as [->|Hin]; [reflexivity|]).
    by apply elem_of_nil in Hin.
Qed.

(** X20. A record whose key is one of the three reserved names is not
    stored under its key, whatever the containers hold. [__class__] raises
    [TypeError] and [__weakref__] raises [AttributeError]. [__dict__]
    replaces the instance dictionaries: when both values are dictionaries
    the containers become these dictionaries and lose what they held; a
    value that is absent, null or anything else raises [TypeError]. *)
Theorem reserved_keys_are_not_stored w entry elem raw b a :
  Py.getitem elem "key" = Ok (VStr raw) →
  reserved raw = true →
  Changes.decode_record w entry (b, a) elem =
    if String.eqb raw "__dict__" then
      match raw_field elem "old_value", raw_field elem "new_value" with
      | VDict old_value, VDict new_value => Ok (old_value, new_value)
      | _, _ => Raise TypeError
      end
    else Raise (if String.eqb raw "__weakref__" then AttributeError else TypeError).
Proof.
  intros Hkey Hres.
  assert (raw ≠ "$add" ∧ raw ≠ "$remove") as [Hadd Hrem].
  { split; intros ->; discriminate. }
  rewrite (decode_record_regular _ _ _ raw) by done.
  rewrite (resolve_reserved _ Hres). cbn [fst snd].
  rewrite !decode_value_identity by eauto. cbn [rbind].
  unfold reserved in Hres.
  apply orb_true_iff in Hres as [Hres|Hres];
    [apply orb_true_iff in Hres as [Hres|Hres]|];
    apply String.eqb_eq in Hres as ->; try reflexivity.
  cbn. destruct (raw_field elem "old_value"); try reflexivity.
  cbn. by destruct (raw_field elem "new_value").
Qed.

(** X6. The records are decoded in order and the first failure aborts the
    decode with the exception of that record, whatever follows it. A record
    that is not a dictionary or whose key is not a string raises
    [TypeError], a record without a key raises [KeyError]. *)
Theorem first_failure_aborts w entry pre elem post st e :
  is_action (action entry) "app_command_permission_update" = false →
  foldM (Changes.decode_record w entry) ([], []) pre = Ok st →
  Changes.decode_record w entry st elem = Raise e →
  Changes.init w entry (VList (pre ++ elem :: post)) = Raise e
  ∧ (∀ items, elem = VDict items → Py.assoc "key" items = None → e = KeyError)
  ∧ ((∀ items, elem ≠ VDict items) → e = TypeError)
  ∧ (∀ key, Py.getitem elem "key" = Ok key → (∀ s, key ≠ VStr s) → e = TypeError).
Proof.
  intros Hact Hpre Hstep. split; [|split; [|split]].
  - unfold Changes.init, Changes.decode_per_record. rewrite Hact.
    cbn [Py.iter rbind]. rewrite foldM_app, Hpre. cbn [rbind foldM].
    by rewrite Hstep.
  - intros items -> Hnone. destruct st as [b a].
    unfold Changes.decode_record in Hstep. cbn in Hstep. rewrite Hnone in Hstep.
    by inversion Hstep.
  - intros Hnot. destruct st as [b a]. unfold Changes.decode_record in Hstep.
    destruct elem; try (by inversion Hstep). by destruct (Hnot d).
  - intros key Hkey Hnot. destruct st as [b a].
    unfold Changes.decode_record in Hstep. rewrite Hkey in Hstep.
    destruct key; try (by inversion Hstep). by destruct (Hnot s).
Qed.

(** *** What the decoder reads of the entry *)





End Records.

(** ** The transformers *)

Section BackReferences.
Context `{!Collaborators}.
Implicit Types (w : World) (entry : AuditLogEntry).

(** X8. A channel reference never decodes to [None] unless the raw value
    is null: a raw id with an integer reading decodes to the cached channel
    when the guild has one and to the opaque reference carrying that
    integer otherwise, and a raw id without an integer reading raises what
    [int] raises. *)
Theorem transform_channel_falls_back w entry data :
  data ≠ VNone →
  (∀ z, Py.int data = Ok z →
     _transform_channel w entry data =
       Ok (if Py.truthy (get_channel (guild w) (Some z))
           then get_channel (guild w) (Some z) else placeholder z)
     ∧ (if Py.truthy (get_channel (guild w) (Some z))
        then get_channel (guild w) (Some z) else placeholder z) ≠ VNone)
  ∧ (∀ e, Py.int data = Raise e → _transform_channel w entry data = Raise e)
  ∧ _transform_channel w entry VNone = Ok VNone.
Proof.
  intros Hdata. split; [|split; [|done]].
  - intros z Hint. split; [|by apply truthy_not_None].
    unfold _transform_channel, or_else, Object.
    destruct data; try done; rewrite Hint; cbn [rbind];
      by destruct (Py.truthy _).
  - intros e Hint. unfold _transform_channel.
    destruct data; try done; by rewrite Hint.
Qed.

(** X9. Member and guild references have no opaque fallback. A member id
    decodes to the guild's member when the guild has one, else to the entry
    of the users table, else to [None]; a guild id unknown to the
    connection state decodes to [None]. An unknown id is thus decoded like
    a null value. *)
Theorem member_and_guild_references_may_vanish w entry data z :
  data ≠ VNone →
  Py.int data = Ok z →
  (_transform_member_id w entry data =
     Ok (if Py.truthy (get_member (guild w) (Some z))
         then get_member (guild w) (Some z) else cache_get (_users w) (Some z)))
  ∧ (get_member (guild w) (Some z) = VNone → _users w !! z = None →
     _transform_member_id w entry data = _transform_member_id w entry VNone)
  ∧ (_guilds (_state w) !! z = None →
     _transform_guild_id w entry data = _transform_guild_id w entry VNone).
Proof.
  intros Hdata Hint. split; [|split].
  - unfold _transform_member_id. destruct data; try done; by rewrite Hint.
  - intros Hmember Huser. unfold _transform_member_id, _get_member, Py.or_, cache_get.
    destruct data; try done; rewrite Hint; cbn [rbind];
      by rewrite Hmember, Huser.
  - intros Hguild. unfold _transform_guild_id, _get_guild, cache_get.
    destruct data; try done; rewrite Hint; cbn [rbind]; by rewrite Hguild.
Qed.

Lemma mapM_Forall2 {A B} (f : A → result B) (l : list A) : ∀ ys,
  mapM f l = Ok ys → Forall2 (λ x y, f x = Ok y) l ys.
Proof.
  induction l as [|x l IH]; intros ys Hrun.
  - inversion Hrun. constructor.
  - cbn [mapM] in Hrun.
    apply rbind_Ok in Hrun as (y & Hy & Hrun).
    apply rbind_Ok in Hrun as (ys' & Hys & Hrun).
    inversion Hrun; subst. constructor; [done|]. by apply IH.
Qed.

Lemma overwrite_target_not_None w ow_type ow_id :
  overwrite_target w ow_type ow_id ≠ VNone.
Proof.
  unfold overwrite_target.
  by destruct (if Py.eq_str ow_type "0" then _ else _).
Qed.

(** X10. A list of raw permission overwrites decodes to a list of the same
    length and order, one (target, overwrite) pair for each raw overwrite.
    The target is never [None]: the role for type ['0'], the member or user
    for type ['1'], and the opaque reference carrying the id when the
    lookup finds nothing or the type is anything else, an integer 0 or 1
    included. *)
Theorem transform_overwrites_pairs w entry elems v :
  _transform_overwrites w entry (VList elems) = Ok v →
  ∃ pairs, v = VList pairs
    ∧ length pairs = length elems
    ∧ Forall2 (overwrite_of w) elems pairs.
Proof.
  unfold _transform_overwrites. cbn [Py.iter rbind]. intros Hrun.
  apply rbind_Ok in Hrun as (pairs & Hmap & Hrun). inversion Hrun; subst.
  apply mapM_Forall2 in Hmap. exists pairs. split; [done|].
  split; [symmetry; by eapply Forall2_length|].
  eapply Forall2_impl; [exact Hmap|]. intros elem pair Hpair. cbn beta in Hpair.
  apply rbind_Ok in Hpair as (al & _ & Hpair).
  apply rbind_Ok in Hpair as (az & _ & Hpair).
  apply rbind_Ok in Hpair as (allow & _ & Hpair).
  apply rbind_Ok in Hpair as (de & _ & Hpair).
  apply rbind_Ok in Hpair as (dz & _ & Hpair).
  apply rbind_Ok in Hpair as (deny & _ & Hpair).
  apply rbind_Ok in Hpair as (ow & _ & Hpair).
  apply rbind_Ok in Hpair as (ow_type & Htype & Hpair).
  apply rbind_Ok in Hpair as (i & Hid & Hpair).
  apply rbind_Ok in Hpair as (ow_id & Hint & Hpair).
  apply rbind_Ok in Hpair as (target & Htarget & Hpair).
  inversion Hpair; subst.
  exists i, ow_id, ow_type, ow. split; [done|]. split; [done|]. split; [done|].
  split; [|apply overwrite_target_not_None].
  f_equal. f_equal. unfold overwrite_target.
  destruct (if Py.eq_str ow_type "0" then _ else _);
    by inversion Htarget.
Qed.

End BackReferences.

(** ** The life of an entry *)

Section Lifecycle.
Context `{!Collaborators}.
Implicit Types (w : World) (self : AuditLogEntry).

Lemma changes_keeps w self c self' :
  coherent self → Entry.changes w self = Ok (c, self') →
  coherent self' ∧ eager self' = eager self ∧ cached_changes self' = Some c.
Proof.
  unfold Entry.changes, Entry.cached_property, coherent. intros Hco Hrun.
  destruct (cached_changes self) as [c0|] eqn:Hc.
  - inversion Hrun; subst. by rewrite Hc.
  - destruct Hco as (_ & Hb & Ha).
    apply rbind_Ok in Hrun as ([c1 e1] & Hbody & Hrun).
    apply rbind_Ok in Hbody as (raw & _ & Hbody).
    apply rbind_Ok in Hbody as (obj & _ & Hbody).
    inversion Hbody; subst. inversion Hrun; subst. cbn.
    rewrite Hb, Ha. done.
Qed.

Lemma before_keeps w self d self' :
  coherent self → Entry.before w self = Ok (d, self') →
  coherent self' ∧ eager self' = eager self ∧ cached_before self' = Some d.
Proof.
  unfold Entry.before, Entry.cached_property. intros Hco Hrun.
  destruct (cached_before self) as [d0|] eqn:Hd.
  - by inversion Hrun; subst.
  - apply rbind_Ok in Hrun as ([d1 e1] & Hbody & Hrun).
    apply rbind_Ok in Hbody as ([c e2] & Hchanges & Hbody).
    inversion Hbody; subst. inversion Hrun; subst.
    destruct (changes_keeps _ _ _ _ Hco Hchanges) as (Hco1 & Heager & Hc).
    unfold coherent in *. cbn. rewrite Hc in *.
    destruct Hco1 as (? & _ & ?). split; [|done].
    split; [done|]. split; [by intros ? [= <-]|done].
Qed.

Lemma after_keeps w self d self' :
  coherent self → Entry.after w self = Ok (d, self') →
  coherent self' ∧ eager self' = eager self ∧ cached_after self' = Some d.
Proof.
  unfold Entry.after, Entry.cached_property. intros Hco Hrun.
  destruct (cached_after self) as [d0|] eqn:Hd.
  - by inversion Hrun; subst.
  - apply rbind_Ok in Hrun as ([d1 e1] & Hbody & Hrun).
    apply rbind_Ok in Hbody as ([c e2] & Hchanges & Hbody).
    inversion Hbody; subst. inversion Hrun; subst.
    destruct (changes_keeps _ _ _ _ Hco Hchanges) as (Hco1 & Heager & Hc).
    unfold coherent in *. cbn. rewrite Hc in *.
    destruct Hco1 as (? & ? & _). split; [|done].
    split; [done|]. split; [done|by intros ? [= <-]].
Qed.

Lemma converters_keep kind converter w self target_id v self' :
  Py.assoc kind Entry.converters = Some converter →
  coherent self → converter w self target_id = Ok (v, self') →
  coherent self' ∧ eager self' = eager self.
Proof.
  unfold Entry.converters. cbn [Py.assoc]. intros Hconv Hco.
  repeat match type of Hconv with
         | (if String.eqb kind ?s then _ else _) = _ =>
             destruct (String.eqb kind s);
             [ injection Hconv as <-; intros Hrun;
               first
                 [ rewrite convert_target_invite_eq in Hrun;
                   apply rbind_Ok in Hrun as ([d e1] & Hd & Hrun);
                   apply rbind_Ok in Hrun as (obj & _ & Hrun);
                   inversion Hrun; subst;
                   destruct (is_action (action self) "invite_delete");
                   [ by destruct (before_keeps _ _ _ _ Hco Hd) as (? & ? & _)
                   | by destruct (after_keeps _ _ _ _ Hco Hd) as (? & ? & _) ]
                 | by inversion Hrun; subst
                 | apply rbind_Ok in Hrun as (t & _ & Hrun);
                   by inversion Hrun; subst ]
             | ]
         end.
  discriminate.
Qed.

Lemma target_keeps w self v self' :
  coherent self → Entry.target w self = Ok (v, self') →
  coherent self' ∧ eager self' = eager self.
Proof.
  unfold Entry.target, Entry.cached_property. intros Hco Hrun.
  destruct (cached_target self); [by inversion Hrun; subst|].
  apply rbind_Ok in Hrun as ([v1 e1] & Hbody & Hrun). inversion Hrun; subst.
  assert (coherent e1 ∧ eager e1 = eager self) as [Hco1 Heager]; [|done].
  unfold Entry.resolve_target in Hbody.
  destruct (action_target_type (action self)) as [kind|];
    [|by inversion Hbody; subst].
  destruct (Py.assoc kind Entry.converters) as [converter|] eqn:Hconv.
  - by eapply converters_keep.
  - destruct (_target_id self); [|by inversion Hbody; subst].
    apply rbind_Ok in Hbody as (o & _ & Hbody). by inversion Hbody; subst.
Qed.

Lemma from_data_fresh w data self :
  Entry._from_data w data = Ok self →
  _changes self = Some (raw_changes data)
  ∧ cached_changes self = None ∧ cached_before self = None
  ∧ cached_after self = None ∧ cached_target self = None
  ∧ cached_category self = None ∧ cached_created_at self = None
  ∧ coherent self.
Proof.
  unfold Entry._from_data. intros Hrun.
  apply rbind_Ok in Hrun as (action_type & Hat & Hrun).
  apply rbind_Ok in Hrun as (i & _ & Hrun).
  apply rbind_Ok in Hrun as (n & _ & Hrun).
  apply rbind_Ok in Hrun as (r & _ & Hrun).
  apply rbind_Ok in Hrun as (options & _ & Hrun).
  apply rbind_Ok in Hrun as (ex & _ & Hrun).
  apply rbind_Ok in Hrun as (raw & Hraw & Hrun).
  apply rbind_Ok in Hrun as (uid & _ & Hrun).
  apply rbind_Ok in Hrun as (tid & _ & Hrun).
  inversion Hrun; subst. cbn.
  assert (raw = raw_changes data) as ->.
  { destruct data; try discriminate. unfold raw_changes. cbn in *.
    inversion Hraw. by destruct (Py.assoc "changes" d). }
  unfold coherent. cbn. by repeat split.
Qed.

(** X11. An entry fresh from the constructor holds its raw change list and
    no cached property, whatever the change list is: the constructor does
    not look into it. *)
Theorem constructor_defers_changes w data self :
  Entry._from_data w data = Ok self →
  _changes self = Some (raw_changes data)
  ∧ cached_changes self = None ∧ cached_before self = None
  ∧ cached_after self = None ∧ cached_target self = None
  ∧ cached_category self = None ∧ cached_created_at self = None
  ∧ coherent self.
Proof. apply from_data_fresh. Qed.

(** X12. Reading a property of a coherent entry leaves it coherent and
    never changes what the constructor set: action, id, reason, extra,
    user and raw target id. The raw change list is dropped exactly when
    the change-set is cached, so [changes] never looks for a list that is
    gone. *)
Theorem properties_keep_entry_coherent (p : projection) w self r self' :
  coherent self →
  access p w self = Ok (r, self') →
  coherent self' ∧ eager self' = eager self.
Proof.
  intros Hco Hrun. destruct p; cbn [access] in Hrun.
  - apply rbind_Ok in Hrun as ([v e] & Hget & Hret). inversion Hret; subst.
    by eapply target_keeps.
  - by inversion Hrun; subst.
  - apply rbind_Ok in Hrun as ([v e] & Hget & Hret). inversion Hret; subst.
    by destruct (changes_keeps _ _ _ _ Hco Hget) as (? & ? & _).
  - apply rbind_Ok in Hrun as ([v e] & Hget & Hret). inversion Hret; subst.
    by destruct (before_keeps _ _ _ _ Hco Hget) as (? & ? & _).
  - apply rbind_Ok in Hrun as ([v e] & Hget & Hret). inversion Hret; subst.
    by destruct (after_keeps _ _ _ _ Hco Hget) as (? & ? & _).
  - apply rbind_Ok in Hrun as ([v e] & Hget & Hret). inversion Hret; subst.
    unfold Entry.category, Entry.cached_property in Hget.
    destruct (cached_category self); by inversion Hget; subst.
  - apply rbind_Ok in Hrun as ([v e] & Hget & Hret). inversion Hret; subst.
    unfold Entry.created_at, Entry.cached_property in Hget.
    destruct (cached_created_at self); [by inversion Hget; subst|].
    apply rbind_Ok in Hget as ([v1 e1] & Hbody & Hget).
    apply rbind_Ok in Hbody as (t & _ & Hbody).
    inversion Hbody; subst. by inversion Hget; subst.
Qed.

(** X13. On a coherent entry [before] and [after] are the two containers
    of [changes]: after reading [before] and then [after], in worlds that
    may differ, [changes] returns a change-set made of exactly these two
    containers and decodes nothing again. *)
Theorem before_and_after_belong_to_changes w1 w2 w3 self d1 self1 d2 self2 :
  coherent self →
  Entry.before w1 self = Ok (d1, self1) →
  Entry.after w2 self1 = Ok (d2, self2) →
  ∃ c, Entry.changes w3 self2 = Ok (c, self2) ∧ before c = d1 ∧ after c = d2.
Proof.
  intros Hco Hb Ha.
  destruct (before_keeps _ _ _ _ Hco Hb) as (Hco1 & _ & Hcb).
  destruct (after_keeps _ _ _ _ Hco1 Ha) as (Hco2 & _ & Hca).
  assert (cached_before self2 = Some d1) as Hcb2.
  { unfold Entry.after, Entry.cached_property in Ha.
    destruct (cached_after self1); [by inversion Ha; subst|].
    apply rbind_Ok in Ha as ([d e] & Hbody & Ha).
    apply rbind_Ok in Hbody as ([c e1] & Hc & Hbody).
    inversion Hbody; subst. inversion Ha; subst. cbn.
    unfold Entry.changes, Entry.cached_property in Hc.
    unfold coherent in Hco1.
    destruct (cached_changes self1); [by inversion Hc; subst|].
    destruct Hco1 as (_ & Hnone & _). congruence. }
  unfold coherent in Hco2. unfold Entry.changes, Entry.cached_property.
  destruct (cached_changes self2) as [c|].
  - destruct Hco2 as (_ & Hbefore & Hafter). exists c.
    by rewrite (Hbefore _ Hcb2), (Hafter _ Hca).
  - destruct Hco2 as (_ & Hnone & _). congruence.
Qed.

End Lifecycle.

(** ** The [extra] of an entry *)

Section Extra.
Context `{!Collaborators}.
Implicit Types (w : World) (self : AuditLogEntry) (a : action_t).

Lemma from_data_extra w data self :
  Entry._from_data w data = Ok self →
  (if is_member (action self) && Py.truthy (raw_field data "options")
   then Entry.decode_extra w (action self) (raw_field data "options")
   else Ok VNone) = Ok (extra self).
Proof.
  unfold Entry._from_data. intros Hrun.
  apply rbind_Ok in Hrun as (action_type & Hat & Hrun).
  apply rbind_Ok in Hrun as (i & _ & Hrun).
  apply rbind_Ok in Hrun as (n & _ & Hrun).
  apply rbind_Ok in Hrun as (r & _ & Hrun).
  apply rbind_Ok in Hrun as (options & Hopt & Hrun).
  apply rbind_Ok in Hrun as (ex & Hex & Hrun).
  apply rbind_Ok in Hrun as (raw & _ & Hrun).
  apply rbind_Ok in Hrun as (uid & _ & Hrun).
  apply rbind_Ok in Hrun as (tid & _ & Hrun).
  inversion Hrun; subst. cbn [action extra].
  assert (options = raw_field data "options") as <-; [|done].
  destruct data; try discriminate. unfold raw_field. cbn in *.
  inversion Hopt. by destruct (Py.assoc "options" d).
Qed.

Lemma decode_extra_ignores w a options :
  takes_options a = false → Entry.decode_extra w a options = Ok VNone.
Proof.
  unfold takes_options, Entry.decode_extra. intros Hno.
  repeat (apply orb_false_iff in Hno as [Hno ?]).
  repeat match goal with H : _ = false |- _ => rewrite H; clear H end.
  reflexivity.
Qed.

(** X14. An entry has no [extra] when the payload has no [options] block
    or a false one (null, empty), whatever the action; and when the action
    passes none of the constructor's tests the block is not read at all:
    [extra] is [None] and no shape of the block can make the constructor
    fail. *)
Theorem extra_absent_without_options w data self :
  Entry._from_data w data = Ok self →
  (Py.truthy (raw_field data "options") = false → extra self = VNone)
  ∧ (takes_options (action self) = false → extra self = VNone)
  ∧ (∀ options, takes_options (action self) = false →
       Entry.decode_extra w (action self) options = Ok VNone).
Proof.
  intros Hrun. apply from_data_extra in Hrun. split; [|split].
  - intros Hfalse. rewrite Hfalse, andb_false_r in Hrun. by inversion Hrun.
  - intros Hno.
    destruct (is_member (action self) && Py.truthy (raw_field data "options"));
      [rewrite decode_extra_ignores in Hrun by done|]; by inversion Hrun.
  - intros options Hno. by apply decode_extra_ignores.
Qed.

Lemma or_else_placeholder found z v :
  or_else found (Object (VInt z)) = Ok v →
  v = (if Py.truthy found then found else placeholder z) ∧ v ≠ VNone.
Proof.
  unfold or_else. intros Hrun.
  assert (v = if Py.truthy found then found else placeholder z) as ->
    by (destruct (Py.truthy found); by inversion Hrun).
  split; [done|]. by apply truthy_not_None.
Qed.

(** X15. The channel kept in [extra] is never [None]. For a member move,
    a message deletion and the pin actions it is the channel or thread of
    the guild with the id read from [channel_id], for the stage-instance
    actions the channel with that id (threads are not consulted), and in
    both cases the opaque reference carrying the id when the guild has
    none. *)
Theorem extra_channel_never_absent w a options v :
  Entry.decode_extra w a options = Ok v →
  (takes_count_and_channel a = true ∨ takes_pin a = true →
   ∃ raw channel_id channel,
     Py.getitem options "channel_id" = Ok raw ∧ Py.int raw = Ok channel_id
     ∧ inst_getattr v "channel" = Ok channel ∧ channel ≠ VNone
     ∧ channel = (if Py.truthy (get_channel_or_thread (guild w) (Some channel_id))
                  then get_channel_or_thread (guild w) (Some channel_id)
                  else placeholder channel_id))
  ∧ (takes_stage_instance a = true →
     ∃ raw channel_id channel,
       Py.getitem options "channel_id" = Ok raw ∧ Py.int raw = Ok channel_id
       ∧ inst_getattr v "channel" = Ok channel ∧ channel ≠ VNone
       ∧ channel = (if Py.truthy (get_channel (guild w) (Some channel_id))
                    then get_channel (guild w) (Some channel_id)
                    else placeholder channel_id)).
Proof.
  unfold Entry.decode_extra. intros Hrun. split.
  - intros [Hmove|Hpin].
    + unfold takes_count_and_channel in Hmove.
      apply andb_true_iff in Hmove as [Hprune Hmove].
      apply negb_true_iff in Hprune. rewrite Hprune, Hmove in Hrun.
      apply rbind_Ok in Hrun as (raw & Hraw & Hrun).
      apply rbind_Ok in Hrun as (channel_id & Hint & Hrun).
      apply rbind_Ok in Hrun as (n & _ & Hrun).
      apply rbind_Ok in Hrun as (count & _ & Hrun).
      apply rbind_Ok in Hrun as (channel & Hchannel & Hrun).
      inversion Hrun; subst.
      apply or_else_placeholder in Hchannel as [Hc Hne].
      exists raw, channel_id, channel. by repeat split.
    + unfold takes_pin in Hpin.
      repeat (apply andb_true_iff in Hpin as [Hpin ?]).
      repeat match goal with
             | H : negb _ = true |- _ => apply negb_true_iff in H
             end.
      repeat match goal with
             | H : _ = false |- _ => rewrite H in Hrun; clear H
             | H : _ = true |- _ => rewrite H in Hrun; clear H
             end.
      apply rbind_Ok in Hrun as (raw & Hraw & Hrun).
      apply rbind_Ok in Hrun as (channel_id & Hint & Hrun).
      apply rbind_Ok in Hrun as (channel & Hchannel & Hrun).
      apply rbind_Ok in Hrun as (m & _ & Hrun).
      apply rbind_Ok in Hrun as (message_id & _ & Hrun).
      inversion Hrun; subst.
      apply or_else_placeholder in Hchannel as [Hc Hne].
      exists raw, channel_id, channel. by repeat split.
  - intros Hstage. unfold takes_stage_instance in Hstage.
    repeat (apply andb_true_iff in Hstage as [Hstage ?]).
    repeat match goal with
           | H : negb _ = true |- _ => apply negb_true_iff in H
           end.
    repeat match goal with
           | H : _ = false |- _ => rewrite H in Hrun; clear H
           | H : _ = true |- _ => rewrite H in Hrun; clear H
           end.
    apply rbind_Ok in Hrun as (raw & Hraw & Hrun).
    apply rbind_Ok in Hrun as (channel_id & Hint & Hrun).
    apply rbind_Ok in Hrun as (channel & Hchannel & Hrun).
    inversion Hrun; subst.
    apply or_else_placeholder in Hchannel as [Hc Hne].
    exists raw, channel_id, channel. by repeat split.
Qed.

End Extra.

Section ExtraAndTargets.
Context `{!Collaborators}.
Implicit Types (w : World) (self : AuditLogEntry) (a : action_t).

(** X16. For the overwrite actions [extra] is the overwritten member or
    role itself. With type ['1'] it is what the member lookup finds, [None]
    included; with type ['0'] it is the role of the guild or else the
    opaque reference named by [role_name], whose name is [None] when the
    block has no [role_name]; with any other type, a missing one included,
    it is [None]. *)
Theorem overwrite_extra_by_type w a options i instance_id :
  takes_overwrite a = true →
  Py.getitem options "id" = Ok i → Py.int i = Ok instance_id →
  let the_type := raw_field options "type" in
  (Py.eq_str the_type "1" = true →
   Entry.decode_extra w a options = Ok (_get_member w (Some instance_id)))
  ∧ (Py.eq_str the_type "0" = true →
     Entry.decode_extra w a options =
       Ok (match get_role (guild w) (Some instance_id) with
           | VNone => VInst "Object" [("id", VInt instance_id);
                                      ("name", raw_field options "role_name")]
           | role => role
           end))
  ∧ (Py.eq_str the_type "1" = false → Py.eq_str the_type "0" = false →
     Entry.decode_extra w a options = Ok VNone).
Proof.
  intros Htakes Hid Hint the_type. unfold the_type, Entry.decode_extra.
  unfold takes_overwrite in Htakes.
  repeat (apply andb_true_iff in Htakes as [Htakes ?]).
  repeat match goal with
         | H : negb _ = true |- _ => apply negb_true_iff in H
         end.
  repeat match goal with
         | H : _ = false |- _ => rewrite H; clear H
         | H : _ = true |- _ => rewrite H; clear H
         end.
  rewrite Hid. cbn [rbind]. rewrite Hint. cbn [rbind].
  destruct options as [| | | | | |items|]; try discriminate.
  unfold raw_field. cbn [Py.get Py.getitem rbind].
  destruct (Py.assoc "type" items) as [ty|]; cbn [from_option id]; split.
  - by intros ->.
  - split.
    + intros H0.
      assert (Py.eq_str ty "1" = false) as ->
        by (destruct ty; try done; cbn in *; apply String.eqb_eq in H0 as ->; done).
      rewrite H0.
      destruct (get_role (guild w) (Some instance_id)); try done.
      cbn. by destruct (Py.assoc "role_name" items).
    + by intros -> ->.
  - discriminate.
  - split; [discriminate|]. done.
Qed.

(** X17. A payload without [changes] gives an entry whose change-set
    decodes without a record: two empty containers, or, for the
    application-command permission update, two containers holding an empty
    permission list. *)
Theorem missing_changes_decode_empty w w' data self :
  Entry._from_data w data = Ok self →
  Py.getitem data "changes" = Raise KeyError →
  ∃ c self', Entry.changes w' self = Ok (c, self')
    ∧ (is_action (action self) "app_command_permission_update" = false →
       before c = [] ∧ after c = []
       ∧ Diff.__len__ (before c) = 0%nat ∧ Diff.__len__ (after c) = 0%nat)
    ∧ (is_action (action self) "app_command_permission_update" = true →
       before c = [("app_command_permissions", VList [])]
       ∧ after c = [("app_command_permissions", VList [])]).
Proof.
  intros Hbuilt Hnone.
  destruct (from_data_fresh _ _ _ Hbuilt) as (Hraw & Hc & _).
  unfold raw_changes in Hraw. rewrite Hnone in Hraw.
  unfold Entry.changes, Entry.cached_property. rewrite Hc, Hraw. cbn [rbind].
  unfold Changes.init.
  destruct (is_action (action self) "app_command_permission_update");
    eexists _, _; (split; [reflexivity|]); split; intros; done.
Qed.

Lemma converters_leave kind converter w self target_id v self' :
  Py.assoc kind Entry.converters = Some converter →
  kind ≠ "invite" →
  converter w self target_id = Ok (v, self') →
  self' = self.
Proof.
  unfold Entry.converters. cbn [Py.assoc]. intros Hconv Hkind.
  repeat match type of Hconv with
         | (if String.eqb kind ?s then _ else _) = _ =>
             destruct (String.eqb kind s) eqn:E;
             [ first
                 [ by apply String.eqb_eq in E
                 | injection Hconv as <-; intros Hrun;
                   first
                     [ by inversion Hrun; subst
                     | apply rbind_Ok in Hrun as (t & _ & Hrun);
                       by inversion Hrun; subst ] ]
             | clear E ]
         end.
  discriminate.
Qed.

(** X18. Only the invite resolver decodes the change-set. The first
    access to [target] of a coherent entry leaves the raw change list and
    the cache of [changes] untouched for every kind but [invite]; for the
    kind [invite] it drops the raw list and caches the change-set, which
    every later read of [changes] returns. *)
Theorem only_invite_target_decodes_changes w self kind v self' :
  coherent self →
  action_target_type (action self) = Some kind →
  cached_target self = None →
  Entry.target w self = Ok (v, self') →
  (kind ≠ "invite" →
   _changes self' = _changes self ∧ cached_changes self' = cached_changes self)
  ∧ (kind = "invite" →
     _changes self' = None
     ∧ ∃ c, cached_changes self' = Some c
         ∧ ∀ w', Entry.changes w' self' = Ok (c, self')).
Proof.
  intros Hco Hkind Hcache Hrun.
  rewrite (target_first _ _ _ Hkind Hcache) in Hrun.
  apply rbind_Ok in Hrun as ([v1 e1] & Hbody & Hrun). inversion Hrun; subst.
  split.
  - intros Hne.
    assert (e1 = self) as ->; [|done].
    destruct (Py.assoc kind Entry.converters) as [converter|] eqn:Hconv.
    + by eapply converters_leave.
    + destruct (_target_id self); [|by inversion Hbody].
      apply rbind_Ok in Hbody as (o & _ & Hbody). by inversion Hbody.
  - intros ->. cbn [Py.assoc Entry.converters String.eqb Ascii.eqb Bool.eqb] in Hbody.
    rewrite convert_target_invite_eq in Hbody.
    apply rbind_Ok in Hbody as ([d e2] & Hd & Hbody).
    apply rbind_Ok in Hbody as (obj & _ & Hbody). inversion Hbody; subst.
    assert (coherent e1 ∧ (cached_before e1 = Some d ∨ cached_after e1 = Some d))
      as [Hco1 Hcached].
    { destruct (is_action (action self) "invite_delete").
      - destruct (before_keeps _ _ _ _ Hco Hd) as (? & _ & ?). eauto.
      - destruct (after_keeps _ _ _ _ Hco Hd) as (? & _ & ?). eauto. }
    unfold coherent in Hco1. cbn.
    destruct (cached_changes e1) as [c|] eqn:Hc.
    + destruct Hco1 as (Hgone & _). split; [done|]. exists c. split; [done|].
      intros w'. unfold Entry.changes, Entry.cached_property. cbn. by rewrite Hc.
    + destruct Hco1 as (_ & Hb & Ha). destruct Hcached; congruence.
Qed.

End ExtraAndTargets.

(** ** The further properties on the sample world *)

Example containers_stay_paired_witness :
  let elems := [sample_add; change "color" (VInt 1) (VInt 2)] in
  ∃ c,
    (Py.iter (VList elems) = Ok elems
     ∧ Forall (λ elem, replaces_dict elem = false) elems
     ∧ @Changes.init sample_collaborators sample_world sample_role_entry
         (VList elems) = Ok c)
    ∧ map fst (Diff.__iter__ (before c)) = map fst (Diff.__iter__ (after c))
    ∧ NoDup (map fst (Diff.__iter__ (before c)))
    ∧ Diff.__len__ (before c) = Diff.__len__ (after c).
Proof.
  intros elems.
  assert (Forall (λ elem, replaces_dict elem = false) elems) as Hplain
    by (by repeat constructor).
  eexists. split; [by repeat split|].
  apply (@containers_stay_paired sample_collaborators sample_world sample_role_entry
           (VList elems) elems); [reflexivity | by intros _ | reflexivity].
Defined.

Example permission_update_shape_witness :
  ∃ c,
    (is_action (action sample_permission_entry) "app_command_permission_update" = true
     ∧ @Changes.init sample_collaborators sample_world sample_permission_entry
         (VList [VDict [("key", VStr "7");
                        ("old_value", VDict [("type", VInt 1); ("permission", VBool true)])]])
       = Ok c)
    ∧ permission_list (before c) ∧ permission_list (after c).
Proof.
  eexists. split; [split; reflexivity|].
  apply (@permission_update_shape sample_collaborators sample_world
           sample_permission_entry
           (VList [VDict [("key", VStr "7");
                          ("old_value",
                           VDict [("type", VInt 1); ("permission", VBool true)])]]));
    reflexivity.
Defined.

Example last_record_wins_witness :
  let pre := [change "color" (VInt 1) (VInt 2)] in
  let elem := change "colour" (VStr "x") (VStr "y") in
  let post := [change "nick" (VStr "a") (VStr "b")] in
  ∃ c,
    (is_action (action sample_role_entry) "app_command_permission_update" = false
     ∧ Py.getitem elem "key" = Ok (VStr "colour")
     ∧ Forall (λ later, @written sample_collaborators later ≠ Some "colour"
                        ∧ replaces_dict later = false) post
     ∧ @Changes.init sample_collaborators sample_world sample_role_entry
         (VList (pre ++ elem :: post)) = Ok c)
    ∧ getattr (before c) "colour" = Ok (VStr "x")
    ∧ getattr (after c) "colour" = Ok (VStr "y").
Proof.
  intros pre elem post.
  assert (Forall (λ later, @written sample_collaborators later ≠ Some "colour"
                          ∧ replaces_dict later = false) post)
    as Hpost by (repeat constructor; discriminate).
  eexists. split; [by repeat split|].
  edestruct (@last_record_wins sample_collaborators sample_world sample_role_entry
               pre elem post "colour")
    as (vb & va & Hvb & Hva & Hb & Ha);
    [reflexivity | reflexivity | discriminate | discriminate | discriminate
    | discriminate | discriminate | exact Hpost | reflexivity |].
  injection Hvb as <-. injection Hva as <-. by split.
Defined.

Example last_role_record_wins_witness :
  let elem := VDict [("key", VStr "$add"); ("new_value", VList [stub "8" "retired"])] in
  let roles := [VInst "Object" [("id", VInt 8); ("name", VStr "retired")]] in
  ∃ c,
    (is_action (action sample_role_entry) "app_command_permission_update" = false
     ∧ mapM (Changes.role_of_stub sample_world) [stub "8" "retired"] = Ok roles
     ∧ role_record "$add" [stub "8" "retired"] elem
     ∧ @Changes.init sample_collaborators sample_world sample_role_entry
         (VList ([sample_add] ++ elem :: [])) = Ok c)
    ∧ getattr (after c) "roles" = Ok (VList roles).
Proof.
  intros elem roles. eexists. split; [by repeat split|].
  edestruct (@last_role_record_wins sample_collaborators sample_world sample_role_entry
               [sample_add] elem [] [stub "8" "retired"] roles)
    as [Hadd _]; [reflexivity | reflexivity | constructor | reflexivity |].
  destruct Hadd as [Hafter _]; [by split|]. exact Hafter.
Defined.

Example absent_and_null_fields_witness :
  let elem := VDict [("key", VStr "id")] in
  (Py.getitem elem "key" = Ok (VStr "id")
   ∧ Py.getitem elem "old_value" = Raise KeyError
   ∧ Py.getitem elem "new_value" = Raise KeyError)
  ∧ @Changes.decode_record sample_collaborators sample_world sample_role_entry
      ([], []) elem = Ok ([("id", VNone)], [("id", VNone)]).
Proof.
  intros elem. split; [by repeat split|].
  destruct (@absent_and_null_fields sample_collaborators sample_world sample_role_entry
              elem "id" [] [] eq_refl) as [Habsent _];
    [discriminate | discriminate |].
  exact (Habsent eq_refl eq_refl).
Defined.

Example reserved_keys_witness :
  let elem := change "__dict__" (VDict [("x", VInt 1)]) (VDict []) in
  (Py.getitem elem "key" = Ok (VStr "__dict__") ∧ reserved "__dict__" = true)
  ∧ @Changes.decode_record sample_collaborators sample_world sample_role_entry
      ([("nick", VStr "a")], [("nick", VStr "b")]) elem = Ok ([("x", VInt 1)], []).
Proof.
  intros elem. split; [by split|].
  exact (@reserved_keys_are_not_stored sample_collaborators sample_world
           sample_role_entry elem "__dict__" [("nick", VStr "a")] [("nick", VStr "b")]
           eq_refl eq_refl).
Defined.

Example first_failure_aborts_witness :
  let pre := [change "nick" (VStr "a") (VStr "b")] in
  let elem := VDict [("old_value", VInt 1)] in
  let post := [change "color" (VInt 1) (VInt 2)] in
  let st := ([("nick", VStr "a")], [("nick", VStr "b")]) in
  (is_action (action sample_role_entry) "app_command_permission_update" = false
   ∧ foldM (@Changes.decode_record sample_collaborators sample_world sample_role_entry)
       ([], []) pre = Ok st
   ∧ @Changes.decode_record sample_collaborators sample_world sample_role_entry st elem
     = Raise KeyError)
  ∧ @Changes.init sample_collaborators sample_world sample_role_entry
      (VList (pre ++ elem :: post)) = Raise KeyError.
Proof.
  intros pre elem post st. split; [by repeat split|].
  apply (@first_failure_aborts sample_collaborators sample_world sample_role_entry
           pre elem post st KeyError); reflexivity.
Defined.


Example transform_channel_witness :
  VStr "50" ≠ VNone
  ∧ _transform_channel sample_world sample_role_entry (VStr "50")
    = Ok (VInst "TextChannel" [("id", VInt 50)])
  ∧ _transform_channel sample_world sample_role_entry (VStr "51")
    = Ok (placeholder 51).
Proof.
  split; [discriminate|]. split.
  - destruct (transform_channel_falls_back sample_world sample_role_entry (VStr "50"))
      as [Hread _]; [discriminate|].
    exact (proj1 (Hread 50 eq_refl)).
  - destruct (transform_channel_falls_back sample_world sample_role_entry (VStr "51"))
      as [Hread _]; [discriminate|].
    exact (proj1 (Hread 51 eq_refl)).
Defined.

Example member_reference_witness :
  (VStr "5" ≠ VNone ∧ Py.int (VStr "5") = Ok 5
   ∧ get_member (guild sample_world) (Some 5) = VNone
   ∧ _users sample_world !! 5 = None)
  ∧ _transform_member_id sample_world sample_role_entry (VStr "5")
    = _transform_member_id sample_world sample_role_entry VNone.
Proof.
  split; [by repeat split|].
  destruct (member_and_guild_references_may_vanish sample_world sample_role_entry
              (VStr "5") 5) as (_ & Hvanish & _); [discriminate | reflexivity |].
  exact (Hvanish eq_refl eq_refl).
Defined.

Example transform_overwrites_witness :
  ∃ v,
    @_transform_overwrites sample_collaborators sample_world sample_role_entry
      (VList sample_overwrites) = Ok v
    ∧ ∃ pairs, v = VList pairs
        ∧ length pairs = length sample_overwrites
        ∧ Forall2 (overwrite_of sample_world) sample_overwrites pairs.
Proof.
  eexists. split; [reflexivity|].
  apply (@transform_overwrites_pairs sample_collaborators sample_world
           sample_role_entry sample_overwrites).
  reflexivity.
Defined.

Example constructor_defers_changes_witness :
  ∃ self,
    @Entry._from_data sample_collaborators sample_world sample_unknown_payload = Ok self
    ∧ _changes self = Some (raw_changes sample_unknown_payload)
    ∧ cached_changes self = None ∧ coherent self.
Proof.
  eexists. split; [reflexivity|].
  edestruct (@constructor_defers_changes sample_collaborators sample_world
               sample_unknown_payload) as (Hraw & Hc & _ & _ & _ & _ & _ & Hco);
    [reflexivity|].
  by repeat split.
Defined.

Example properties_keep_witness :
  ∃ r self',
    (coherent sample_invite_entry
     ∧ @access sample_collaborators p_target sample_world sample_invite_entry
       = Ok (r, self'))
    ∧ coherent self' ∧ eager self' = eager sample_invite_entry.
Proof.
  assert (coherent sample_invite_entry) as Hco by (by repeat split).
  eexists _, _. split; [split; [exact Hco|reflexivity]|].
  eapply (@properties_keep_entry_coherent sample_collaborators p_target sample_world
            sample_invite_entry); [exact Hco | reflexivity].
Defined.

Example before_and_after_witness :
  ∃ d1 self1 d2 self2,
    (coherent sample_invite_entry
     ∧ @Entry.before sample_collaborators sample_world sample_invite_entry
       = Ok (d1, self1)
     ∧ @Entry.after sample_collaborators emptied_world self1 = Ok (d2, self2))
    ∧ ∃ c, @Entry.changes sample_collaborators emptied_world self2 = Ok (c, self2)
        ∧ before c = d1 ∧ after c = d2.
Proof.
  assert (coherent sample_invite_entry) as Hco by (by repeat split).
  eexists _, _, _, _. split; [split; [exact Hco|split; reflexivity]|].
  eapply (@before_and_after_belong_to_changes sample_collaborators
            sample_world emptied_world emptied_world sample_invite_entry);
    [exact Hco | reflexivity | reflexivity].
Defined.

Example extra_absent_witness :
  ∃ self,
    (@Entry._from_data sample_collaborators sample_world sample_plain_payload = Ok self
     ∧ Py.truthy (raw_field sample_plain_payload "options") = false)
    ∧ extra self = VNone.
Proof.
  eexists. split; [split; reflexivity|].
  edestruct (@extra_absent_without_options sample_collaborators sample_world
               sample_plain_payload) as [Hfalse _]; [reflexivity|].
  exact (Hfalse eq_refl).
Defined.

Example extra_channel_witness :
  let options := VDict [("channel_id", VStr "51"); ("count", VStr "3")] in
  ∃ v,
    (@Entry.decode_extra sample_collaborators sample_world sample_message_delete options
       = Ok v
     ∧ takes_count_and_channel sample_message_delete = true)
    ∧ inst_getattr v "channel" = Ok (placeholder 51).
Proof.
  intros options. eexists. split; [split; reflexivity|].
  edestruct (@extra_channel_never_absent sample_collaborators sample_world
               sample_message_delete options) as [Hchannel _]; [reflexivity|].
  destruct Hchannel as (raw & channel_id & channel & Hraw & Hint & Hget & _ & Hc);
    [by left|].
  injection Hraw as <-. injection Hint as <-. rewrite Hget, Hc. reflexivity.
Defined.

Example overwrite_extra_witness :
  let options := VDict [("id", VStr "999"); ("type", VStr "0")] in
  (@takes_overwrite sample_collaborators sample_overwrite_update = true
   ∧ Py.getitem options "id" = Ok (VStr "999") ∧ Py.int (VStr "999") = Ok 999
   ∧ Py.eq_str (raw_field options "type") "0" = true)
  ∧ @Entry.decode_extra sample_collaborators sample_world sample_overwrite_update options
    = Ok (VInst "Object" [("id", VInt 999); ("name", VNone)]).
Proof.
  intros options. split; [by repeat split|].
  destruct (@overwrite_extra_by_type sample_collaborators sample_world
              sample_overwrite_update options (VStr "999") 999 eq_refl eq_refl eq_refl)
    as (_ & Hrole & _).
  exact (Hrole eq_refl).
Defined.

Example missing_changes_witness :
  ∃ self c self',
    (@Entry._from_data sample_collaborators sample_world sample_plain_payload = Ok self
     ∧ Py.getitem sample_plain_payload "changes" = Raise KeyError)
    ∧ @Entry.changes sample_collaborators emptied_world self = Ok (c, self')
    ∧ before c = [] ∧ after c = [].
Proof.
  eexists _, _, _. split; [split; reflexivity|].
  edestruct (@missing_changes_decode_empty sample_collaborators sample_world
               emptied_world sample_plain_payload)
    as (c & self' & Hchanges & Hempty & _); [reflexivity | reflexivity |].
  destruct Hempty as (Hb & Ha & _); [reflexivity|].
  injection Hchanges as <- <-. split; [reflexivity|]. by split.
Defined.

Example only_invite_target_witness :
  ∃ v self',
    (coherent sample_invite_entry
     ∧ action_target_type (action sample_invite_entry) = Some "invite"
     ∧ cached_target sample_invite_entry = None
     ∧ @Entry.target sample_collaborators sample_world sample_invite_entry
       = Ok (v, self'))
    ∧ _changes self' = None.
Proof.
  assert (coherent sample_invite_entry) as Hco by (by repeat split).
  eexists _, _. split; [split; [exact Hco|by repeat split]|].
  edestruct (@only_invite_target_decodes_changes sample_collaborators sample_world
               sample_invite_entry "invite")
    as [_ Hinvite]; [exact Hco | reflexivity | reflexivity | reflexivity |].
  exact (proj1 (Hinvite eq_refl)).
Defined.

Section Construction.
Context `{!Collaborators}.
Implicit Types (w : World) (self : AuditLogEntry).

(** X19. The [options] block is decoded by the constructor itself: when
    the action is a member of the enum, the block is true and its decoding
    raises, no entry is built and the exception is the constructor's. The
    change list plays no part in this: the payload may hold anything
    there. *)
Theorem malformed_options_fail_construction w data action_type raw_id number e :
  Py.getitem data "action_type" = Ok action_type →
  is_member (try_enum action_type) = true →
  Py.getitem data "id" = Ok raw_id → Py.int raw_id = Ok number →
  Py.truthy (raw_field data "options") = true →
  Entry.decode_extra w (try_enum action_type) (raw_field data "options") = Raise e →
  Entry._from_data w data = Raise e.
Proof.
  intros Hat Hmember Hid Hint Htrue Hextra. unfold Entry._from_data.
  rewrite Hat. cbn [rbind]. rewrite Hid. cbn [rbind]. rewrite Hint. cbn [rbind].
  destruct data as [| | | | | |items|]; try discriminate.
  cbn [Py.get rbind].
  replace (from_option id VNone (Py.assoc "options" items))
    with (raw_field (VDict items) "options")
    by (unfold raw_field; simpl; by destruct (Py.assoc "options" items)).
  by rewrite Hmember, Htrue, Hextra.
Qed.

End Construction.

Example malformed_options_witness :
  (Py.getitem sample_prune_payload "action_type" = Ok (VInt 21)
   ∧ is_member (@try_enum sample_collaborators (VInt 21)) = true
   ∧ Py.getitem sample_prune_payload "id" = Ok (VStr "12")
   ∧ Py.int (VStr "12") = Ok 12
   ∧ Py.truthy (raw_field sample_prune_payload "options") = true
   ∧ @Entry.decode_extra sample_collaborators sample_world
       (@try_enum sample_collaborators (VInt 21))
       (raw_field sample_prune_payload "options") = Raise KeyError)
  ∧ @Entry._from_data sample_collaborators sample_world sample_prune_payload
    = Raise KeyError.
Proof.
  split; [by repeat split|].
  apply (@malformed_options_fail_construction sample_collaborators sample_world
           sample_prune_payload (VInt 21) (VStr "12") 12 KeyError); reflexivity.
Defined.
